(** * cfshare: a shallow embedding of the share server, the persisted state
      and the process supervision code, with the properties of the
      specification proved (or refuted) on it.

    Layout: the Go packages are embedded as modules that keep the names of
    the source: [strings], [filepath], [json] and [sort] for the standard
    packages the code leans on, then [state], [auth], [server], [tunnel] and
    [main]. What the operating system and net/http decide (the file system,
    the outcome of a system call, the liveness of a process, the time) is an
    input of the functions: a record of oracles. The vocabulary of the
    properties and the data of the examples come next, and the lemmas and
    theorems last. *)

From Stdlib Require Import Ascii String ZArith Lia Bool Permutation.
From Stdlib Require Import OrderedTypeEx.
From stdpp Require Import base option list gmap strings sorting.

Set Warnings "-register-all".
Local Open Scope Z_scope.

(* ===================================================================== *)
(** ** Package strings (Go standard library), on byte strings *)
(* ===================================================================== *)

Module strings.

(** [strings.HasPrefix(s, prefix)] *)
Fixpoint HasPrefix (s pre : string) {struct pre} : bool :=
  match pre with
  | EmptyString => true
  | String a pre' =>
      match s with
      | EmptyString => false
      | String b s' => bool_decide (a = b) && HasPrefix s' pre'
      end
  end.

(** drop the first [n] bytes: [s[n:]] *)
Fixpoint drop (n : nat) (s : string) : string :=
  match n, s with
  | O, _ => s
  | S n', String _ s' => drop n' s'
  | S _, EmptyString => EmptyString
  end.

(** [strings.TrimPrefix(s, prefix)] *)
Definition TrimPrefix (s pre : string) : string :=
  if HasPrefix s pre then drop (String.length pre) s else s.

(** [strings.HasSuffix(s, "/")] *)
Fixpoint HasSuffixSlash (s : string) : bool :=
  match s with
  | EmptyString => false
  | String c EmptyString => bool_decide (c = "/"%char)
  | String _ s' => HasSuffixSlash s'
  end.

(** [strings.TrimSuffix(s, "/")] *)
Fixpoint TrimSuffixSlash (s : string) : string :=
  match s with
  | EmptyString => EmptyString
  | String c EmptyString => if bool_decide (c = "/"%char) then EmptyString else s
  | String c s' => String c (TrimSuffixSlash s')
  end.

(** [strings.Split(s, "/")]: the segments between the separators; never
    the empty list ([Split("", "/")] is one empty segment). *)
Fixpoint Split (s : string) : list string :=
  match s with
  | EmptyString => [EmptyString]
  | String c s' =>
      if bool_decide (c = "/"%char) then EmptyString :: Split s'
      else match Split s' with
           | seg :: rest => String c seg :: rest
           | [] => [String c EmptyString]
           end
  end.

(** [strings.SplitN(s, "/", 2)]: the text before the first separator and,
    when there is a separator, the text after it. *)
Fixpoint SplitN2 (s : string) : string * option string :=
  match s with
  | EmptyString => (EmptyString, None)
  | String c s' =>
      if bool_decide (c = "/"%char) then (EmptyString, Some s')
      else let '(hd, tl) := SplitN2 s' in (String c hd, tl)
  end.

(** [strings.SplitN(s, ":", 2)], used on the decoded credentials *)
Fixpoint SplitColon2 (s : string) : string * option string :=
  match s with
  | EmptyString => (EmptyString, None)
  | String c s' =>
      if bool_decide (c = ":"%char) then (EmptyString, Some s')
      else let '(hd, tl) := SplitColon2 s' in (String c hd, tl)
  end.

(** [strings.Join(elems, "/")] *)
Definition Join (elems : list string) : string := String.concat "/" elems.

(** the bytes [0x22] and [0x0a], and [fmt.Sprintf] of a quoted [%s] *)
Definition dquote : string := String (ascii_of_nat 34) EmptyString.
Definition newline : string := String (ascii_of_nat 10) EmptyString.
Definition quoted (s : string) : string := dquote +:+ s +:+ dquote.

(** the byte-wise order of Go's [<] on strings *)
Definition lt (a b : string) : bool := String.ltb a b.

(** [strings.Split(s, sep)] for a separator of one byte, as [cmdLogs] uses
    it on the line feed *)
Fixpoint SplitByte (sep : ascii) (s : string) : list string :=
  match s with
  | EmptyString => [EmptyString]
  | String c s' =>
      if bool_decide (c = sep) then EmptyString :: SplitByte sep s'
      else match SplitByte sep s' with
           | seg :: rest => String c seg :: rest
           | [] => [String c EmptyString]
           end
  end.

End strings.

(* ===================================================================== *)
(** ** Package path/filepath (Go standard library, Unix flavour)

    The package is not part of the repository; it is modelled from its
    documented rules. [Clean] works on the path elements: empty elements
    and [.] are dropped, an inner [..] removes the element before it, a
    [..] that would climb above the root of a rooted path is dropped, and
    the leading [..] elements of a relative path are kept. *)
(* ===================================================================== *)

Module filepath.

(** [os.IsPathSeparator(path[0])] *)
Definition rooted (path : string) : bool := strings.HasPrefix path "/".

(** One element of the input against the output written so far; [out]
    holds the elements already written, the last one first. *)
Definition clean_elem (is_rooted : bool) (out : list string) (e : string)
  : list string :=
  if decide (e = "") then out
  else if decide (e = ".") then out
  else if decide (e = "..") then
    match out with
    | top :: below =>
        if decide (top = "..") then ".." :: out   (* leading ../.. prefix *)
        else below                                 (* backtrack *)
    | [] => if is_rooted then [] else [".."]
    end
  else e :: out.

Definition clean_elems (is_rooted : bool) (elems : list string) : list string :=
  rev (fold_left (clean_elem is_rooted) elems []).

(** [filepath.Clean(path)] *)
Definition Clean (path : string) : string :=
  if decide (path = "") then "."
  else
    let out := clean_elems (rooted path) (strings.Split path) in
    if rooted path then "/" +:+ strings.Join out
    else match out with
         | [] => "."
         | _ => strings.Join out
         end.

(** [filepath.Join(elem...)]: the elements from the first non-empty one
    on, joined with the separator and cleaned. *)
Fixpoint Join (elem : list string) : string :=
  match elem with
  | [] => ""
  | e :: rest => if decide (e = "") then Join rest
                 else Clean (strings.Join elem)
  end.

(** [filepath.IsAbs(path)] *)
Definition IsAbs (path : string) : bool := strings.HasPrefix path "/".

(** [filepath.Abs(path)], given the result of [os.Getwd()] *)
Definition Abs (wd : option string) (path : string) : option string :=
  if IsAbs path then Some (Clean path)
  else match wd with
       | Some d => Some (Join [d; path])
       | None => None
       end.

(** the last non-empty element of a path, if any *)
Definition last_elem (path : string) : option string :=
  last (filter (λ e, e ≠ "") (strings.Split path)).

(** [filepath.Base(path)] *)
Definition Base (path : string) : string :=
  if decide (path = "") then "."
  else match last_elem path with
       | Some e => e
       | None => "/"
       end.

(** [filepath.Dir(path)]: everything up to and including the last
    separator, cleaned. *)
Definition Dir (path : string) : string :=
  match rev (strings.Split path) with
  | _ :: (_ :: _) as before => Clean (strings.Join (rev ("" :: before)))
  | _ => Clean ""
  end.

End filepath.

(* ===================================================================== *)
(** ** Package config (internal/config)

    [home] is the result of [os.UserHomeDir()], [None] when it fails. *)
(* ===================================================================== *)

Module config.

Definition DefaultPort : Z := 8787.
Definition DefaultUsername : string := "dl".
Definition PasswordLength : nat := 16.
Definition StateFileName : string := "state.json".
Definition AccessLogFileName : string := "access.log".
Definition TunnelName : string := "cfshare".

Definition GetConfigDir (home : option string) : string :=
  match home with
  | None => ".cfshare"
  | Some home => filepath.Join [home; ".cfshare"]
  end.

Definition GetStatePath (home : option string) : string :=
  filepath.Join [GetConfigDir home; StateFileName].

Definition GetAccessLogPath (home : option string) : string :=
  filepath.Join [GetConfigDir home; AccessLogFileName].

Definition GetPidFilePath (home : option string) : string :=
  filepath.Join [GetConfigDir home; "server.pid"].

Definition GetTunnelPidFilePath (home : option string) : string :=
  filepath.Join [GetConfigDir home; "tunnel.pid"].

Definition GetStatsPath (home : option string) : string :=
  filepath.Join [GetConfigDir home; "stats.json"].

End config.

(* ===================================================================== *)
(** ** Package encoding/json (Go standard library), at the level of documents

    A state file is modelled by the JSON document it holds, not by its
    bytes: the text layer of the encoder (indentation, escaping, the
    replacement of bytes that are not UTF-8) is outside the repository, and
    strings are taken to survive it. Numbers are the integers the code
    stores; keys are matched exactly. *)
(* ===================================================================== *)

Module json.

Inductive value : Type :=
| Null
| Bool (b : bool)
| Num (n : Z)
| Str (s : string)
| Arr (elems : list value)
| Obj (fields : list (string * value)).

(** the value a decoder ends up with for key [k]: objects are read key by
    key, so that a later occurrence overwrites an earlier one *)
Fixpoint get (k : string) (fields : list (string * value)) : option value :=
  match fields with
  | [] => None
  | (k', v) :: rest =>
      match get k rest with
      | Some v' => Some v'
      | None => if String.eqb k' k then Some v else None
      end
  end.

(** Decoding into a Go string, int or bool field that holds [zero]: an
    absent key and [null] leave the field alone, a value of another JSON
    type is an UnmarshalTypeError ([None]). *)
Definition dec_string (zero : string) (o : option value) : option string :=
  match o with
  | None | Some Null => Some zero
  | Some (Str s) => Some s
  | Some _ => None
  end.

Definition dec_int (zero : Z) (o : option value) : option Z :=
  match o with
  | None | Some Null => Some zero
  | Some (Num n) => Some n
  | Some _ => None
  end.

Definition dec_bool (zero : bool) (o : option value) : option bool :=
  match o with
  | None | Some Null => Some zero
  | Some (Bool b) => Some b
  | Some _ => None
  end.

(** Decoding into a nil slice *)
Definition dec_slice {A} (dec : value → option A) (o : option value)
  : option (list A) :=
  match o with
  | None | Some Null => Some []
  | Some (Arr elems) => mapM dec elems
  | Some _ => None
  end.

(** the [omitempty] tag on a string and on a slice *)
Definition omit_string (k s : string) : list (string * value) :=
  if decide (s = "") then [] else [(k, Str s)].

Definition omit_slice {A} (k : string) (enc : A → value) (l : list A)
  : list (string * value) :=
  match l with [] => [] | _ => [(k, Arr (map enc l))] end.

End json.

(* ===================================================================== *)
(** ** Package state (internal/state) *)
(* ===================================================================== *)

Module state.

(** [type ShareMode string], [type ShareType string] *)
Definition ShareMode := string.
Definition ModeProtected : ShareMode := "protected".
Definition ModePublic : ShareMode := "public".

Definition ShareType := string.
Definition TypeFile : ShareType := "file".
Definition TypeDir : ShareType := "dir".

(** [time.Time], carried as the RFC 3339 text that encoding/json writes *)
Definition Time := string.
Definition zeroTime : Time := "0001-01-01T00:00:00Z".

Module AccessRecord.
Record t : Type := mk {
  Time : Time;
  Path : string;
  StatusCode : Z;
  BytesSent : Z;
  RemoteAddr : string
}.
End AccessRecord.

Module ShareItem.
Record t : Type := mk {
  Path : string;
  Name : string;
  ShareType : ShareType;
  Size : Z
}.
End ShareItem.

Module State.
Record t : Type := mk {
  ShareID : string;
  Mode : ShareMode;
  Port : Z;
  Items : list ShareItem.t;
  IsMulti : bool;
  Path : string;
  ShareType : ShareType;
  ServerPID : Z;
  TunnelPID : Z;
  Username : string;
  Password : string;
  StartTime : Time;
  LastAccess : Time;
  RequestCount : Z;
  RecentAccess : list AccessRecord.t;
  PublicURL : string
}.

(** [State{}], the zero value *)
Definition zero : t :=
  mk "" "" 0 [] false "" "" 0 0 "" "" zeroTime zeroTime 0 [] "".

Definition set_Items (v : list ShareItem.t) (s : t) : t :=
  mk (ShareID s) (Mode s) (Port s) v (IsMulti s) (Path s) (ShareType s)
     (ServerPID s) (TunnelPID s) (Username s) (Password s) (StartTime s)
     (LastAccess s) (RequestCount s) (RecentAccess s) (PublicURL s).
Definition set_IsMulti (v : bool) (s : t) : t :=
  mk (ShareID s) (Mode s) (Port s) (Items s) v (Path s) (ShareType s)
     (ServerPID s) (TunnelPID s) (Username s) (Password s) (StartTime s)
     (LastAccess s) (RequestCount s) (RecentAccess s) (PublicURL s).
Definition set_Path (v : string) (s : t) : t :=
  mk (ShareID s) (Mode s) (Port s) (Items s) (IsMulti s) v (ShareType s)
     (ServerPID s) (TunnelPID s) (Username s) (Password s) (StartTime s)
     (LastAccess s) (RequestCount s) (RecentAccess s) (PublicURL s).
Definition set_ShareType (v : state.ShareType) (s : t) : t :=
  mk (ShareID s) (Mode s) (Port s) (Items s) (IsMulti s) (Path s) v
     (ServerPID s) (TunnelPID s) (Username s) (Password s) (StartTime s)
     (LastAccess s) (RequestCount s) (RecentAccess s) (PublicURL s).
Definition set_ServerPID (v : Z) (s : t) : t :=
  mk (ShareID s) (Mode s) (Port s) (Items s) (IsMulti s) (Path s) (ShareType s)
     v (TunnelPID s) (Username s) (Password s) (StartTime s)
     (LastAccess s) (RequestCount s) (RecentAccess s) (PublicURL s).
End State.

(** *** The JSON form of the three structs, by their field tags *)

Definition marshalAccessRecord (r : AccessRecord.t) : json.value :=
  json.Obj [("time", json.Str (AccessRecord.Time r));
            ("path", json.Str (AccessRecord.Path r));
            ("status_code", json.Num (AccessRecord.StatusCode r));
            ("bytes_sent", json.Num (AccessRecord.BytesSent r));
            ("remote_addr", json.Str (AccessRecord.RemoteAddr r))].

Definition unmarshalAccessRecord (j : json.value) : option AccessRecord.t :=
  match j with
  | json.Null => Some (AccessRecord.mk zeroTime "" 0 0 "")
  | json.Obj fs =>
      t ← json.dec_string zeroTime (json.get "time" fs);
      p ← json.dec_string "" (json.get "path" fs);
      c ← json.dec_int 0 (json.get "status_code" fs);
      b ← json.dec_int 0 (json.get "bytes_sent" fs);
      a ← json.dec_string "" (json.get "remote_addr" fs);
      Some (AccessRecord.mk t p c b a)
  | _ => None
  end.

Definition marshalShareItem (it : ShareItem.t) : json.value :=
  json.Obj [("path", json.Str (ShareItem.Path it));
            ("name", json.Str (ShareItem.Name it));
            ("share_type", json.Str (ShareItem.ShareType it));
            ("size", json.Num (ShareItem.Size it))].

Definition unmarshalShareItem (j : json.value) : option ShareItem.t :=
  match j with
  | json.Null => Some (ShareItem.mk "" "" "" 0)
  | json.Obj fs =>
      p ← json.dec_string "" (json.get "path" fs);
      n ← json.dec_string "" (json.get "name" fs);
      t ← json.dec_string "" (json.get "share_type" fs);
      z ← json.dec_int 0 (json.get "size" fs);
      Some (ShareItem.mk p n t z)
  | _ => None
  end.

(** [json.MarshalIndent(s, "", "  ")] on a [State], fields in the order of
    the struct, the [omitempty] ones left out when empty *)
Definition marshalState (s : State.t) : json.value :=
  json.Obj
    ([("share_id", json.Str (State.ShareID s));
      ("mode", json.Str (State.Mode s));
      ("port", json.Num (State.Port s))]
     ++ json.omit_slice "items" marshalShareItem (State.Items s)
     ++ [("is_multi", json.Bool (State.IsMulti s))]
     ++ json.omit_string "path" (State.Path s)
     ++ json.omit_string "share_type" (State.ShareType s)
     ++ [("server_pid", json.Num (State.ServerPID s));
         ("tunnel_pid", json.Num (State.TunnelPID s))]
     ++ json.omit_string "username" (State.Username s)
     ++ json.omit_string "password" (State.Password s)
     ++ [("start_time", json.Str (State.StartTime s));
         ("last_access", json.Str (State.LastAccess s));
         ("request_count", json.Num (State.RequestCount s))]
     ++ json.omit_slice "recent_access" marshalAccessRecord (State.RecentAccess s)
     ++ [("public_url", json.Str (State.PublicURL s))]).

(** [json.Unmarshal(data, &s)] into a fresh [State] *)
Definition unmarshalState (j : json.value) : option State.t :=
  match j with
  | json.Null => Some State.zero
  | json.Obj fs =>
      share_id ← json.dec_string "" (json.get "share_id" fs);
      mode ← json.dec_string "" (json.get "mode" fs);
      port ← json.dec_int 0 (json.get "port" fs);
      items ← json.dec_slice unmarshalShareItem (json.get "items" fs);
      is_multi ← json.dec_bool false (json.get "is_multi" fs);
      path ← json.dec_string "" (json.get "path" fs);
      share_type ← json.dec_string "" (json.get "share_type" fs);
      server_pid ← json.dec_int 0 (json.get "server_pid" fs);
      tunnel_pid ← json.dec_int 0 (json.get "tunnel_pid" fs);
      username ← json.dec_string "" (json.get "username" fs);
      password ← json.dec_string "" (json.get "password" fs);
      start_time ← json.dec_string zeroTime (json.get "start_time" fs);
      last_access ← json.dec_string zeroTime (json.get "last_access" fs);
      request_count ← json.dec_int 0 (json.get "request_count" fs);
      recent ← json.dec_slice unmarshalAccessRecord (json.get "recent_access" fs);
      public_url ← json.dec_string "" (json.get "public_url" fs);
      Some (State.mk share_id mode port items is_multi path share_type
              server_pid tunnel_pid username password start_time last_access
              request_count recent public_url)
  | _ => None
  end.

(** *** The files under the configuration directory *)

Inductive File : Type :=
| NoFile                      (* os.IsNotExist *)
| ReadError                   (* any other read error *)
| Malformed                   (* bytes that are not a JSON document *)
| Doc (j : json.value).

Record Disk : Type := mkDisk {
  state_file : File;          (* config.GetStatePath() *)
  stats_file : File;          (* <config dir>/stats.json *)
  dir_ok : bool;              (* config.EnsureConfigDir() succeeds *)
  write_ok : bool;            (* os.WriteFile of the state file succeeds *)
  stats_open_ok : bool;       (* os.OpenFile of the stats file succeeds *)
  stats_lock_ok : bool        (* syscall.Flock(LOCK_EX) succeeds *)
}.

Definition set_state_file (f : File) (d : Disk) : Disk :=
  mkDisk f (stats_file d) (dir_ok d) (write_ok d) (stats_open_ok d) (stats_lock_ok d).
Definition set_stats_file (f : File) (d : Disk) : Disk :=
  mkDisk (state_file d) f (dir_ok d) (write_ok d) (stats_open_ok d) (stats_lock_ok d).

Inductive Error : Type :=
| ErrReadStateFile | ErrParseStateFile
| ErrCreateConfigDir | ErrWriteStateFile
| ErrOpenStats | ErrLockStats.

(** the three outcomes of [Load]: [(nil, nil)], [(nil, err)], [(&s, nil)] *)
Inductive LoadResult : Type :=
| LoadNil
| LoadErr (e : Error)
| LoadOk (s : State.t).

(** the legacy layout: no items but a path *)
Definition migrate (s : State.t) : State.t :=
  if bool_decide (length (State.Items s) = 0%nat) && negb (bool_decide (State.Path s = ""))
  then State.set_IsMulti false
         (State.set_Items
            [ShareItem.mk (State.Path s) (filepath.Base (State.Path s))
                          (State.ShareType s) 0] s)
  else s.

Definition Load (d : Disk) : LoadResult :=
  match state_file d with
  | NoFile => LoadNil
  | ReadError => LoadErr ErrReadStateFile
  | Malformed => LoadErr ErrParseStateFile
  | Doc j =>
      match unmarshalState j with
      | None => LoadErr ErrParseStateFile
      | Some s => LoadOk (migrate s)
      end
  end.

(** the compatibility fields brought in line with the items, as [Save]
    does on the receiver before it marshals *)
Definition sync_legacy (s : State.t) : State.t :=
  match State.Items s with
  | [it] =>
      State.set_IsMulti false
        (State.set_ShareType (ShareItem.ShareType it)
           (State.set_Path (ShareItem.Path it) s))
  | _ :: _ :: _ =>
      State.set_ShareType "" (State.set_Path "" (State.set_IsMulti true s))
  | [] => s
  end.

(** [(s *State) Save()]: the error, the receiver afterwards, the disk *)
Definition Save (s : State.t) (d : Disk) : option Error * State.t * Disk :=
  if negb (dir_ok d) then (Some ErrCreateConfigDir, s, d)
  else
    let s' := sync_legacy s in
    if negb (write_ok d) then (Some ErrWriteStateFile, s', d)
    else (None, s', set_state_file (Doc (marshalState s')) d).

(** [Clear()] *)
Definition Clear (d : Disk) : Disk := set_state_file NoFile d.

(** *** The access statistics *)

Module Stats.
Record t : Type := mk {
  RequestCount : Z;
  LastAccess : Time;
  RecentAccess : list AccessRecord.t
}.
Definition zero : t := mk 0 zeroTime [].
End Stats.

Definition marshalStats (s : Stats.t) : json.value :=
  json.Obj ([("request_count", json.Num (Stats.RequestCount s));
             ("last_access", json.Str (Stats.LastAccess s))]
            ++ json.omit_slice "recent_access" marshalAccessRecord (Stats.RecentAccess s)).

(** [json.Unmarshal(data, &stats)] with the error dropped: a field whose
    value does not fit keeps its zero value *)
Definition unmarshalStats (f : File) : Stats.t :=
  match f with
  | Doc (json.Obj fs) =>
      Stats.mk
        (default 0 (json.dec_int 0 (json.get "request_count" fs)))
        (default zeroTime (json.dec_string zeroTime (json.get "last_access" fs)))
        (default [] (json.dec_slice unmarshalAccessRecord (json.get "recent_access" fs)))
  | _ => Stats.zero
  end.

(** [s[len(s)-10:]] when [len(s) > 10] *)
Definition last10 {A} (l : list A) : list A :=
  if bool_decide (10 < length l)%nat then drop (length l - 10) l else l.

Definition UpdateAccessStats (record : AccessRecord.t) (d : Disk)
  : option Error * Disk :=
  if negb (stats_open_ok d) then (Some ErrOpenStats, d)
  else
    (* O_CREATE: the file exists from here on *)
    let d := match stats_file d with
             | NoFile => set_stats_file Malformed d
             | _ => d
             end in
    if negb (stats_lock_ok d) then (Some ErrLockStats, d)
    else
      let stats := unmarshalStats (stats_file d) in
      let stats' :=
        Stats.mk (Stats.RequestCount stats + 1)
                 (AccessRecord.Time record)
                 (last10 (Stats.RecentAccess stats ++ [record])) in
      (None, set_stats_file (Doc (marshalStats stats')) d).

Definition LoadStats (d : Disk) : Z * Time * list AccessRecord.t :=
  match stats_file d with
  | NoFile | ReadError => (0, zeroTime, [])
  | f => let s := unmarshalStats f in
         (Stats.RequestCount s, Stats.LastAccess s, Stats.RecentAccess s)
  end.

(** [(s *State) RecordAccess(record)] *)
Definition RecordAccess (record : AccessRecord.t) (s : State.t) : State.t :=
  State.mk (State.ShareID s) (State.Mode s) (State.Port s) (State.Items s)
    (State.IsMulti s) (State.Path s) (State.ShareType s) (State.ServerPID s)
    (State.TunnelPID s) (State.Username s) (State.Password s) (State.StartTime s)
    (AccessRecord.Time record) (State.RequestCount s + 1)
    (last10 (State.RecentAccess s ++ [record])) (State.PublicURL s).

(** [(s *State) IsRunning()], given the signal-0 probe; [None] is the nil
    receiver *)
Definition IsRunning (probe : Z → bool) (s : option State.t) : bool :=
  match s with
  | None => false
  | Some s => if bool_decide (State.ServerPID s = 0) then false
              else probe (State.ServerPID s)
  end.

End state.

(* ===================================================================== *)
(** ** Package sort (Go standard library)

    [sort.Slice] promises a permutation of its input in which no element is
    [less] than one before it, and no stability. The model is a merge sort
    on the relation "not [less b a]"; [Slice_unique] below shows that the
    choice of algorithm does not matter where [less] tells all elements
    apart. *)
(* ===================================================================== *)

Module sort.

Definition not_after {A} (less : A → A → bool) (a b : A) : Prop :=
  less b a = false.

#[global] Instance not_after_dec {A} (less : A → A → bool) (a b : A) :
  Decision (not_after less a b).
Proof. unfold not_after. apply _. Defined.

Definition Slice {A} (less : A → A → bool) (x : list A) : list A :=
  merge_sort (not_after less) x.

End sort.

(* ===================================================================== *)
(** ** What the server sees of the operating system and of net/http *)
(* ===================================================================== *)

Module os.

Inductive StatResult : Type :=
| StatOk (isDir : bool) (size : Z) (modTime : state.Time)
| StatNotExist                (* os.IsNotExist(err) *)
| StatError.                  (* any other error *)

Module DirEntry.
Record t : Type := mk {
  Name : string;
  IsDir : bool;
  (** [entry.Info()]: size and modification time, [None] on error *)
  Info : option (Z * state.Time)
}.
End DirEntry.

End os.

Module http.

Definition StatusOK : Z := 200.
Definition StatusUnauthorized : Z := 401.
Definition StatusForbidden : Z := 403.
Definition StatusNotFound : Z := 404.
Definition StatusInternalServerError : Z := 500.

Module Request.
Record t : Type := mk {
  URL_Path : string;
  Method : string;
  RemoteAddr : string;
  UserAgent : string;
  (** [r.Header.Get("Authorization")], empty when the header is absent *)
  Authorization : string
}.
End Request.

End http.

(* ===================================================================== *)
(** ** The types of package server (internal/server)

    They stand before package auth, whose middleware writes a response. *)
(* ===================================================================== *)

Module server_types.

Module FileInfo.
Record t : Type := mk {
  Name : string;
  Size : Z;
  ModTime : state.Time;
  IsDir : bool;
  Path : string
}.
End FileInfo.

(** the data handed to the directory template *)
Record Listing : Type := mkListing {
  listing_Path : string;
  listing_Files : list FileInfo.t;
  listing_Parent : string
}.

Inductive Body : Type :=
| BodyError (msg : string)          (* http.Error, http.NotFound *)
| BodyText (text : string)          (* w.Write *)
| BodyListing (data : Listing)      (* tmpl.Execute(w, data) *)
| BodyFile (path : string).         (* http.ServeFile(w, r, path) *)

(** A response: the status the logging wrapper would see, the headers the
    repository's handlers set, the body and the bytes written. *)
Record Response : Type := mkResponse {
  statusCode : Z;
  header : gmap string string;
  body : Body;
  written : Z
}.

(** The environment of one request. *)
Record Env : Type := mkEnv {
  getwd : option string;                              (* os.Getwd *)
  stat : string → os.StatResult;                      (* os.Stat *)
  evalSymlinks : string → option string;              (* filepath.EvalSymlinks *)
  readDir : string → option (list os.DirEntry.t);     (* os.ReadDir *)
  serveFile : string → http.Request.t → Z * Z;        (* status and bytes of http.ServeFile *)
  renderSize : Listing → Z;                           (* bytes of the rendered template *)
  now : state.Time;                                   (* time.Now() *)
  since_ms : Z                                        (* time.Since(start).Milliseconds() *)
}.

End server_types.

(* ===================================================================== *)
(** ** Package auth (internal/auth) *)
(* ===================================================================== *)

Module auth.
Import server_types.

Definition charset : string :=
  "abcdefghijklmnopqrstuvwxyzABCDEFGHIJKLMNOPQRSTUVWXYZ0123456789".

(** [GeneratePassword(length)]: [random i] is the byte that [rand.Read]
    left in [b[i]]; each byte is replaced by [charset[b[i] % len(charset)]].
    [None] would be an index out of range. *)
Definition GeneratePassword (random : nat → ascii) (length : nat) : option string :=
  string_of_list_ascii
    <$> mapM (λ i, String.get (nat_of_ascii (random i) mod String.length charset)%nat
                              charset)
             (seq 0 length).

(** [unauthorized(w)] *)
Definition unauthorized : Response :=
  mkResponse http.StatusUnauthorized
             {[ "WWW-Authenticate" := "Basic realm=" +:+ strings.quoted "cfshare" ]}
             (BodyText ("Unauthorized" +:+ strings.newline)) 13.

Section middleware.
(** [base64.StdEncoding.DecodeString] *)
Variable b64decode : string → option string.
Context {W : Type}.

(** [BasicAuthMiddleware(username, password, next)] *)
Definition BasicAuthMiddleware (username password : string)
    (next : http.Request.t → W → Response * W)
    (r : http.Request.t) (w : W) : Response * W :=
  let auth := http.Request.Authorization r in
  if decide (auth = "") then (unauthorized, w)
  else if negb (strings.HasPrefix auth "Basic ") then (unauthorized, w)
  else match b64decode (strings.drop 6 auth) with
       | None => (unauthorized, w)
       | Some decoded =>
           match strings.SplitColon2 decoded with
           | (_, None) => (unauthorized, w)
           | (user, Some pass) =>
               let usernameMatch := bool_decide (user = username) in
               let passwordMatch := bool_decide (pass = password) in
               if negb usernameMatch || negb passwordMatch
               then (unauthorized, w)
               else next r w
           end
       end.
End middleware.

End auth.

(* ===================================================================== *)
(** ** Package server (internal/server) *)
(* ===================================================================== *)

Module server.
Import server_types.
Import state.

Record Server : Type := mkServer {
  items : list ShareItem.t;
  itemMap : gmap string ShareItem.t;      (* name -> item *)
  isMulti : bool;
  sharePath : string;
  shareType : ShareType
}.

Inductive Error : Type :=
| ErrNoPaths
| ErrInvalidPath (p : string)
| ErrCannotAccess (p : string)
| ErrNameConflict (name : string).

Inductive Result (A : Type) : Type :=
| Ok (a : A)
| Err (e : Error).
Arguments Ok {A} a.
Arguments Err {A} e.

(** the loop of [buildItemMap], from the map built so far *)
Fixpoint buildItemMap_from (result : gmap string ShareItem.t)
    (items : list ShareItem.t) : Result (gmap string ShareItem.t) :=
  match items with
  | [] => Ok result
  | it :: rest =>
      let name := ShareItem.Name it in
      match result !! name with
      | Some _ => Err (ErrNameConflict name)
      | None => buildItemMap_from (<[name := it]> result) rest
      end
  end.

Definition buildItemMap (items : list ShareItem.t)
  : Result (gmap string ShareItem.t) :=
  buildItemMap_from ∅ items.

(** the first loop of [NewServer]: one item per path, or the first error *)
Fixpoint statItems (env : Env) (paths : list string) : Result (list ShareItem.t) :=
  match paths with
  | [] => Ok []
  | p :: rest =>
      match filepath.Abs (getwd env) p with
      | None => Err (ErrInvalidPath p)
      | Some absPath =>
          match stat env absPath with
          | os.StatOk isDir size _ =>
              let item :=
                if isDir
                then ShareItem.mk absPath (filepath.Base absPath) TypeDir 0
                else ShareItem.mk absPath (filepath.Base absPath) TypeFile size in
              match statItems env rest with
              | Ok items => Ok (item :: items)
              | Err e => Err e
              end
          | _ => Err (ErrCannotAccess p)
          end
      end
  end.

(** [NewServer(paths, st)]: the server and the state it was given, as
    left by the call; on an error the state is as it was. *)
Definition NewServer (env : Env) (paths : list string) (st : State.t)
  : Result (Server * State.t) :=
  match paths with
  | [] => Err ErrNoPaths
  | _ =>
      match statItems env paths with
      | Err e => Err e
      | Ok items =>
          match buildItemMap items with
          | Err e => Err e
          | Ok itemMap =>
              match items with
              | [it] =>
                  let st' :=
                    State.set_IsMulti false
                      (State.set_ShareType (ShareItem.ShareType it)
                         (State.set_Path (ShareItem.Path it)
                            (State.set_Items items st))) in
                  Ok (mkServer items itemMap false
                        (ShareItem.Path it) (ShareItem.ShareType it), st')
              | _ =>
                  let st' := State.set_IsMulti true (State.set_Items items st) in
                  Ok (mkServer items itemMap true "" "", st')
              end
          end
      end
  end.

(** *** Responses *)

(** [http.Error(w, msg, code)]: the message and a newline *)
Definition Error_ (h : gmap string string) (msg : string) (code : Z) : Response :=
  mkResponse code h (BodyError msg) (Z.of_nat (String.length msg) + 1).

(** [http.NotFound(w, r)] *)
Definition NotFound (h : gmap string string) : Response :=
  Error_ h "404 page not found" http.StatusNotFound.

(** [http.ServeFile(w, r, path)] after the attachment header *)
Definition attach (env : Env) (r : http.Request.t) (h : gmap string string)
    (fileName path : string) : Response :=
  let h := <["Content-Disposition" :=
               "attachment; filename=" +:+ strings.quoted fileName]> h in
  mkResponse (serveFile env path r).1 h (BodyFile path) (serveFile env path r).2.

(** [tmpl.Execute(w, data)] after the content type header; nothing sets a
    status, so the wrapper keeps its 200 *)
Definition render (env : Env) (h : gmap string string) (data : Listing) : Response :=
  mkResponse http.StatusOK (<["Content-Type" := "text/html; charset=utf-8"]> h)
             (BodyListing data) (renderSize env data).

(** *** Listings *)

(** the [less] of the three [sort.Slice] calls *)
Definition less (a b : FileInfo.t) : bool :=
  if negb (eqb (FileInfo.IsDir a) (FileInfo.IsDir b)) then FileInfo.IsDir a
  else strings.lt (FileInfo.Name a) (FileInfo.Name b).

(** the loop over [os.ReadDir]'s entries: an entry whose [Info()] fails is
    skipped; [entryPath] gets a trailing slash on directories *)
Definition filesOf (pathOf : string → string) (entries : list os.DirEntry.t)
  : list FileInfo.t :=
  omap (λ entry,
          match os.DirEntry.Info entry with
          | None => None
          | Some (size, modTime) =>
              let entryPath := pathOf (os.DirEntry.Name entry) in
              Some (FileInfo.mk (os.DirEntry.Name entry) size modTime
                      (os.DirEntry.IsDir entry)
                      (if os.DirEntry.IsDir entry then entryPath +:+ "/"
                       else entryPath))
          end) entries.

(** the files of [listVirtualRoot], before sorting *)
Definition rootFiles (env : Env) (items : list ShareItem.t) : list FileInfo.t :=
  map (λ item,
         let isDir := bool_decide (ShareItem.ShareType item = TypeDir) in
         let path := "/" +:+ ShareItem.Name item in
         FileInfo.mk (ShareItem.Name item) (ShareItem.Size item)
           (match stat env (ShareItem.Path item) with
            | os.StatOk _ _ modTime => modTime
            | _ => now env
            end)
           isDir
           (if isDir then path +:+ "/" else path)) items.

Definition listVirtualRoot (s : Server) (env : Env) (h : gmap string string)
  : Response :=
  let files := sort.Slice less (rootFiles env (items s)) in
  render env h (mkListing "/" files "").

Definition listDirectoryWithBase (env : Env) (h : gmap string string)
    (fullPath urlPrefix subPath : string) : Response :=
  match readDir env fullPath with
  | None => Error_ h "Internal Server Error" http.StatusInternalServerError
  | Some entries =>
      let currentPath :=
        if decide (subPath = "") then urlPrefix
        else urlPrefix +:+ "/" +:+ subPath in
      let files :=
        sort.Slice less (filesOf (λ name, currentPath +:+ "/" +:+ name) entries) in
      let parent :=
        if decide (subPath = "") then "/"
        else
          let parent := urlPrefix +:+ "/" +:+ filepath.Dir subPath in
          if decide (parent = urlPrefix +:+ "/.") then urlPrefix else parent in
      let displayPath :=
        if strings.HasSuffixSlash currentPath then currentPath
        else currentPath +:+ "/" in
      render env h (mkListing displayPath files parent)
  end.

Definition listDirectory (env : Env) (h : gmap string string)
    (fullPath reqPath : string) : Response :=
  match readDir env fullPath with
  | None => Error_ h "Internal Server Error" http.StatusInternalServerError
  | Some entries =>
      let files :=
        sort.Slice less (filesOf (λ name, filepath.Join [reqPath; name]) entries) in
      render env h
        (mkListing reqPath files (filepath.Dir (strings.TrimSuffixSlash reqPath)))
  end.

(** *** The handlers *)

Definition serveFile_ (s : Server) (env : Env) (r : http.Request.t)
    (h : gmap string string) : Response :=
  let reqPath := http.Request.URL_Path r in
  let fileName := filepath.Base (sharePath s) in
  if negb (bool_decide (reqPath = "/"))
     && negb (bool_decide (reqPath = "/" +:+ fileName))
  then NotFound h
  else attach env r h fileName (sharePath s).

Definition serveDir (s : Server) (env : Env) (r : http.Request.t)
    (h : gmap string string) : Response :=
  let reqPath := strings.TrimPrefix (filepath.Clean (http.Request.URL_Path r)) "/" in
  if strings.HasPrefix reqPath ".."
  then Error_ h "Forbidden" http.StatusForbidden
  else
    let fullPath := filepath.Join [sharePath s; reqPath] in
    if negb (strings.HasPrefix fullPath (sharePath s))
    then Error_ h "Forbidden" http.StatusForbidden
    else
      if match evalSymlinks env fullPath with
         | Some realPath => negb (strings.HasPrefix realPath (sharePath s))
         | None => false
         end
      then Error_ h "Forbidden" http.StatusForbidden
      else match stat env fullPath with
           | os.StatNotExist => NotFound h
           | os.StatError =>
               Error_ h "Internal Server Error" http.StatusInternalServerError
           | os.StatOk true _ _ => listDirectory env h fullPath reqPath
           | os.StatOk false _ _ =>
               attach env r h (filepath.Base fullPath) fullPath
           end.

Definition serveDirWithBase (env : Env) (r : http.Request.t)
    (h : gmap string string) (basePath urlPrefix subPath : string) : Response :=
  let cleanSub := filepath.Clean subPath in
  let cleanSub := if decide (cleanSub = ".") then "" else cleanSub in
  if strings.HasPrefix cleanSub ".."
  then Error_ h "Forbidden" http.StatusForbidden
  else
    let realBasePath := default basePath (evalSymlinks env basePath) in
    let fullPath :=
      if decide (cleanSub = "") then realBasePath
      else filepath.Join [realBasePath; cleanSub] in
    if negb (strings.HasPrefix fullPath realBasePath)
    then Error_ h "Forbidden" http.StatusForbidden
    else
      if match evalSymlinks env fullPath with
         | Some realFullPath => negb (strings.HasPrefix realFullPath realBasePath)
         | None => false
         end
      then Error_ h "Forbidden" http.StatusForbidden
      else match stat env fullPath with
           | os.StatNotExist => NotFound h
           | os.StatError =>
               Error_ h "Internal Server Error" http.StatusInternalServerError
           | os.StatOk true _ _ =>
               listDirectoryWithBase env h fullPath urlPrefix subPath
           | os.StatOk false _ _ =>
               attach env r h (filepath.Base fullPath) fullPath
           end.

Definition handleMultiShare (s : Server) (env : Env) (r : http.Request.t)
    (h : gmap string string) : Response :=
  let reqPath := strings.TrimPrefix (filepath.Clean (http.Request.URL_Path r)) "/" in
  if bool_decide (reqPath = "/") || bool_decide (reqPath = ".")
     || bool_decide (reqPath = "")
  then listVirtualRoot s env h
  else
    let trimmedPath := strings.TrimPrefix reqPath "/" in
    let '(itemName, rest) := strings.SplitN2 trimmedPath in
    let subPath := default "" rest in
    match itemMap s !! itemName with
    | None => NotFound h
    | Some item =>
        if decide (ShareItem.ShareType item = TypeFile) then
          if negb (bool_decide (subPath = "")) then NotFound h
          else attach env r h (ShareItem.Name item) (ShareItem.Path item)
        else
          serveDirWithBase env r h (ShareItem.Path item) ("/" +:+ itemName) subPath
    end.

Definition handleRequest (s : Server) (env : Env) (r : http.Request.t) : Response :=
  let h : gmap string string := {[ "Cache-Control" := "no-store" ]} in
  if negb (isMulti s) then
    if decide (shareType s = TypeFile) then serveFile_ s env r h
    else serveDir s env r h
  else handleMultiShare s env r h.

(** *** Logging and the handler chain *)

(** one line of the access log *)
Record LogEntry : Type := mkLogEntry {
  log_time : Time;
  log_path : string;
  log_method : string;
  log_status : Z;
  log_bytes : Z;
  log_remote_addr : string;
  log_user_agent : string;
  log_duration_ms : Z
}.

(** what a request can change: the files of the configuration directory *)
Record World : Type := mkWorld {
  disk : Disk;
  access_log : list LogEntry;         (* access.log, oldest line first *)
  log_open_ok : bool                  (* os.OpenFile of access.log succeeds *)
}.

Definition appendToAccessLog (entry : LogEntry) (w : World) : World :=
  if negb (log_open_ok w) then w
  else mkWorld (disk w) (access_log w ++ [entry]) (log_open_ok w).

(** the same on the bytes of access.log ([None]: no such file yet): the
    entry and a line feed go to the end of the file, or nothing happens
    when the file cannot be opened *)
Definition appendToAccessLog_bytes (open_ok : bool) (entry : string)
    (file : option string) : option string :=
  if negb open_ok then file
  else Some (default "" file +:+ entry +:+ strings.newline).

Definition Handler : Type := http.Request.t → World → Response * World.

Definition loggingMiddleware (env : Env) (next : Handler) : Handler :=
  λ r w,
    let start := now env in
    let '(rw, w) := next r w in
    let record :=
      AccessRecord.mk start (http.Request.URL_Path r) (statusCode rw)
                      (written rw) (http.Request.RemoteAddr r) in
    let w := mkWorld (UpdateAccessStats record (disk w)).2
                     (access_log w) (log_open_ok w) in
    let logEntry :=
      mkLogEntry start (http.Request.URL_Path r) (http.Request.Method r)
                 (statusCode rw) (written rw) (http.Request.RemoteAddr r)
                 (http.Request.UserAgent r) (since_ms env) in
    (rw, appendToAccessLog logEntry w).

(** The handler that [(s *Server) Start(port, username, password)] mounts
    at "/" before it listens. *)
Definition Start (b64decode : string → option string) (s : Server) (env : Env)
    (username password : string) : Handler :=
  let handler : Handler := λ r w, (handleRequest s env r, w) in
  let handler := loggingMiddleware env handler in
  if negb (bool_decide (username = "")) && negb (bool_decide (password = ""))
  then auth.BasicAuthMiddleware b64decode username password handler
  else handler.

End server.

(* ===================================================================== *)
(** ** Processes, signals and the clock, as the controller sees them *)
(* ===================================================================== *)

Module sys.

Inductive Signal : Type := SIGTERM | SIGKILL.

(** a child to start: the server ([exe __server__ <paths> <port> <user>
    <password>]) or the tunnel client ([cloudflared tunnel ... run <name>]) *)
Inductive Command : Type :=
| CmdServer (paths : list string) (port : Z) (username password : string)
| CmdTunnel (tunnelName : string).

(** what the controller does to the world besides writing files *)
Inductive Event : Type :=
| EvSignal (pid : Z) (sig : Signal)
| EvStart (cmd : Command) (pid : Z)
| EvSleep (ms : Z).

(** a pid file: absent, not a decimal number, or a pid *)
Inductive PidFile : Type := NoPidFile | BadPidFile | Pid (pid : Z).

(** The answers of the operating system, which the code cannot change. *)
Record Oracle : Type := mkOracle {
  configDir : string;                 (* config.GetConfigDir() *)
  getwd : option string;              (* os.Getwd() *)
  stat : string → os.StatResult;      (* os.Stat *)
  probe : Z → Z → bool;               (* signal 0 to a pid at a time: no error *)
  wait_ms : Z → option Z;             (* ms until process.Wait() returns; None: never *)
  executable_ok : bool;               (* os.Executable() *)
  lookPath_ok : bool;                 (* exec.LookPath("cloudflared") *)
  log_ok : bool;                      (* os.OpenFile of the child's log *)
  start : Command → option Z;         (* cmd.Start(): the pid of the child *)
  savePID_ok : bool                   (* os.WriteFile of tunnel.pid *)
}.

(** What the code changes. *)
Record System : Type := mkSystem {
  disk : state.Disk;
  clock : Z;                          (* ms *)
  server_pid : PidFile;               (* server.pid *)
  tunnel_pid : PidFile;               (* tunnel.pid *)
  events : list Event                 (* oldest first *)
}.

Definition set_disk (d : state.Disk) (s : System) : System :=
  mkSystem d (clock s) (server_pid s) (tunnel_pid s) (events s).
Definition set_server_pid (p : PidFile) (s : System) : System :=
  mkSystem (disk s) (clock s) p (tunnel_pid s) (events s).
Definition set_tunnel_pid (p : PidFile) (s : System) : System :=
  mkSystem (disk s) (clock s) (server_pid s) p (events s).
Definition emit (e : Event) (s : System) : System :=
  mkSystem (disk s) (clock s) (server_pid s) (tunnel_pid s) (events s ++ [e]).
Definition advance (ms : Z) (s : System) : System :=
  mkSystem (disk s) (clock s + ms) (server_pid s) (tunnel_pid s) (events s).

(** [time.Sleep(ms * time.Millisecond)] *)
Definition Sleep (ms : Z) (s : System) : System :=
  emit (EvSleep ms) (advance ms s).

(** [process.Signal(sig)] *)
Definition signal (pid : Z) (sig : Signal) (s : System) : System :=
  emit (EvSignal pid sig) s.

(** What [cmdStop] and [cmdShare] ask of the operating system besides. *)
Record ShareOracle : Type := mkShareOracle {
  remove_state_ok : bool;             (* os.Remove of the state file: done, or no file *)
  remove_pid_ok : bool;               (* os.Remove of server.pid: done, or no file *)
  rand_Read : nat → ascii;            (* the bytes of crypto/rand *)
  getPublicURL : string → option string;  (* (m *Manager) GetPublicURL() *)
  unixText : Z → string;              (* fmt.Sprintf("%d", time.Now().Unix()) *)
  timeText : Z → state.Time           (* time.Now() *)
}.

End sys.

(* ===================================================================== *)
(** ** Package tunnel (internal/tunnel) *)
(* ===================================================================== *)

Module tunnel.
Import sys.

Inductive Error : Type :=
| ErrCloudflaredNotFound
| ErrCreateTunnelLog
| ErrStartCloudflared
| ErrSaveTunnelPid
| ErrDiedImmediately (logPath : string).

(** [(m *Manager) isProcessRunning(pid)] *)
Definition isProcessRunning (o : Oracle) (pid : Z) (s : System) : bool :=
  probe o pid (clock s).

(** [(m *Manager) removePIDFile()] *)
Definition removePIDFile (s : System) : System := set_tunnel_pid NoPidFile s.

(** [(m *Manager) GetRunningPID()] *)
Definition GetRunningPID (o : Oracle) (s : System) : Z * System :=
  match tunnel_pid s with
  | NoPidFile | BadPidFile => (0, s)
  | Pid pid =>
      if negb (isProcessRunning o pid s) then (0, removePIDFile s)
      else (pid, s)
  end.

(** [(m *Manager) Start()] *)
Definition Start (o : Oracle) (tunnelName : string) (s : System)
  : Z * option Error * System :=
  if negb (lookPath_ok o) then (0, Some ErrCloudflaredNotFound, s)
  else
    let '(pid, s) := GetRunningPID o s in
    if bool_decide (pid > 0) then (pid, None, s)
    else
      let logPath := configDir o +:+ "/tunnel.log" in
      if negb (log_ok o) then (0, Some ErrCreateTunnelLog, s)
      else
        match start o (CmdTunnel tunnelName) with
        | None => (0, Some ErrStartCloudflared, s)
        | Some pid =>
            let s := emit (EvStart (CmdTunnel tunnelName) pid) s in
            if negb (savePID_ok o)
            then (pid, Some ErrSaveTunnelPid, signal pid SIGKILL s)
            else
              let s := set_tunnel_pid (Pid pid) s in
              let s := Sleep 500 s in
              if negb (isProcessRunning o pid s)
              then (0, Some (ErrDiedImmediately logPath), s)
              else (pid, None, s)
        end.

(** [(m *Manager) Stop()]: nothing to do without a running pid; otherwise
    the terminate request, the race between [process.Wait()] and the five
    seconds, the kill when the timer wins, and the pid file removed. The
    signal cannot fail here: the probe of [GetRunningPID] has just
    succeeded. *)
Definition Stop (o : Oracle) (s : System) : System :=
  let '(pid, s) := GetRunningPID o s in
  if bool_decide (pid ≤ 0) then s
  else
    let s := signal pid SIGTERM s in
    let s :=
      match wait_ms o pid with
      | Some ms =>
          if bool_decide (ms < 5000) then advance ms s
          else signal pid SIGKILL (advance 5000 s)
      | None => signal pid SIGKILL (advance 5000 s)
      end in
    removePIDFile s.

(** [(m *Manager) ForceStop()] *)
Definition ForceStop (o : Oracle) (s : System) : System :=
  let '(pid, s) := GetRunningPID o s in
  if bool_decide (pid ≤ 0) then removePIDFile s
  else removePIDFile (signal pid SIGKILL s).

(** [(m *Manager) IsRunning()] *)
Definition IsRunning (o : Oracle) (s : System) : bool * System :=
  let '(pid, s) := GetRunningPID o s in (bool_decide (pid > 0), s).

End tunnel.

(* ===================================================================== *)
(** ** Package main: the controller commands *)
(* ===================================================================== *)

Module main.
Import sys.
Import state.

(** why a command ended in [os.Exit(1)], or in a panic *)
Inductive ExitReason : Type :=
| ErrLoadState (e : state.Error)
| ErrNoActiveShare
| ErrPathMissing (path : string)
| ErrNameExists (name : string)
| ErrSaveState (e : state.Error)
| ErrRestartServer
| ErrNoItems
| ErrItemsNotFound
| ErrRemoveAll
| PanicNilFileInfo.

Inductive Outcome (A : Type) : Type :=
| Return (a : A) (s : System)
| Exit (why : ExitReason) (s : System).
Arguments Return {A} a s.
Arguments Exit {A} why s.

Definition final {A} (out : Outcome A) : System :=
  match out with Return _ s | Exit _ s => s end.

(** commands thread the system and stop at the first exit *)
Definition M (A : Type) : Type := System → Outcome A.
Definition ret {A} (a : A) : M A := λ s, Return a s.
Definition bind {A B} (m : M A) (k : A → M B) : M B :=
  λ s, match m s with
       | Return a s' => k a s'
       | Exit why s' => Exit why s'
       end.
Definition exit {A} (why : ExitReason) : M A := λ s, Exit why s.
Definition effect (f : System → System) : M unit := λ s, Return tt (f s).

Notation "'let*' x ':=' m 'in' k" := (bind m (λ x, k))
  (at level 10, x name, m at level 100, k at level 200).
Notation "'run*' m 'in' k" := (bind m (λ _, k))
  (at level 10, m at level 100, k at level 200).

(** [state.Load()] and [st.Save()] on the system's disk *)
Definition load : M LoadResult := λ s, Return (Load (disk s)) s.
Definition save (st : State.t) : M (option state.Error * State.t) :=
  λ s, let '(err, st', d) := Save st (disk s) in
       Return (err, st') (set_disk d s).

(** [stopProcess(pid, force)]: [os.FindProcess] cannot fail here; the
    [select] takes the branch of [done] when [process.Wait()] returns
    within the three seconds, and the timer's otherwise. *)
Definition stopProcess (o : Oracle) (pid : Z) (force : bool) : M unit :=
  if force then effect (signal pid SIGKILL)
  else
    run* effect (signal pid SIGTERM) in
    match wait_ms o pid with
    | Some ms =>
        if bool_decide (ms < 3000) then effect (advance ms)
        else run* effect (advance 3000) in effect (signal pid SIGKILL)
    | None => run* effect (advance 3000) in effect (signal pid SIGKILL)
    end.

Inductive SpawnError : Type :=
| ErrGetExecutable | ErrCreateLogFile | ErrStartServer.

(** [startServerProcess(paths, port, username, password)] *)
Definition startServerProcess (o : Oracle) (paths : list string) (port : Z)
    (username password : string) : M (Z * option SpawnError) :=
  if negb (executable_ok o) then ret (0, Some ErrGetExecutable)
  else if negb (log_ok o) then ret (0, Some ErrCreateLogFile)
  else
    let cmd := CmdServer paths port username password in
    match start o cmd with
    | None => ret (0, Some ErrStartServer)
    | Some pid =>
        run* effect (emit (EvStart cmd pid)) in
        run* effect (set_server_pid (Pid pid)) in
        run* effect (Sleep 300) in
        ret (pid, None)
    end.

(** [restartServer(st)] *)
Definition restartServer (o : Oracle) (st : State.t) : M State.t :=
  run* (if bool_decide (State.ServerPID st > 0)
      then run* stopProcess o (State.ServerPID st) false in effect (Sleep 300)
      else ret tt) in
  let paths := map ShareItem.Path (State.Items st) in
  let* r := startServerProcess o paths (State.Port st)
        (State.Username st) (State.Password st) in
  match r with
  | (_, Some _) => exit ErrRestartServer
  | (serverPID, None) =>
      let* r := save (State.set_ServerPID serverPID st) in
      ret r.2
  end.

(** the name under which [cmdAdd] would share [path] *)
Definition displayName (o : Oracle) (path : string) : string :=
  filepath.Base (default "" (filepath.Abs (getwd o) path)).

(** the loop of [cmdAdd] over the new paths *)
Fixpoint addItems (o : Oracle) (paths : list string)
    (existingNames : gmap string bool) (newItems : list ShareItem.t)
  : M (list ShareItem.t) :=
  match paths with
  | [] => ret newItems
  | path :: rest =>
      match stat o path with
      | os.StatOk _ _ _ =>
          let absPath := default "" (filepath.Abs (getwd o) path) in
          let name := filepath.Base absPath in
          if default false (existingNames !! name) then exit (ErrNameExists name)
          else
            match stat o absPath with
            | os.StatOk isDir size _ =>
                let item :=
                  if isDir then ShareItem.mk absPath name TypeDir 0
                  else ShareItem.mk absPath name TypeFile size in
                addItems o rest (<[name := true]> existingNames)
                         (newItems ++ [item])
            | _ => exit PanicNilFileInfo
            end
      | _ => exit (ErrPathMissing path)
      end
  end.

(** [existingNames[item.Name] = true] for each item *)
Definition nameSet (names : list string) : gmap string bool :=
  foldl (λ m name, <[name := true]> m) ∅ names.

(** [cmdAdd(paths)] *)
Definition cmdAdd (o : Oracle) (paths : list string) : M unit :=
  let* r := load in
  match r with
  | LoadErr e => exit (ErrLoadState e)
  | LoadNil => exit ErrNoActiveShare
  | LoadOk st =>
      let* s := (λ s, Return s s) in
      if negb (IsRunning (λ pid, probe o pid (clock s)) (Some st))
      then exit ErrNoActiveShare
      else
        let existingNames := nameSet (map ShareItem.Name (State.Items st)) in
        let* newItems := addItems o paths existingNames [] in
        let st := State.set_Items (State.Items st ++ newItems) st in
        let st := State.set_IsMulti (bool_decide (1 < length (State.Items st))%nat) st in
        let* r := save st in
        match r with
        | (Some e, _) => exit (ErrSaveState e)
        | (None, st) => run* restartServer o st in ret tt
        end
  end.

(** the loop of [cmdRemove] over the items: those kept and the names of
    those removed *)
Fixpoint partitionItems (toRemove : gmap string bool) (items : list ShareItem.t)
  : list ShareItem.t * list string :=
  match items with
  | [] => ([], [])
  | item :: rest =>
      let '(remaining, removed) := partitionItems toRemove rest in
      if default false (toRemove !! ShareItem.Name item)
      then (remaining, ShareItem.Name item :: removed)
      else (item :: remaining, removed)
  end.

(** [cmdRemove(names)] *)
Definition cmdRemove (o : Oracle) (names : list string) : M unit :=
  let* r := load in
  match r with
  | LoadErr e => exit (ErrLoadState e)
  | LoadNil => exit ErrNoActiveShare
  | LoadOk st =>
      let* s := (λ s, Return s s) in
      if negb (IsRunning (λ pid, probe o pid (clock s)) (Some st))
      then exit ErrNoActiveShare
      else if bool_decide (length (State.Items st) = 0%nat) then exit ErrNoItems
      else
        let toRemove := nameSet names in
        let '(remaining, removed) := partitionItems toRemove (State.Items st) in
        if bool_decide (length removed = 0%nat) then exit ErrItemsNotFound
        else if bool_decide (length remaining = 0%nat) then exit ErrRemoveAll
        else
          let st := State.set_Items remaining st in
          let st := State.set_IsMulti (bool_decide (1 < length (State.Items st))%nat) st in
          let st :=
            match State.Items st with
            | [it] => State.set_ShareType (ShareItem.ShareType it)
                        (State.set_Path (ShareItem.Path it) st)
            | _ => st
            end in
          let* r := save st in
          match r with
          | (Some e, _) => exit (ErrSaveState e)
          | (None, st) => run* restartServer o st in ret tt
          end
  end.

(** *** The command line *)

(** the flags whose value is the next argument *)
Definition takesValue (arg : string) : bool :=
  bool_decide (arg = "--pass") || bool_decide (arg = "--port")
  || bool_decide (arg = "--tunnel") || bool_decide (arg = "--url").

(** the loop of [reorderArgs] over [os.Args[1:]] *)
Fixpoint reorderLoop (args flags positional : list string)
  : list string * list string :=
  match args with
  | [] => (flags, positional)
  | arg :: rest =>
      if strings.HasPrefix arg "-" then
        if takesValue arg then
          match rest with
          | value :: rest' => reorderLoop rest' (flags ++ [arg; value]) positional
          | [] => (flags ++ [arg], positional)
          end
        else reorderLoop rest (flags ++ [arg]) positional
      else reorderLoop rest flags (positional ++ [arg])
  end.

(** [reorderArgs()]: [os.Args] before and after *)
Definition reorderArgs (Args : list string) : list string :=
  if bool_decide (length Args ≤ 2)%nat then Args
  else
    match Args with
    | [] => []
    | arg0 :: rest =>
        let '(flags, positional) := reorderLoop rest [] [] in
        [arg0] ++ flags ++ positional
    end.

(** *** [cmdLogs] *)

(** [os.ReadFile] *)
Inductive ReadFile : Type :=
| ReadOk (data : string)
| ReadNotExist
| ReadFailed.

(** what [cmdLogs] prints: the notice that there is no log yet, or the two
    header lines and then these lines; or it exits *)
Inductive LogsOutput : Type :=
| LogsNone
| LogsLines (lines : list string)
| LogsExit.

Definition cmdLogs (log : ReadFile) : LogsOutput :=
  match log with
  | ReadNotExist => LogsNone
  | ReadFailed => LogsExit
  | ReadOk data =>
      let lines := strings.SplitByte (ascii_of_nat 10) data in
      let start :=
        if bool_decide (20 < length lines)%nat then (length lines - 20)%nat
        else 0%nat in
      LogsLines (filter (λ line, line ≠ "") (drop start lines))
  end.

(** *** [cmdStop] *)

Definition cmdStop (o : Oracle) (x : ShareOracle) (force : bool) : M unit :=
  let* r := load in
  match r with
  | LoadErr e => exit (ErrLoadState e)
  | LoadNil => ret tt
  | LoadOk st =>
      run* (if bool_decide (State.ServerPID st > 0)
            then stopProcess o (State.ServerPID st) force
            else ret tt) in
      run* effect (if force then tunnel.ForceStop o else tunnel.Stop o) in
      (* state.Clear(), its error dropped *)
      run* effect (λ s, if remove_state_ok x then set_disk (Clear (disk s)) s
                        else s) in
      (* os.Remove(config.GetPidFilePath()) *)
      effect (λ s, if remove_pid_ok x then set_server_pid NoPidFile s else s)
  end.

(** *** [cmdShare] *)

(** why [cmdShare] ended in [os.Exit(1)] or in a panic *)
Inductive ShareExit : Type :=
| ShareErrPathMissing (path : string)
| ShareErrNameConflict (name existing absPath : string)
| ShareErrInner (why : ExitReason)      (* an exit inside a command it calls *)
| ShareErrPublicURL
| ShareErrStartServer (e : SpawnError)
| ShareErrStartTunnel (e : tunnel.Error)
| SharePanic.

(** [cmdShare] returns with the state it has saved (or tried to save), or
    exits *)
Inductive ShareOutcome : Type :=
| Shared (st : State.t) (s : System)
| ShareExited (why : ShareExit) (s : System).

Definition shareFinal (out : ShareOutcome) : System :=
  match out with Shared _ s | ShareExited _ s => s end.

(** the first loop: the first path that [os.Stat] does not find *)
Fixpoint checkPaths (o : Oracle) (paths : list string) : option string :=
  match paths with
  | [] => None
  | path :: rest =>
      match stat o path with
      | os.StatOk _ _ _ => checkPaths o rest
      | _ => Some path
      end
  end.

(** the second loop, over [names map[string]string]: the first name that
    is taken, with the path that took it and the path that wants it *)
Fixpoint checkNames (o : Oracle) (paths : list string) (names : gmap string string)
  : option (string * string * string) :=
  match paths with
  | [] => None
  | path :: rest =>
      let absPath := default "" (filepath.Abs (getwd o) path) in
      let name := filepath.Base absPath in
      match names !! name with
      | Some existing => Some (name, existing, absPath)
      | None => checkNames o rest (<[name := absPath]> names)
      end
  end.

(** the share that runs is stopped first *)
Definition stopExisting (o : Oracle) (x : ShareOracle) : M unit :=
  λ s, match Load (disk s) with
       | LoadOk st =>
           if IsRunning (λ pid, probe o pid (clock s)) (Some st)
           then (run* cmdStop o x false in effect (Sleep 500)) s
           else Return tt s
       | _ => Return tt s
       end.

(** the last loop: one item per path; [None] is the nil [fi] of a path
    that [os.Stat] no longer finds *)
Fixpoint shareItems (o : Oracle) (paths : list string) : option (list ShareItem.t) :=
  match paths with
  | [] => Some []
  | path :: rest =>
      let absPath := default "" (filepath.Abs (getwd o) path) in
      match stat o absPath with
      | os.StatOk isDir size _ =>
          let item :=
            if isDir
            then ShareItem.mk absPath (filepath.Base absPath) TypeDir 0
            else ShareItem.mk absPath (filepath.Base absPath) TypeFile size in
          items ← shareItems o rest; Some (item :: items)
      | _ => None
      end
  end.

(** the state that [cmdShare] fills in, field by field; the compatibility
    fields are set when there is one item *)
Definition shareState (shareID : string) (startTime : Time) (public : bool)
    (username password : string) (port : Z) (publicURL : string)
    (serverPID tunnelPID : Z) (items : list ShareItem.t) : State.t :=
  State.mk shareID (if public then ModePublic else ModeProtected) port
    items (bool_decide (1 < length items)%nat)
    (match items with [it] => ShareItem.Path it | _ => "" end)
    (match items with [it] => ShareItem.ShareType it | _ => "" end)
    serverPID tunnelPID
    (if public then "" else username) (if public then "" else password)
    startTime zeroTime 0 [] publicURL.

(** [cmdShare(paths, public, password, port, tunnelName, publicURL)] *)
Definition cmdShare (o : Oracle) (x : ShareOracle) (paths : list string)
    (public : bool) (password : string) (port : Z)
    (tunnelName publicURL : string) (s : System) : ShareOutcome :=
  match checkPaths o paths with
  | Some path => ShareExited (ShareErrPathMissing path) s
  | None =>
  match checkNames o paths ∅ with
  | Some (name, existing, absPath) =>
      ShareExited (ShareErrNameConflict name existing absPath) s
  | None =>
  match stopExisting o x s with
  | Exit why s => ShareExited (ShareErrInner why) s
  | Return _ s =>
  let username := if public then "" else config.DefaultUsername in
  match (if negb public && bool_decide (password = "")
         then auth.GeneratePassword (rand_Read x) config.PasswordLength
         else Some password) with
  | None => ShareExited SharePanic s
  | Some password =>
  match (if bool_decide (publicURL = "") then getPublicURL x tunnelName
         else Some publicURL) with
  | None => ShareExited ShareErrPublicURL s
  | Some publicURL =>
  let shareID := unixText x (clock s) in
  let startTime := timeText x (clock s) in
  match startServerProcess o paths port username password s with
  | Exit why s => ShareExited (ShareErrInner why) s
  | Return (_, Some e) s => ShareExited (ShareErrStartServer e) s
  | Return (serverPID, None) s =>
  match tunnel.Start o tunnelName s with
  | (_, Some e, s) =>
      ShareExited (ShareErrStartTunnel e) (final (stopProcess o serverPID true s))
  | (tunnelPID, None, s) =>
  match shareItems o paths with
  | None => ShareExited SharePanic s
  | Some items =>
      let st := shareState shareID startTime public username password port
                  publicURL serverPID tunnelPID items in
      (* a failed Save is a warning only *)
      let '(_, st, d) := Save st (disk s) in
      Shared st (set_disk d s)
  end end end end end end end end.

(** *** The server process *)

(** [runServerProcess()], from the arguments [startServerProcess] passed:
    the handler that is mounted, or the error of [server.NewServer] *)
Definition runServerProcess (b64decode : string → option string)
    (env : server_types.Env) (d : Disk)
    (paths : list string) (username password : string)
  : server.Result server.Handler :=
  let st := match Load d with LoadOk st => st | _ => State.zero end in
  match server.NewServer env paths st with
  | server.Err e => server.Err e
  | server.Ok (srv, _) => server.Ok (server.Start b64decode srv env username password)
  end.

End main.

(* ===================================================================== *)
(** * The vocabulary of the properties, and the data of the examples *)
(* ===================================================================== *)

(** ** Paths *)

Section vocabulary_paths.
Import strings filepath.

(** no separator in a string *)
Fixpoint slashfree (s : string) : Prop :=
  match s with
  | EmptyString => True
  | String c s' => c ≠ "/"%char ∧ slashfree s'
  end.

(** an element that [Clean] keeps as it is *)
Definition normal (e : string) : Prop :=
  e ≠ "" ∧ e ≠ "." ∧ e ≠ ".." ∧ slashfree e.

(** the output written so far, last element first: ordinary elements on top
    of the leading [..] elements, of which a rooted path has none *)
Definition stack_ok (is_rooted : bool) (out : list string) : Prop :=
  ∃ (k : nat) (normals : list string),
    out = normals ++ replicate k ".."
    ∧ Forall normal normals
    ∧ (is_rooted = true → k = 0%nat).

(** the three forms of a cleaned path *)
Inductive CleanShape : string → Prop :=
| shape_dot : CleanShape "."
| shape_rooted normals :
    Forall normal normals → CleanShape ("/" +:+ strings.Join normals)
| shape_relative k normals :
    Forall normal normals → replicate k ".." ++ normals ≠ [] →
    CleanShape (strings.Join (replicate k ".." ++ normals)).


End vocabulary_paths.

(** ** The server and the state file *)

Section vocabulary_server.
Import state server_types server.

(** a file and a directory under /tmp, and nothing else *)
Definition example_env : Env :=
  mkEnv (Some "/home/u")
        (λ p, if decide (p = "/tmp/a.txt") then os.StatOk false 12 "2024-01-01T00:00:00Z"
              else if decide (p = "/tmp/dir") then os.StatOk true 4096 "2024-01-01T00:00:00Z"
              else os.StatNotExist)
        (λ p, Some p)
        (λ p, if decide (p = "/tmp/dir") then Some [] else None)
        (λ _ _, (200, 12))
        (λ _, 1000)
        "2024-06-01T12:00:00Z"
        3.

Definition example_paths : list string := ["/tmp/a.txt"; "/tmp/dir"].

Definition example_request (path : string) : http.Request.t :=
  http.Request.mk path "GET" "127.0.0.1:50000" "curl/8" "".

(** the two-item server of the specification's scenario *)
Definition example_server : Server :=
  match NewServer example_env example_paths State.zero with
  | Ok (s, _) => s
  | Err _ => mkServer [] ∅ false "" ""
  end.


(** the state of the repository's round-trip test, and a writable disk *)
Definition example_state : State.t :=
  State.mk "test123" ModeProtected 8787
    [ShareItem.mk "/test/file1.txt" "file1.txt" TypeFile 100;
     ShareItem.mk "/test/dir" "dir" TypeDir 0]
    true "" "" 0 0 "user" "pass" zeroTime zeroTime 0 [] "https://share.example.com".


(** the legacy document of the repository's test *)
Definition legacy_fields : list (string * json.value) :=
  [("share_id", json.Str "legacy123");
   ("mode", json.Str "protected");
   ("path", json.Str "/legacy/file.txt");
   ("share_type", json.Str "file");
   ("port", json.Num 8787);
   ("public_url", json.Str "https://example.com")].

Definition legacy_disk : Disk :=
  mkDisk (Doc (json.Obj legacy_fields)) NoFile true true true true.

(** what [less] looks at: the kind and the name *)
Definition key (f : FileInfo.t) : bool * string :=
  (FileInfo.IsDir f, FileInfo.Name f).

Definition key_less (k1 k2 : bool * string) : bool :=
  if negb (eqb k1.1 k2.1) then k1.1 else strings.lt k1.2 k2.2.

(** "not after": [k1] may stand before [k2] *)
Definition key_le (k1 k2 : bool * string) : Prop := key_less k2 k1 = false.




(** the files of a response that rendered a listing *)
Definition listing_files (resp : Response) : list FileInfo.t :=
  match body resp with
  | BodyListing data => listing_Files data
  | _ => []
  end.

(** the record and the log line of a request with response [resp] *)
Definition recordOf (env : Env) (r : http.Request.t) (resp : Response)
  : AccessRecord.t :=
  AccessRecord.mk (now env) (http.Request.URL_Path r) (statusCode resp)
                  (written resp) (http.Request.RemoteAddr r).

Definition logEntryOf (env : Env) (r : http.Request.t) (resp : Response)
  : LogEntry :=
  mkLogEntry (now env) (http.Request.URL_Path r) (http.Request.Method r)
             (statusCode resp) (written resp) (http.Request.RemoteAddr r)
             (http.Request.UserAgent r) (since_ms env).

(** what exactly one access record for response [resp] leaves behind *)
Definition one_record (env : Env) (r : http.Request.t) (resp : Response)
    (w w' : World) : Prop :=
  LoadStats (disk w')
  = (if stats_open_ok (disk w) && stats_lock_ok (disk w)
     then ((LoadStats (disk w)).1.1 + 1, now env,
           last10 ((LoadStats (disk w)).2 ++ [recordOf env r resp]))
     else LoadStats (disk w))
  ∧ access_log w'
    = (if log_open_ok w then access_log w ++ [logEntryOf env r resp]
       else access_log w)
  ∧ state_file (disk w') = state_file (disk w).

(** a world in which everything can be written, and a decoder that accepts
    nothing *)
Definition example_world : World :=
  mkWorld (mkDisk NoFile NoFile true true true true) [] true.

Definition no_b64 (_ : string) : option string := None.

(** a decoder that knows the encoding of [dl:secret], and a request that
    carries it *)
Definition example_b64 (s : string) : option string :=
  if decide (s = "ZGw6c2VjcmV0") then Some "dl:secret" else None.

Definition authorized_request (path : string) : http.Request.t :=
  http.Request.mk path "GET" "127.0.0.1:50000" "curl/8" "Basic ZGw6c2VjcmV0".

End vocabulary_server.

(** ** The controller *)

Section vocabulary_controller.
Import state sys main.

(** a share that runs: the state of the round-trip test with a server pid *)
Definition running_state : State.t := State.set_ServerPID 4242 example_state.

Definition example_oracle : Oracle :=
  mkOracle "/home/u/.cfshare" (Some "/home/u")
    (λ p, if decide (p = "/srv/file1.txt") then os.StatOk false 5 "2024-01-01T00:00:00Z"
          else os.StatNotExist)
    (λ pid _, bool_decide (pid = 4242))
    (λ _, Some 10)
    true true true
    (λ _, Some 4243)
    true.

Definition example_system : System :=
  mkSystem (mkDisk (Doc (marshalState running_state)) NoFile true true true true)
           0 (Pid 4242) NoPidFile [].


(** the oracle with another answer to the liveness probe *)
Definition with_probe (p : Z → Z → bool) (o : Oracle) : Oracle :=
  mkOracle (configDir o) (getwd o) (stat o) p (wait_ms o) (executable_ok o)
           (lookPath_ok o) (log_ok o) (start o) (savePID_ok o).

(** an operating system in which every child dies at once *)
Definition dying_oracle : Oracle := with_probe (λ _ _, false) example_oracle.

Definition idle_system : System :=
  mkSystem (mkDisk NoFile NoFile true true true true) 0 NoPidFile NoPidFile [].

End vocabulary_controller.

(** ** The command line and the access log *)

Section vocabulary_command_line.

(** an argument that [reorderArgs] takes for a path, not for a flag *)
Definition nondash (a : string) : Prop := strings.HasPrefix a "-" = false.

(** no line feed in a string *)
Fixpoint linefree (s : string) : Prop :=
  match s with
  | EmptyString => True
  | String c s' => c ≠ ascii_of_nat 10 ∧ linefree s'
  end.

(** the bytes of the entries, each followed by a line feed *)
Definition logText (entries : list string) : string :=
  foldr (λ e t, e +:+ strings.newline +:+ t) "" entries.

(** access.log after the entries have been appended to it, oldest first *)
Definition logFile (entries : list string) : option string :=
  foldl (λ file entry, server.appendToAccessLog_bytes true entry file) None entries.

(** what [os.ReadFile] finds *)
Definition readLog (file : option string) : main.ReadFile :=
  match file with
  | Some data => main.ReadOk data
  | None => main.ReadNotExist
  end.

End vocabulary_command_line.

(** ** Credentials *)

Section vocabulary_auth.

(** a digit or a letter of the Latin alphabet *)
Definition alnum (c : ascii) : Prop :=
  let n := nat_of_ascii c in
  (48 ≤ n ≤ 57)%nat ∨ (65 ≤ n ≤ 90)%nat ∨ (97 ≤ n ≤ 122)%nat.

(** no colon in a string *)
Fixpoint colonfree (s : string) : Prop :=
  match s with
  | EmptyString => True
  | String c s' => c ≠ ":"%char ∧ colonfree s'
  end.

(** the request carries [Basic] and an encoding of [username:password] *)
Definition carries (b64decode : string → option string)
    (username password : string) (r : http.Request.t) : Prop :=
  ∃ payload,
    http.Request.Authorization r = "Basic " +:+ payload
    ∧ b64decode payload = Some (username +:+ ":" +:+ password).

End vocabulary_auth.

(** ** Served paths *)

Section vocabulary_served.
Import state server_types server.

(** the root against which a path below the item [it] is checked: the
    resolved path of the item in multi mode, the path as given otherwise *)
Definition rootOf (env : Env) (s : Server) (it : ShareItem.t) : string :=
  if isMulti s
  then default (ShareItem.Path it) (evalSymlinks env (ShareItem.Path it))
  else ShareItem.Path it.

(** [p] passed the two prefix tests against [root] *)
Definition confined (env : Env) (root p : string) : Prop :=
  strings.HasPrefix p root = true
  ∧ ∀ q, evalSymlinks env p = Some q → strings.HasPrefix q root = true.

(** the request [r] with another path *)
Definition withPath (path : string) (r : http.Request.t) : http.Request.t :=
  http.Request.mk path (http.Request.Method r) (http.Request.RemoteAddr r)
    (http.Request.UserAgent r) (http.Request.Authorization r).

(** the header that [handleRequest] sets first *)
Definition baseHeader : gmap string string := {[ "Cache-Control" := "no-store" ]}.

(** a cleaned absolute path, by its elements *)
Definition absolute (elems : list string) : string := "/" +:+ strings.Join elems.

(** an element that [Clean] drops, or an ordinary one *)
Definition plain (e : string) : Prop := e = "" ∨ e = "." ∨ normal e.

(** the elements that [Clean] keeps *)
Definition kept (l : list string) : list string :=
  filter (λ e, e ≠ "" ∧ e ≠ ".") l.

End vocabulary_served.

(** ** Stopping and starting a share *)

Section vocabulary_share.
Import state sys main.

(** an event that is a signal to the process [pid] *)
Definition signalTo (pid : Z) (e : Event) : Prop := ∃ sig, e = EvSignal pid sig.

(** [os.Stat] finds the path *)
Definition found (o : Oracle) (path : string) : Prop :=
  match stat o path with os.StatOk _ _ _ => True | _ => False end.

(** the server process sees the file system of the controller *)
Definition envOf (o : Oracle) (env : server_types.Env) : Prop :=
  server_types.getwd env = getwd o ∧ server_types.stat env = stat o.



(** an operating system in which every child stays alive *)
Definition live_oracle : Oracle := with_probe (λ _ _, true) example_oracle.

(** the further answers: removals succeed, the random bytes count up, the
    tunnel configuration names a host *)
Definition example_share_oracle : ShareOracle :=
  mkShareOracle true true (λ i, ascii_of_nat i)
    (λ _, Some "https://share.example.com")
    (λ _, "1717243200") (λ _, "2024-06-01T12:00:00Z").

(** [cfshare /srv/file1.txt] on a machine that shares nothing yet *)
Definition example_share (o : Oracle) : ShareOutcome :=
  cmdShare o example_share_oracle ["/srv/file1.txt"] false "" 8787 "cfshare" ""
    idle_system.


(** the environment of the server process on the machine of [live_oracle] *)
Definition example_share_env : server_types.Env :=
  server_types.mkEnv (getwd live_oracle) (stat live_oracle) (λ p, Some p)
    (λ _, None) (λ _ _, (200, 5)) (λ _, 1000) "2024-06-01T12:00:00Z" 3.


End vocabulary_share.

(** ** Browsing a shared directory, and the configuration directory *)

Section vocabulary_browsing.
Import state server_types server.

(** a file and a directory tree under /srv: docs holds the directory img
    and the file readme.txt, img holds logo.png *)
Definition example_tree_env : Env :=
  mkEnv (Some "/home/u")
        (λ p, if decide (p = "/srv/a.txt") then os.StatOk false 12 "2024-01-01T00:00:00Z"
              else if decide (p = "/srv/docs") then os.StatOk true 4096 "2024-01-01T00:00:00Z"
              else if decide (p = "/srv/docs/img")
                   then os.StatOk true 4096 "2024-01-01T00:00:00Z"
              else if decide (p = "/srv/docs/readme.txt")
                   then os.StatOk false 20 "2024-01-01T00:00:00Z"
              else if decide (p = "/srv/docs/img/logo.png")
                   then os.StatOk false 300 "2024-01-01T00:00:00Z"
              else os.StatNotExist)
        (λ p, Some p)
        (λ p, if decide (p = "/srv/docs")
              then Some [os.DirEntry.mk "img" true (Some (4096, "2024-01-01T00:00:00Z"));
                         os.DirEntry.mk "readme.txt" false
                           (Some (20, "2024-01-01T00:00:00Z"))]
              else if decide (p = "/srv/docs/img")
              then Some [os.DirEntry.mk "logo.png" false
                           (Some (300, "2024-01-01T00:00:00Z"))]
              else None)
        (λ _ _, (200, 12))
        (λ _, 1000)
        "2024-06-01T12:00:00Z"
        3.

Definition example_tree_server : Server :=
  match NewServer example_tree_env ["/srv/a.txt"; "/srv/docs"] State.zero with
  | Ok (s, _) => s
  | Err _ => mkServer [] ∅ false "" ""
  end.

(** the share of the single directory /srv/docs *)
Definition example_docs_server : Server :=
  match NewServer example_tree_env ["/srv/docs"] State.zero with
  | Ok (s, _) => s
  | Err _ => mkServer [] ∅ false "" ""
  end.

(** a cleaned path that is neither [.] nor the root, by its elements *)
Definition cleaned (b : bool) (k : nat) (ns : list string) : string :=
  (if b then "/" else "") +:+ strings.Join (replicate k ".." ++ ns).

End vocabulary_browsing.

(** ** Commands that fail *)

Section vocabulary_failures.
Import state sys main.



End vocabulary_failures.

(* ===================================================================== *)
(** * Properties *)
(* ===================================================================== *)

(** ** The path model against the tables of Go's own tests *)

Example Clean_table :
  map filepath.Clean
    [""; "abc"; "abc/def"; "a/b/c"; "."; ".."; "../.."; "../../abc"; "/abc"; "/";
     "abc/"; "abc/def/"; "a/b/c/"; "./"; "../"; "../../"; "/abc/";
     "abc//def//ghi"; "abc//"; "abc/./def"; "/./abc/def"; "abc/.";
     "abc/def/ghi/../jkl"; "abc/def/../ghi/../jkl"; "abc/def/.."; "abc/def/../..";
     "/abc/def/../.."; "abc/def/../../.."; "/abc/def/../../.."; "abc/def/../../../ghi/jkl/../../../mno";
     "/../abc"; "a/../b:/../../c";
     "abc/./../def"; "abc//./../def"; "abc/../../././../def";
     "//abc"; "///abc"; "//abc//"]
  = ["."; "abc"; "abc/def"; "a/b/c"; "."; ".."; "../.."; "../../abc"; "/abc"; "/";
     "abc"; "abc/def"; "a/b/c"; "."; ".."; "../.."; "/abc";
     "abc/def/ghi"; "abc"; "abc/def"; "/abc/def"; "abc";
     "abc/def/jkl"; "abc/jkl"; "abc"; ".";
     "/"; ".."; "/"; "../../mno";
     "/abc"; "../c";
     "def"; "def"; "../../def";
     "/abc"; "/abc"; "/abc"].
Proof. vm_compute. reflexivity. Qed.

Example Base_table :
  map filepath.Base [""; "."; "/."; "/"; "////"; "x/"; "abc"; "abc/def"; "a/b/.x"; "a/b/c."; "a/b/c.x"]
  = ["."; "."; "."; "/"; "/"; "x"; "abc"; "def"; ".x"; "c."; "c.x"].
Proof. vm_compute. reflexivity. Qed.

Example Dir_table :
  map filepath.Dir [""; "."; "/."; "/"; "/foo"; "x/"; "abc"; "abc/def"; "a/b/.x"; "a/b/c."; "a/b/c.x"]
  = ["."; "."; "/"; "/"; "/"; "x"; "."; "abc"; "a/b"; "a/b"; "a/b"].
Proof. vm_compute. reflexivity. Qed.

Example Join_table :
  map filepath.Join [[]; [""]; ["a"]; ["a"; "b"]; ["a"; ""]; [""; "b"]; ["/"; "a"]; ["/"; ""]; ["a/"; "b"]; ["a/"; ""]; [""; ""]; ["/"; "a"; "b"]]
  = [""; ""; "a"; "a/b"; "a"; "b"; "/a"; "/"; "a/b"; "a"; ""; "/a/b"].
Proof. vm_compute. reflexivity. Qed.

(** ** The virtual namespace: [buildItemMap] *)

Section namespace.
Import state server.

Abbreviation names items := (map ShareItem.Name items).

Lemma buildItemMap_from_Ok (items : list ShareItem.t) :
  ∀ (m m' : gmap string ShareItem.t),
    buildItemMap_from m items = Ok m' →
    NoDup (names items)
    ∧ (∀ it, it ∈ items → m !! ShareItem.Name it = None ∧ m' !! ShareItem.Name it = Some it)
    ∧ (∀ k, k ∉ names items → m' !! k = m !! k).
Proof.
  induction items as [|it rest IH]; intros m m' Hb; simpl in Hb.
  - inversion Hb; subst. split; [constructor|]. split; [|done].
    intros it Hin. by apply elem_of_nil in Hin.
  - destruct (m !! ShareItem.Name it) eqn:Hm; [done|].
    apply IH in Hb as (Hnd & Hin & Hout).
    assert (Hfresh : ShareItem.Name it ∉ names rest).
    { intros Hmem. apply list_elem_of_fmap in Hmem as (it' & Heq & Hit').
      destruct (Hin it' Hit') as [Hnone _].
      rewrite <- Heq, lookup_insert_eq in Hnone. done. }
    split; [by constructor|]. split.
    + intros it' Hit'. apply elem_of_cons in Hit' as [->|Hit'].
      * split; [done|]. rewrite Hout by done. apply lookup_insert_eq.
      * destruct (Hin it' Hit') as [Hnone Hsome]. split; [|done].
        destruct (decide (ShareItem.Name it = ShareItem.Name it')) as [Heq|Hne].
        -- rewrite Heq, lookup_insert_eq in Hnone. done.
        -- by rewrite lookup_insert_ne in Hnone.
    + intros k Hk. simpl in Hk. apply not_elem_of_cons in Hk as [Hk1 Hk2].
      rewrite Hout by done. by rewrite lookup_insert_ne.
Qed.

Lemma buildItemMap_from_NoDup (items : list ShareItem.t) :
  ∀ (m : gmap string ShareItem.t),
    NoDup (names items) →
    (∀ it, it ∈ items → m !! ShareItem.Name it = None) →
    ∃ m', buildItemMap_from m items = Ok m'.
Proof.
  induction items as [|it rest IH]; intros m Hnd Hfree; simpl.
  - eauto.
  - rewrite (Hfree it) by left. simpl in Hnd. apply NoDup_cons in Hnd as [Hnotin Hnd].
    apply IH; [done|]. intros it' Hit'.
    rewrite lookup_insert_ne; [apply Hfree; by right|].
    intros Heq. apply Hnotin. rewrite Heq. apply list_elem_of_fmap. eauto.
Qed.

(** the only error of the loop is the conflict, on a name of the list *)
Lemma buildItemMap_from_Err (items : list ShareItem.t) :
  ∀ (m : gmap string ShareItem.t) e,
    buildItemMap_from m items = Err e →
    ∃ name, e = ErrNameConflict name ∧ name ∈ names items.
Proof.
  induction items as [|it rest IH]; intros m e Hb; simpl in Hb; [done|].
  destruct (m !! ShareItem.Name it) eqn:Hm.
  - inversion Hb; subst. eexists; split; [done|]. simpl. left.
  - apply IH in Hb as (name & -> & Hin). eexists; split; [done|]. simpl. by right.
Qed.

Lemma buildItemMap_succeeds_iff (items : list ShareItem.t) :
  NoDup (names items) ↔ ∃ m, buildItemMap items = Ok m.
Proof.
  split.
  - intros Hnd. apply buildItemMap_from_NoDup; [done|]. intros; apply lookup_empty.
  - intros [m Hm]. by apply buildItemMap_from_Ok in Hm as [? _].
Qed.

(** C2. Building the name-to-item map succeeds exactly when the display
    names of the items are pairwise distinct. On success every item is
    found under its name (and nothing else is in the map); when two items
    at different positions carry one name, [buildItemMap] returns the
    name-conflict error instead of a map, and so does [NewServer] for any
    paths that stat to these items, which then yields no server. *)
Theorem C2_buildItemMap_unique_names (items : list ShareItem.t) :
  (NoDup (names items) ↔ ∃ m, buildItemMap items = Ok m)
  ∧ (∀ m, buildItemMap items = Ok m →
       (∀ it, it ∈ items → m !! ShareItem.Name it = Some it)
       ∧ (∀ k it, m !! k = Some it → it ∈ items ∧ ShareItem.Name it = k))
  ∧ (∀ (i j : nat) a b,
       i ≠ j → items !! i = Some a → items !! j = Some b →
       ShareItem.Name a = ShareItem.Name b →
       (∃ name, buildItemMap items = Err (ErrNameConflict name)
                ∧ name ∈ names items)
       ∧ (∀ env paths st, statItems env paths = Ok items →
            ∃ name, NewServer env paths st = Err (ErrNameConflict name))).
Proof.
  split; [apply buildItemMap_succeeds_iff|]. split.
  - intros m Hm. apply buildItemMap_from_Ok in Hm as (Hnd & Hin & Hout). split.
    + intros it Hit. by apply Hin.
    + intros k it Hk.
      destruct (decide (k ∈ names items)) as [Hmem|Hnot].
      * apply list_elem_of_fmap in Hmem as (it' & -> & Hit').
        destruct (Hin it' Hit') as [_ Hsome]. rewrite Hsome in Hk.
        inversion Hk; subst. done.
      * rewrite Hout, lookup_empty in Hk by done. done.
  - intros i j a b Hij Ha Hb Hab.
    assert (Hdup : ¬ NoDup (names items)).
    { intros Hnd. apply Hij. eapply NoDup_lookup; [exact Hnd| |].
      - rewrite list_lookup_fmap, Ha. reflexivity.
      - rewrite list_lookup_fmap, Hb. simpl. by rewrite Hab. }
    assert (Herr : ∃ name, buildItemMap items = Err (ErrNameConflict name)
                           ∧ name ∈ names items).
    { destruct (buildItemMap items) as [m|e] eqn:Hbuild.
      - exfalso. apply Hdup. apply buildItemMap_succeeds_iff. eauto.
      - apply buildItemMap_from_Err in Hbuild as (name & -> & Hin). eauto. }
    split; [exact Herr|].
    intros env paths st Hstat. destruct Herr as (name & Hbuild & _).
    exists name. unfold NewServer. destruct paths as [|p paths'].
    + simpl in Hstat. inversion Hstat; subst. by rewrite lookup_nil in Ha.
    + rewrite Hstat, Hbuild. reflexivity.
Qed.

End namespace.

(** ** Splitting and joining on the separator *)

Section split_join.
Import strings.

Lemma Split_nonempty (s : string) : ∃ seg rest, Split s = seg :: rest.
Proof.
  induction s as [|c s IH]; simpl; [eauto|].
  case_bool_decide; [eauto|]. destruct IH as (seg & rest & ->). eauto.
Qed.

Lemma Split_slashfree (s : string) : Forall slashfree (Split s).
Proof.
  induction s as [|c s IH]; simpl.
  - by repeat constructor.
  - case_bool_decide as Hc.
    + by constructor.
    + destruct (Split s) as [|seg rest]; [by repeat constructor|].
      inversion IH; subst. constructor; [|done]. by split.
Qed.

Lemma Split_slashfree_id (s : string) : slashfree s → Split s = [s].
Proof.
  induction s as [|c s IH]; simpl; [done|]. intros [Hc Hs].
  rewrite bool_decide_eq_false_2 by done. by rewrite IH.
Qed.

Lemma Split_append (s t : string) :
  slashfree s → Split (s +:+ "/" +:+ t) = s :: Split t.
Proof.
  induction s as [|c s IH]; simpl; [done|]. intros [Hc Hs].
  rewrite bool_decide_eq_false_2 by done. by rewrite IH.
Qed.

Lemma Split_Join (segs : list string) :
  segs ≠ [] → Forall slashfree segs → Split (Join segs) = segs.
Proof.
  unfold Join. induction segs as [|s segs IH]; [done|]. intros _ Hall.
  inversion Hall as [|? ? Hs Hrest]; subst.
  destruct segs as [|s' segs]; simpl.
  - by apply Split_slashfree_id.
  - change (Split (s +:+ "/" +:+ String.concat "/" (s' :: segs)) = s :: s' :: segs).
    rewrite Split_append by done. f_equal. by apply IH.
Qed.

Lemma Join_Split (s : string) : Join (Split s) = s.
Proof.
  unfold Join. induction s as [|c s IH]; simpl; [done|].
  destruct (Split_nonempty s) as (seg & rest & Hs). rewrite Hs in *.
  case_bool_decide as Hc.
  - subst c. change (String "/" (String.concat "/" (seg :: rest)) = String "/" s).
    by rewrite IH.
  - destruct rest as [|r rest].
    + simpl in *. by rewrite IH.
    + change (String c (seg +:+ "/" +:+ String.concat "/" (r :: rest)) = String c s).
      f_equal. exact IH.
Qed.

Lemma HasPrefix_append (pre t : string) : HasPrefix (pre +:+ t) pre = true.
Proof.
  induction pre as [|c pre IH]; [done|].
  change (String c pre +:+ t) with (String c (pre +:+ t)). simpl.
  by rewrite bool_decide_eq_true_2, IH.
Qed.

(** what [Join] looks like on a list that starts with [..] *)
Lemma Join_dotdot (rest : list string) :
  ∃ t, Join (".." :: rest) = ".." +:+ t
       ∧ (t = "" ∨ ∃ t', t = "/" +:+ t').
Proof.
  unfold Join. destruct rest as [|r rest]; simpl.
  - exists "". eauto.
  - eexists. split; [reflexivity|]. right. eauto.
Qed.

Lemma append_empty (s : string) : s +:+ "" = s.
Proof.
  induction s as [|c s IH]; [done|].
  change (String c (s +:+ "") = String c s). by rewrite IH.
Qed.


End split_join.

(** ** The shape of a cleaned path *)

Section clean.
Import strings filepath.

Lemma clean_elem_ok (r : bool) (out : list string) (e : string) :
  slashfree e → stack_ok r out → stack_ok r (clean_elem r out e).
Proof.
  intros He (k & normals & -> & Hn & Hk). unfold clean_elem.
  destruct (decide (e = "")); [by exists k, normals|].
  destruct (decide (e = ".")); [by exists k, normals|].
  destruct (decide (e = "..")) as [->|Hdd].
  - destruct normals as [|top below]; simpl.
    + destruct k as [|k]; simpl.
      * destruct r; [by exists 0%nat, []|].
        exists 1%nat, []. by repeat split.
      * try rewrite decide_True by done.
        exists (S (S k)), []. repeat split; [done|].
        intros Hr. by specialize (Hk Hr).
    + inversion Hn as [|? ? Htop Hbelow]; subst.
      rewrite decide_False by apply Htop. by exists k, below.
  - exists k, (e :: normals). repeat split; [|done]. constructor; [|done].
    by repeat split.
Qed.

Lemma fold_clean_ok (r : bool) (elems : list string) :
  ∀ out, Forall slashfree elems → stack_ok r out →
         stack_ok r (fold_left (clean_elem r) elems out).
Proof.
  induction elems as [|e elems IH]; intros out Hall Hok; simpl; [done|].
  inversion Hall; subst. apply IH; [done|]. by apply clean_elem_ok.
Qed.

Lemma clean_elems_shape (r : bool) (p : string) :
  ∃ (k : nat) (normals : list string),
    clean_elems r (Split p) = replicate k ".." ++ normals
    ∧ Forall normal normals
    ∧ (r = true → k = 0%nat).
Proof.
  destruct (fold_clean_ok r (Split p) [] (Split_slashfree p)) as (k & normals & Heq & Hn & Hk).
  { by exists 0%nat, []. }
  exists k, (rev normals). unfold clean_elems. rewrite Heq, rev_app_distr.
  repeat split; [|by apply Forall_rev|done].
  f_equal. rewrite rev_alt. apply reverse_replicate.
Qed.

Lemma Clean_shape (p : string) : CleanShape (Clean p).
Proof.
  unfold Clean. destruct (decide (p = "")); [constructor|].
  destruct (clean_elems_shape (rooted p) p) as (k & normals & Heq & Hn & Hk).
  rewrite Heq. destruct (rooted p).
  - rewrite (Hk eq_refl). simpl. by apply shape_rooted.
  - destruct (replicate k ".." ++ normals) eqn:Hl; [apply shape_dot|].
    rewrite <- Hl. apply shape_relative; [done|]. by rewrite Hl.
Qed.

Lemma Clean_rooted (p : string) :
  rooted p = true →
  ∃ normals, Forall normal normals ∧ Clean p = "/" +:+ strings.Join normals.
Proof.
  intros Hr. unfold Clean. destruct (decide (p = "")) as [->|]; [done|].
  destruct (clean_elems_shape (rooted p) p) as (k & normals & Heq & Hn & Hk).
  rewrite Heq, Hr. rewrite (Hk Hr). simpl. eauto.
Qed.

Lemma normal_slashfree (l : list string) : Forall normal l → Forall slashfree l.
Proof. intros Hall. eapply Forall_impl; [exact Hall|]. by intros e (_ & _ & _ & He). Qed.

Lemma normal_not_dotdot (l : list string) : Forall normal l → ".." ∉ l.
Proof.
  intros Hall Hin. rewrite Forall_forall in Hall.
  destruct (Hall _ Hin) as (_ & _ & Hne & _). done.
Qed.

Lemma Split_rooted_Join (normals : list string) :
  Forall normal normals →
  Split ("/" +:+ strings.Join normals)
  = "" :: (match normals with [] => [""] | _ :: _ => normals end).
Proof.
  intros Hn.
  change ("/" +:+ strings.Join normals) with (String "/" (strings.Join normals)).
  simpl. try rewrite bool_decide_eq_true_2 by done. f_equal.
  destruct normals as [|e l]; [done|].
  apply Split_Join; [done|]. by apply normal_slashfree.
Qed.





End clean.

(** ** The names of the items [NewServer] builds *)

Section server_names.
Import strings filepath state server_types server.

Lemma Base_Clean_rooted (q : string) :
  rooted q = true → Base (Clean q) ≠ "..".
Proof.
  intros Hr. destruct (Clean_rooted q Hr) as (normals & Hn & Heq).
  unfold Base, last_elem. rewrite Heq.
  destruct (decide ("/" +:+ strings.Join normals = "")); [done|].
  destruct (last _) as [e|] eqn:Hlast; [|done].
  intros ->. apply last_Some in Hlast as [l' Hl'].
  assert (Hin : ".." ∈ filter (λ e, e ≠ "") (Split ("/" +:+ strings.Join normals))).
  { rewrite Hl'. apply elem_of_app. right. apply list_elem_of_singleton. done. }
  apply list_elem_of_filter in Hin as [_ Hin].
  rewrite Split_rooted_Join in Hin by done.
  apply elem_of_cons in Hin as [|Hin]; [done|].
  destruct normals; [by apply list_elem_of_singleton in Hin|].
  by apply normal_not_dotdot in Hin.
Qed.

Lemma rooted_append (d t : string) :
  rooted d = true → rooted (d +:+ t) = true.
Proof. by destruct d. Qed.

Lemma Abs_rooted_Clean (wd : option string) (p a : string) :
  (∀ d, wd = Some d → rooted d = true) →
  Abs wd p = Some a →
  ∃ q, rooted q = true ∧ a = Clean q.
Proof.
  intros Hwd. unfold Abs, IsAbs. destruct (HasPrefix p "/") eqn:Hp.
  - intros [= <-]. by exists p.
  - destruct wd as [d|]; [|done]. intros [= <-].
    specialize (Hwd d eq_refl). simpl.
    destruct (decide (d = "")) as [->|_]; [done|].
    exists (strings.Join [d; p]). split; [|done].
    apply (rooted_append d ("/" +:+ p) Hwd).
Qed.

Lemma statItems_names (env : Env) (paths : list string) :
  (∀ d, getwd env = Some d → rooted d = true) →
  ∀ items, statItems env paths = Ok items →
           Forall (λ it, ShareItem.Name it ≠ "..") items.
Proof.
  intros Hwd. induction paths as [|p paths IH]; intros items Hs; simpl in Hs.
  - inversion Hs. constructor.
  - destruct (Abs (getwd env) p) as [absPath|] eqn:Habs; [|done].
    destruct (stat env absPath) as [isDir size mt| |]; try done.
    destruct (statItems env paths) as [rest|]; [|done].
    inversion Hs; subst. constructor; [|by apply IH].
    destruct (Abs_rooted_Clean _ _ _ Hwd Habs) as (q & Hq & ->).
    destruct isDir; simpl; by apply Base_Clean_rooted.
Qed.

Lemma buildItemMap_lookup (items : list ShareItem.t) (m : gmap string ShareItem.t)
    (k : string) (it : ShareItem.t) :
  buildItemMap items = Ok m → m !! k = Some it →
  it ∈ items ∧ ShareItem.Name it = k.
Proof.
  intros Hm Hk. apply buildItemMap_from_Ok in Hm as (Hnd & Hin & Hout).
  destruct (decide (k ∈ map ShareItem.Name items)) as [Hmem|Hnot].
  - apply list_elem_of_fmap in Hmem as (it' & -> & Hit').
    destruct (Hin it' Hit') as [_ Hsome]. rewrite Hsome in Hk.
    inversion Hk; subst. done.
  - rewrite Hout, lookup_empty in Hk by done. done.
Qed.

(** No server built by [NewServer] under an absolute working directory has
    an item named [..]. *)
Lemma NewServer_no_dotdot (env : Env) (paths : list string) (st st' : State.t)
    (s : Server) :
  (∀ d, getwd env = Some d → rooted d = true) →
  NewServer env paths st = Ok (s, st') →
  itemMap s !! ".." = None.
Proof.
  intros Hwd Hnew. unfold NewServer in Hnew.
  destruct paths as [|p paths]; [done|].
  destruct (statItems env (p :: paths)) as [items|] eqn:Hstat; [|done].
  destruct (buildItemMap items) as [m|] eqn:Hbuild; [|done].
  assert (Hm : m !! ".." = None).
  { destruct (m !! "..") as [it|] eqn:Hk; [|done].
    destruct (buildItemMap_lookup _ _ _ _ Hbuild Hk) as [Hin Hname].
    pose proof (statItems_names env _ Hwd _ Hstat) as Hall.
    rewrite Forall_forall in Hall. by destruct (Hall it Hin). }
  destruct items as [|it [|it2 rest]]; inversion Hnew; subst; exact Hm.
Qed.

End server_names.

(** ** Requests whose cleaned path climbs out *)

Section traversal.
Import strings filepath state server_types server.










End traversal.

(** ** The state file: marshalling and unmarshalling *)

Section roundtrip.
Import state.


Lemma unmarshal_marshal_AccessRecord (r : AccessRecord.t) :
  unmarshalAccessRecord (marshalAccessRecord r) = Some r.
Proof. by destruct r. Qed.

Lemma mapM_unmarshal_marshal {A} (enc : A → json.value) (dec : json.value → option A)
    (l : list A) :
  (∀ a, dec (enc a) = Some a) → mapM dec (map enc l) = Some l.
Proof.
  intros Hrt. induction l as [|a l IH]; [done|].
  simpl. rewrite Hrt. simpl. by rewrite IH.
Qed.

Lemma dec_slice_omit_slice {A} (enc : A → json.value) (dec : json.value → option A)
    (l : list A) (ji : list json.value) :
  (∀ a, dec (enc a) = Some a) → ji = map enc l →
  json.dec_slice dec (Some (json.Arr ji)) = Some l.
Proof. intros Hrt ->. by apply mapM_unmarshal_marshal. Qed.


End roundtrip.

(** ** Saving and loading the state *)

Section save_load.
Import state.

Lemma sync_legacy_Items (s : State.t) : State.Items (sync_legacy s) = State.Items s.
Proof. unfold sync_legacy. by destruct (State.Items s) as [|it [|it2 rest]] eqn:H. Qed.







(** the fields of a decoded state in terms of the keys of its document *)
Lemma unmarshalState_fields (fs : list (string * json.value)) (raw : State.t) :
  unmarshalState (json.Obj fs) = Some raw →
  json.dec_slice unmarshalShareItem (json.get "items" fs) = Some (State.Items raw)
  ∧ json.dec_string "" (json.get "path" fs) = Some (State.Path raw)
  ∧ json.dec_string "" (json.get "share_type" fs) = Some (State.ShareType raw).
Proof.
  unfold unmarshalState. intros H.
  repeat (apply bind_Some in H as (? & ? & H)).
  inversion H; subst; clear H. simpl. done.
Qed.

(** C4. A document with no [items] key, a non-empty [path] and a
    [share_type], which decodes at all, loads as a state with exactly one
    item: its path and type are the legacy fields, its name is the base name
    of the path, and the multi flag is false. *)
Theorem C4_load_legacy_document (d : Disk) (fs : list (string * json.value))
    (path share_type : string) :
  state_file d = Doc (json.Obj fs) →
  json.get "items" fs = None →
  json.get "path" fs = Some (json.Str path) →
  path ≠ "" →
  json.get "share_type" fs = Some (json.Str share_type) →
  is_Some (unmarshalState (json.Obj fs)) →
  ∃ s, Load d = LoadOk s
       ∧ State.Items s
         = [ShareItem.mk path (filepath.Base path) share_type 0]
       ∧ State.IsMulti s = false.
Proof.
  intros Hfile Hitems Hpath Hne Htype [raw Hraw].
  destruct (unmarshalState_fields _ _ Hraw) as (Hi & Hp & Ht).
  rewrite Hitems in Hi. rewrite Hpath in Hp. rewrite Htype in Ht.
  simpl in Hi, Hp, Ht. inversion Hi as [Hi']. inversion Hp as [Hp']. inversion Ht as [Ht'].
  exists (migrate raw). unfold Load. rewrite Hfile, Hraw. split; [done|].
  unfold migrate. rewrite <- Hi', <- Hp'. simpl.
  rewrite (bool_decide_eq_false_2 (path = "")) by done. simpl.
  by rewrite <- Ht'.
Qed.

(** C4 on the legacy document of the repository's test *)
Lemma C4_witness_legacy_test :
  ∃ s, Load legacy_disk = LoadOk s
       ∧ State.Items s = [ShareItem.mk "/legacy/file.txt" "file.txt" "file" 0]
       ∧ State.IsMulti s = false.
Proof.
  refine (C4_load_legacy_document legacy_disk legacy_fields
            "/legacy/file.txt" "file" _ _ _ _ _ _).
  - reflexivity.
  - reflexivity.
  - reflexivity.
  - discriminate.
  - reflexivity.
  - vm_compute. eexists. reflexivity.
Defined.

End save_load.

(** ** Directory listings: the order of [sort.Slice] with [less] *)

Section listing_order.
Import state server_types server.

Lemma less_key (a b : FileInfo.t) : less a b = key_less (key a) (key b).
Proof. reflexivity. Qed.

Lemma lt_spec (a b : string) :
  strings.lt a b = true ↔ String_as_OT.lt a b.
Proof.
  unfold strings.lt, String.ltb. rewrite <- String_as_OT.cmp_lt.
  unfold String_as_OT.cmp. destruct (String.compare a b); split; done.
Qed.

Lemma lt_irrefl (a : string) : strings.lt a a = false.
Proof.
  destruct (strings.lt a a) eqn:H; [|done]. apply lt_spec in H.
  by apply String_as_OT.lt_not_eq in H.
Qed.

Lemma lt_trichotomy (a b : string) :
  strings.lt a b = true ∨ a = b ∨ strings.lt b a = true.
Proof.
  unfold strings.lt, String.ltb. rewrite (String.compare_antisym b a).
  destruct (String.compare a b) eqn:Hc; simpl; auto.
  right. left. by apply String.compare_eq_iff.
Qed.

Lemma lt_asym (a b : string) : strings.lt a b = true → strings.lt b a = false.
Proof.
  intros Hab. destruct (strings.lt b a) eqn:Hba; [|done].
  apply lt_spec in Hab, Hba.
  pose proof (String_as_OT.lt_trans _ _ _ Hab Hba) as Haa.
  by apply String_as_OT.lt_not_eq in Haa.
Qed.

Lemma lt_trans (a b c : string) :
  strings.lt a b = true → strings.lt b c = true → strings.lt a c = true.
Proof.
  rewrite !lt_spec. apply String_as_OT.lt_trans.
Qed.

(** [a ≤ b] and [b ≤ c] give [a ≤ c], for "not less" *)
Lemma not_lt_trans (a b c : string) :
  strings.lt b a = false → strings.lt c b = false → strings.lt c a = false.
Proof.
  intros Hba Hcb. destruct (strings.lt c a) eqn:Hca; [|done].
  destruct (lt_trichotomy a b) as [Hab|[->|Hab]]; [|congruence|congruence].
  rewrite (lt_trans c a b Hca Hab) in Hcb. done.
Qed.

#[local] Instance key_le_trans : Transitive key_le.
Proof.
  intros [d1 n1] [d2 n2] [d3 n3]. unfold key_le, key_less. simpl.
  destruct d1, d2, d3; simpl; try done. all: apply not_lt_trans.
Qed.

#[local] Instance key_le_total : Total key_le.
Proof.
  intros [d1 n1] [d2 n2]. unfold key_le, key_less. simpl.
  destruct d1, d2; simpl; auto.
  all: destruct (strings.lt n1 n2) eqn:H; [left; by apply lt_asym | by right].
Qed.

#[local] Instance key_le_antisym : AntiSymm (=) key_le.
Proof.
  intros [d1 n1] [d2 n2]. unfold key_le, key_less. simpl.
  destruct d1, d2; simpl; try done.
  all: intros H1 H2; destruct (lt_trichotomy n1 n2) as [H|[->|H]]; congruence.
Qed.

#[local] Instance less_not_after_trans : Transitive (sort.not_after less).
Proof. intros a b c. unfold sort.not_after. rewrite !less_key. apply key_le_trans. Qed.

#[local] Instance less_not_after_total : Total (sort.not_after less).
Proof. intros a b. unfold sort.not_after. rewrite !less_key. apply key_le_total. Qed.


Lemma Slice_less_Permutation (l : list FileInfo.t) : sort.Slice less l ≡ₚ l.
Proof. unfold sort.Slice. apply merge_sort_Permutation. Qed.











Lemma listVirtualRoot_files (s : Server) (env : Env) (h : gmap string string) :
  listing_files (listVirtualRoot s env h)
  = sort.Slice less (rootFiles env (items s)).
Proof. reflexivity. Qed.

Lemma listDirectoryWithBase_files (env : Env) (h : gmap string string)
    (fullPath urlPrefix subPath : string) (entries : list os.DirEntry.t) :
  readDir env fullPath = Some entries →
  listing_files (listDirectoryWithBase env h fullPath urlPrefix subPath)
  = sort.Slice less
      (filesOf (λ name, (if decide (subPath = "") then urlPrefix
                         else urlPrefix +:+ "/" +:+ subPath) +:+ "/" +:+ name)
               entries).
Proof. intros Hrd. unfold listDirectoryWithBase. by rewrite Hrd. Qed.

Lemma listDirectory_files (env : Env) (h : gmap string string)
    (fullPath reqPath : string) (entries : list os.DirEntry.t) :
  readDir env fullPath = Some entries →
  listing_files (listDirectory env h fullPath reqPath)
  = sort.Slice less (filesOf (λ name, filepath.Join [reqPath; name]) entries).
Proof. intros Hrd. unfold listDirectory. by rewrite Hrd. Qed.



End listing_order.

(** ** The controller: add and remove *)

Section controller.
Import state sys main.

Lemma nameSet_from (names : list string) :
  ∀ (m : gmap string bool) (n : string),
    default false (foldl (λ m name, <[name := true]> m) m names !! n) = true
    ↔ n ∈ names ∨ default false (m !! n) = true.
Proof.
  induction names as [|a names IH]; intros m n; simpl.
  - split; [by right|]. intros [H|H]; [by apply elem_of_nil in H|done].
  - rewrite IH. rewrite elem_of_cons. split.
    + intros [H|H]; [by left; right|].
      destruct (decide (a = n)) as [->|Hne]; [by left; left|].
      rewrite lookup_insert_ne in H by done. by right.
    + intros [[->|H]|H]; [right; by rewrite lookup_insert_eq|by left|].
      right. destruct (decide (a = n)) as [->|Hne].
      * by rewrite lookup_insert_eq.
      * by rewrite lookup_insert_ne.
Qed.

Lemma nameSet_spec (names : list string) (n : string) :
  default false (nameSet names !! n) = true ↔ n ∈ names.
Proof.
  unfold nameSet. rewrite nameSet_from. rewrite lookup_empty. simpl.
  split; [by intros [H|H]|by left].
Qed.

(** the loop of [cmdAdd] changes nothing, whatever it returns *)
Lemma addItems_final (o : Oracle) (paths : list string) :
  ∀ existingNames newItems s,
    final (addItems o paths existingNames newItems s) = s.
Proof.
  induction paths as [|path rest IH]; intros existingNames newItems s; simpl; [done|].
  destruct (stat o path); try done.
  destruct (default false (existingNames !! _)); [done|].
  destruct (stat o _); [apply IH|done..].
Qed.

(** and it exits as soon as a path brings a name that is taken *)
Lemma addItems_conflict (o : Oracle) (paths : list string) :
  ∀ existingNames newItems s path,
    path ∈ paths →
    default false (existingNames !! displayName o path) = true →
    ∃ why, addItems o paths existingNames newItems s = Exit why s.
Proof.
  induction paths as [|p rest IH]; intros existingNames newItems s path Hin Hname.
  - by apply elem_of_nil in Hin.
  - simpl. destruct (stat o p); [|by eexists..].
    fold (displayName o p).
    destruct (default false (existingNames !! displayName o p)) eqn:Hp; [by eexists|].
    destruct (stat o _); [|by eexists..].
    apply elem_of_cons in Hin as [->|Hin]; [congruence|].
    apply (IH _ _ _ path Hin).
    destruct (decide (displayName o p = displayName o path)) as [Heq|Hne].
    + rewrite <- Heq. unfold displayName. by rewrite lookup_insert_eq.
    + unfold displayName in *. by rewrite lookup_insert_ne.
Qed.

(** C6. Whenever one of the paths given to [cmdAdd] has a display name that
    an item of the persisted share already carries, [cmdAdd] ends in an exit
    and leaves the system exactly as it found it: the state file is the
    same, no signal was sent to the server, nothing was started, no pid file
    was written. *)
Theorem C6_add_name_conflict (o : Oracle) (s : System) (paths : list string)
    (st : State.t) (path : string) :
  Load (disk s) = LoadOk st →
  path ∈ paths →
  displayName o path ∈ map ShareItem.Name (State.Items st) →
  ∃ why, cmdAdd o paths s = Exit why s.
Proof.
  intros Hload Hin Hname. unfold cmdAdd, bind, load. rewrite Hload.
  destruct (IsRunning _ _); simpl; [|by eexists].
  destruct (addItems_conflict o paths
              (nameSet (map ShareItem.Name (State.Items st))) [] s path Hin)
    as [why Hwhy].
  { by apply nameSet_spec. }
  rewrite Hwhy. by eexists.
Qed.

(** C6 on a running share with [file1.txt] and a second file of that name *)
Lemma C6_witness_same_name :
  ∃ why, cmdAdd example_oracle ["/srv/file1.txt"] example_system
         = Exit why example_system.
Proof.
  refine (C6_add_name_conflict example_oracle example_system ["/srv/file1.txt"]
            running_state "/srv/file1.txt" _ _ _).
  - vm_compute. reflexivity.
  - left.
  - vm_compute. left.
Defined.

(** *** Nothing but [Save] touches the state file *)






Lemma partitionItems_remaining (toRemove : gmap string bool) (items : list ShareItem.t) :
  (partitionItems toRemove items).1 = []
  ↔ ∀ it, it ∈ items → default false (toRemove !! ShareItem.Name it) = true.
Proof.
  induction items as [|it items IH]; simpl.
  - split; [|done]. intros _ it Hit. by apply elem_of_nil in Hit.
  - destruct (partitionItems toRemove items) as [remaining removed].
    destruct (default false (toRemove !! ShareItem.Name it)) eqn:Hit; simpl in *.
    + rewrite IH. split.
      * intros H it' [->|Hin]%elem_of_cons; [done|by apply H].
      * intros H it' Hin. apply H. by right.
    + split; [done|]. intros H. specialize (H it). rewrite Hit in H.
      discriminate H. by left.
Qed.








End controller.

(** ** Spawning the two children *)

Section spawn.
Import state sys.

(** The tunnel: a child that does not answer the probe half a second after
    its start is reported as dead, with the path of its log. *)
Lemma tunnel_Start_died (o : Oracle) (tunnelName : string) (s : System) (pid : Z) :
  lookPath_ok o = true →
  tunnel_pid s = NoPidFile →
  log_ok o = true →
  start o (CmdTunnel tunnelName) = Some pid →
  savePID_ok o = true →
  probe o pid (clock s + 500) = false →
  ∃ s', tunnel.Start o tunnelName s
        = (0, Some (tunnel.ErrDiedImmediately (configDir o +:+ "/tunnel.log")), s').
Proof.
  intros Hlook Hpid Hlog Hstart Hsave Hdead.
  unfold tunnel.Start, tunnel.GetRunningPID, tunnel.isProcessRunning.
  rewrite Hlook, Hpid, Hlog, Hstart, Hsave. simpl.
  rewrite Hdead. simpl. by eexists.
Qed.

Lemma tunnel_Start_alive (o : Oracle) (tunnelName : string) (s : System) (pid : Z) :
  lookPath_ok o = true →
  tunnel_pid s = NoPidFile →
  log_ok o = true →
  start o (CmdTunnel tunnelName) = Some pid →
  savePID_ok o = true →
  probe o pid (clock s + 500) = true →
  ∃ s', tunnel.Start o tunnelName s = (pid, None, s').
Proof.
  intros Hlook Hpid Hlog Hstart Hsave Halive.
  unfold tunnel.Start, tunnel.GetRunningPID, tunnel.isProcessRunning.
  rewrite Hlook, Hpid, Hlog, Hstart, Hsave. simpl.
  rewrite Halive. simpl. by eexists.
Qed.

(** The server: the result of [startServerProcess] does not depend on the
    probe at all; a started child is reported as started. *)
Lemma startServerProcess_ignores_probe (o : Oracle) (p : Z → Z → bool)
    (paths : list string) (port : Z) (username password : string) (s : System) :
  main.startServerProcess (with_probe p o) paths port username password s
  = main.startServerProcess o paths port username password s.
Proof. reflexivity. Qed.

Lemma startServerProcess_started (o : Oracle) (paths : list string) (port : Z)
    (username password : string) (s : System) (pid : Z) :
  executable_ok o = true → log_ok o = true →
  start o (CmdServer paths port username password) = Some pid →
  ∃ s', main.startServerProcess o paths port username password s
        = main.Return (pid, None) s'
        ∧ clock s' = clock s + 300.
Proof.
  intros Hexe Hlog Hstart. unfold main.startServerProcess.
  rewrite Hexe, Hlog, Hstart. simpl. by eexists.
Qed.

(** C8 fails for the server process. With a child that is dead at the end
    of the wait, [tunnel.Start] reports that the process died immediately
    and names the tunnel log, while [startServerProcess] waits its 300 ms
    and returns the pid of the dead child with no error. *)
Theorem C8_server_spawn_is_not_checked :
  probe dying_oracle 4243 (clock idle_system + 300) = false
  ∧ (∃ s', main.startServerProcess dying_oracle ["/tmp/a.txt"] 8787 "dl" "secret"
             idle_system
           = main.Return (4243, None) s')
  ∧ (∃ s', tunnel.Start dying_oracle "cfshare" idle_system
           = (0, Some (tunnel.ErrDiedImmediately "/home/u/.cfshare/tunnel.log"), s')).
Proof.
  split; [reflexivity|]. split; eexists; vm_compute; reflexivity.
Qed.

End spawn.

(** ** Access records *)

Section access_records.
Import state server_types server.

Lemma unmarshal_marshal_Stats (st : Stats.t) :
  unmarshalStats (Doc (marshalStats st)) = st.
Proof.
  destruct st as [count last recent]. unfold unmarshalStats, marshalStats.
  assert (Hrecent : ∀ jr, jr = map marshalAccessRecord recent →
            json.dec_slice unmarshalAccessRecord (Some (json.Arr jr)) = Some recent).
  { intros. eapply dec_slice_omit_slice; [apply unmarshal_marshal_AccessRecord|done]. }
  destruct recent as [|rc recent]; unfold json.omit_slice; simpl Stats.RecentAccess;
    try remember (map marshalAccessRecord (rc :: recent)) as jr eqn:Hjr;
    cbn -[json.dec_slice]; rewrite ?(Hrecent _ eq_refl); reflexivity.
Qed.

Lemma LoadStats_unmarshal (d : Disk) :
  LoadStats d
  = (Stats.RequestCount (unmarshalStats (stats_file d)),
     Stats.LastAccess (unmarshalStats (stats_file d)),
     Stats.RecentAccess (unmarshalStats (stats_file d))).
Proof. unfold LoadStats. by destruct (stats_file d). Qed.

(** one call of [UpdateAccessStats]: with the file opened and locked, the
    count goes up by one and the record joins the ring of the last ten;
    otherwise the statistics read as before *)
Lemma UpdateAccessStats_LoadStats (record : AccessRecord.t) (d : Disk) :
  LoadStats (UpdateAccessStats record d).2
  = if stats_open_ok d && stats_lock_ok d
    then ((LoadStats d).1.1 + 1, AccessRecord.Time record,
          last10 ((LoadStats d).2 ++ [record]))
    else LoadStats d.
Proof.
  unfold UpdateAccessStats.
  destruct (stats_open_ok d) eqn:Hopen; cbn [negb andb]; [|reflexivity].
  set (d1 := match stats_file d with
             | NoFile => set_stats_file Malformed d
             | _ => d
             end).
  assert (Hlock : stats_lock_ok d1 = stats_lock_ok d)
    by (subst d1; by destruct (stats_file d)).
  assert (Hun : unmarshalStats (stats_file d1) = unmarshalStats (stats_file d))
    by (subst d1; destruct (stats_file d) eqn:E; cbn [stats_file set_stats_file];
        by rewrite ?E).
  rewrite Hlock. destruct (stats_lock_ok d) eqn:Hl; cbn [negb snd].
  - rewrite !LoadStats_unmarshal. unfold set_stats_file. cbn [stats_file].
    rewrite unmarshal_marshal_Stats. cbn [Stats.RequestCount Stats.LastAccess
      Stats.RecentAccess fst snd]. by rewrite Hun.
  - rewrite !LoadStats_unmarshal. by rewrite Hun.
Qed.

Lemma UpdateAccessStats_state_file (record : AccessRecord.t) (d : Disk) :
  state_file (UpdateAccessStats record d).2 = state_file d.
Proof.
  unfold UpdateAccessStats. destruct (stats_open_ok d); [|done]. simpl.
  destruct (stats_file d); simpl; by destruct (stats_lock_ok d).
Qed.

Lemma loggingMiddleware_one_record (s : Server) (env : Env)
    (r : http.Request.t) (w : World) :
  ∃ w', loggingMiddleware env (λ r w, (handleRequest s env r, w)) r w
        = (handleRequest s env r, w')
        ∧ one_record env r (handleRequest s env r) w w'.
Proof.
  unfold loggingMiddleware. eexists. split; [reflexivity|].
  unfold one_record, appendToAccessLog. cbn [disk access_log log_open_ok].
  destruct (log_open_ok w); cbn [negb disk access_log].
  all: split; [apply UpdateAccessStats_LoadStats|].
  all: split; [reflexivity | apply UpdateAccessStats_state_file].
Qed.



End access_records.

(** ** Graceful stop: what [stopProcess] sends *)

Section stop.
Import sys main.

(** The outcome of the race is an input here ([wait_ms]): when the wait
    returns within the three seconds only the terminate request is sent,
    otherwise the kill follows it. Whether the process is gone when the
    call returns is a matter of the operating system, not of this code. *)
Lemma stopProcess_events (o : Oracle) (pid : Z) (s : System) :
  ∃ s', stopProcess o pid false s = Return tt s'
        ∧ events s'
          = events s
            ++ (if match wait_ms o pid with
                   | Some ms => bool_decide (ms < 3000)
                   | None => false
                   end
                then [EvSignal pid SIGTERM]
                else [EvSignal pid SIGTERM; EvSignal pid SIGKILL]).
Proof.
  unfold stopProcess, bind, effect, signal, emit, advance. simpl.
  destruct (wait_ms o pid) as [ms|]; [case_bool_decide|];
    eexists; (split; [reflexivity|]); simpl; by rewrite <- ?app_assoc.
Qed.

Lemma stopProcess_force_events (o : Oracle) (pid : Z) (s : System) :
  stopProcess o pid true s = Return tt (signal pid SIGKILL s).
Proof. reflexivity. Qed.

(** the same for the tunnel, with its five seconds *)
Lemma tunnel_Stop_events (o : Oracle) (pid : Z) (s : System) :
  tunnel_pid s = Pid pid → probe o pid (clock s) = true → pid > 0 →
  events (tunnel.Stop o s)
  = events s
    ++ (if match wait_ms o pid with
           | Some ms => bool_decide (ms < 5000)
           | None => false
           end
        then [EvSignal pid SIGTERM]
        else [EvSignal pid SIGTERM; EvSignal pid SIGKILL])
  ∧ tunnel_pid (tunnel.Stop o s) = NoPidFile.
Proof.
  intros Hpid Hprobe Hpos.
  unfold tunnel.Stop, tunnel.GetRunningPID, tunnel.isProcessRunning.
  rewrite Hpid, Hprobe. simpl. rewrite bool_decide_eq_false_2 by lia.
  destruct (wait_ms o pid) as [ms|]; [case_bool_decide|];
    simpl; by rewrite <- ?app_assoc.
Qed.

End stop.

(** ** The command line: [reorderArgs] *)

Section command_line.
Import main.

Lemma reorderLoop_step (arg : string) (rest flags positional : list string) :
  reorderLoop (arg :: rest) flags positional
  = if strings.HasPrefix arg "-" then
      if takesValue arg then
        match rest with
        | value :: rest' => reorderLoop rest' (flags ++ [arg; value]) positional
        | [] => (flags ++ [arg], positional)
        end
      else reorderLoop rest (flags ++ [arg]) positional
    else reorderLoop rest flags (positional ++ [arg]).
Proof. reflexivity. Qed.

Lemma reorderLoop_acc (n : nat) :
  ∀ args flags positional, (length args ≤ n)%nat →
    reorderLoop args flags positional
    = (flags ++ (reorderLoop args [] []).1, positional ++ (reorderLoop args [] []).2).
Proof.
  induction n as [|n IH]; intros args flags positional Hlen.
  - destruct args; [|simpl in Hlen; lia]. simpl. by rewrite !app_nil_r.
  - destruct args as [|arg rest]; [simpl; by rewrite !app_nil_r|].
    simpl in Hlen. rewrite !reorderLoop_step.
    destruct (strings.HasPrefix arg "-").
    + destruct (takesValue arg).
      * destruct rest as [|value rest']; [simpl; by rewrite app_nil_r|].
        simpl in Hlen.
        rewrite (IH rest' (flags ++ [arg; value])) by lia.
        rewrite (IH rest' ([] ++ [arg; value])) by lia. simpl.
        by rewrite <- app_assoc.
      * rewrite (IH rest (flags ++ [arg])) by lia.
        rewrite (IH rest ([] ++ [arg])) by lia. simpl. by rewrite <- app_assoc.
    + rewrite (IH rest flags (positional ++ [arg])) by lia.
      rewrite (IH rest [] ([] ++ [arg])) by lia. simpl. by rewrite <- app_assoc.
Qed.

Lemma reorderLoop_cons (arg : string) (rest : list string) :
  reorderLoop (arg :: rest) [] []
  = if strings.HasPrefix arg "-" then
      if takesValue arg then
        match rest with
        | value :: rest' =>
            (arg :: value :: (reorderLoop rest' [] []).1, (reorderLoop rest' [] []).2)
        | [] => ([arg], [])
        end
      else (arg :: (reorderLoop rest [] []).1, (reorderLoop rest [] []).2)
    else ((reorderLoop rest [] []).1, arg :: (reorderLoop rest [] []).2).
Proof.
  rewrite reorderLoop_step. destruct (strings.HasPrefix arg "-").
  - destruct (takesValue arg).
    + destruct rest as [|value rest']; [done|].
      by rewrite (reorderLoop_acc (length rest')).
    + by rewrite (reorderLoop_acc (length rest)).
  - by rewrite (reorderLoop_acc (length rest)).
Qed.

Lemma reorderLoop_spec (n : nat) :
  ∀ args, (length args ≤ n)%nat →
    Forall nondash (reorderLoop args [] []).2
    ∧ sublist (reorderLoop args [] []).1 args
    ∧ sublist (reorderLoop args [] []).2 args
    ∧ Permutation ((reorderLoop args [] []).1 ++ (reorderLoop args [] []).2) args.
Proof.
  induction n as [|n IH]; intros args Hlen.
  - destruct args; [|simpl in Hlen; lia]. simpl. repeat split; try done. 
  - destruct args as [|arg rest]; [simpl; repeat split; done|].
    simpl in Hlen. rewrite reorderLoop_cons.
    destruct (strings.HasPrefix arg "-") eqn:Hdash.
    + destruct (takesValue arg).
      * destruct rest as [|value rest']; simpl.
        { repeat split; try done. by apply sublist_nil_l. }
        simpl in Hlen. destruct (IH rest') as (Hp & Hf & Hs & Hperm); [lia|].
        repeat split; [done| |..].
        -- by do 2 apply sublist_skip.
        -- by do 2 apply sublist_cons.
        -- by do 2 apply Permutation_skip.
      * destruct (IH rest) as (Hp & Hf & Hs & Hperm); [lia|]. simpl.
        repeat split; [done| |..].
        -- by apply sublist_skip.
        -- by apply sublist_cons.
        -- by apply Permutation_skip.
    + destruct (IH rest) as (Hp & Hf & Hs & Hperm); [lia|]. simpl.
      repeat split.
      * by constructor.
      * by apply sublist_cons.
      * by apply sublist_skip.
      * etrans; [symmetry; apply Permutation_middle|]. by apply Permutation_skip.
Qed.

Lemma reorderArgs_loop (arg0 : string) (rest : list string) :
  reorderArgs (arg0 :: rest)
  = arg0 :: (reorderLoop rest [] []).1 ++ (reorderLoop rest [] []).2.
Proof.
  unfold reorderArgs. case_bool_decide as Hlen.
  - destruct rest as [|a [|b rest]]; [reflexivity| |simpl in Hlen; lia].
    rewrite reorderLoop_cons.
    destruct (strings.HasPrefix a "-"); [destruct (takesValue a)|]; reflexivity.
  - by destruct (reorderLoop rest [] []).
Qed.

Lemma reorderLoop_plain (args : list string) :
  Forall (λ a, takesValue a = false) args →
  reorderLoop args [] []
  = (filter (λ a, strings.HasPrefix a "-" = true) args,
     filter nondash args).
Proof.
  induction args as [|arg rest IH]; [done|]. intros Hall.
  inversion Hall as [|? ? Harg Hrest]; subst.
  rewrite reorderLoop_cons, Harg, (IH Hrest). unfold nondash.
  destruct (strings.HasPrefix arg "-") eqn:Hd; cbn [fst snd].
  - rewrite filter_cons_True by done.
    rewrite filter_cons_False by (by rewrite Hd). done.
  - rewrite filter_cons_False by (by rewrite Hd).
    rewrite filter_cons_True by done. done.
Qed.

(** X1. [reorderArgs] rewrites [os.Args] to the program name, then the
    flags, then the positional arguments. Nothing is lost or invented (the
    result is a permutation of the input), both groups keep the order they
    had on the command line, and no positional argument starts with a dash.
    When no argument is one of [--pass], [--port], [--tunnel], [--url] (the
    flags whose value is taken from the next argument), the flags are
    exactly the arguments that start with a dash and the positional ones
    are the others. *)
Theorem reorderArgs_flags_first (Args : list string) :
  ∃ flags positional,
    reorderArgs Args = take 1 Args ++ flags ++ positional
    ∧ Forall nondash positional
    ∧ sublist flags (tail Args)
    ∧ sublist positional (tail Args)
    ∧ Permutation (flags ++ positional) (tail Args)
    ∧ (Forall (λ a, takesValue a = false) (tail Args) →
       flags = filter (λ a, strings.HasPrefix a "-" = true) (tail Args)
       ∧ positional = filter nondash (tail Args)).
Proof.
  destruct Args as [|arg0 rest].
  - exists [], []. repeat split; try done.
  - exists (reorderLoop rest [] []).1, (reorderLoop rest [] []).2.
    destruct (reorderLoop_spec (length rest) rest) as (Hp & Hf & Hs & Hperm); [done|].
    split; [apply reorderArgs_loop|].
    do 4 (split; [done|]). simpl. intros Hall. by rewrite reorderLoop_plain.
Qed.

Lemma reorderLoop_nondash (args : list string) :
  Forall nondash args → reorderLoop args [] [] = ([], args).
Proof.
  induction 1 as [|arg rest Harg Hrest IH]; [done|].
  rewrite reorderLoop_cons. unfold nondash in Harg. by rewrite Harg, IH.
Qed.

Lemma reorderLoop_again (n : nat) :
  ∀ args positional, (length args ≤ n)%nat → Forall nondash positional →
    (reorderLoop ((reorderLoop args [] []).1 ++ positional) [] []).1
    ++ (reorderLoop ((reorderLoop args [] []).1 ++ positional) [] []).2
    = (reorderLoop args [] []).1 ++ positional.
Proof.
  induction n as [|n IH]; intros args positional Hlen Hpos.
  - destruct args; [|simpl in Hlen; lia]. simpl. by rewrite reorderLoop_nondash.
  - destruct args as [|arg rest]; [simpl; by rewrite reorderLoop_nondash|].
    simpl in Hlen. rewrite (reorderLoop_cons arg rest).
    destruct (strings.HasPrefix arg "-") eqn:Hdash.
    + destruct (takesValue arg) eqn:Hval.
      * destruct rest as [|value rest']; cbn [fst snd].
        -- destruct positional as [|p positional]; cbn [app].
           ++ by rewrite reorderLoop_cons, Hdash, Hval.
           ++ rewrite reorderLoop_cons, Hdash, Hval.
              inversion Hpos; subst. by rewrite reorderLoop_nondash.
        -- simpl in Hlen. rewrite <- !app_comm_cons.
           rewrite reorderLoop_cons, Hdash, Hval. cbn [fst snd].
           rewrite <- !app_comm_cons. by rewrite IH by (done || lia).
      * cbn [fst snd]. rewrite <- !app_comm_cons.
        rewrite reorderLoop_cons, Hdash, Hval. cbn [fst snd].
        rewrite <- !app_comm_cons. by rewrite IH by (done || lia).
    + cbn [fst snd]. apply IH; [lia|done].
Qed.

(** X2. [reorderArgs] is idempotent: on a command line that it has already
    reordered it changes nothing. (A value flag that stood last without a
    value now stands before the first positional argument, which becomes
    its value for the second pass; the list is the same.) *)
Theorem reorderArgs_idempotent (Args : list string) :
  reorderArgs (reorderArgs Args) = reorderArgs Args.
Proof.
  destruct Args as [|arg0 rest]; [done|].
  rewrite (reorderArgs_loop arg0 rest), reorderArgs_loop.
  destruct (reorderLoop_spec (length rest) rest) as (Hpos & _); [done|].
  by rewrite (reorderLoop_again (length rest)).
Qed.

End command_line.

(** ** The access log: [appendToAccessLog] and [cmdLogs] *)

Section logs.
Import main.

Lemma append_assoc (a b c : string) : (a +:+ b) +:+ c = a +:+ (b +:+ c).
Proof.
  induction a as [|x a IH]; [done|].
  change (String x ((a +:+ b) +:+ c) = String x (a +:+ (b +:+ c))). by rewrite IH.
Qed.

Lemma SplitByte_line (e t : string) :
  linefree e →
  strings.SplitByte (ascii_of_nat 10) (e +:+ strings.newline +:+ t) = e :: strings.SplitByte (ascii_of_nat 10) t.
Proof.
  induction e as [|c e IH]; intros He.
  - change ("" +:+ strings.newline +:+ t) with (String (ascii_of_nat 10) t).
    cbn [strings.SplitByte]. by rewrite bool_decide_eq_true_2.
  - destruct He as [Hc He].
    change (String c e +:+ strings.newline +:+ t) with (String c (e +:+ strings.newline +:+ t)).
    cbn [strings.SplitByte]. rewrite bool_decide_eq_false_2 by done. by rewrite IH.
Qed.

Lemma logFile_from (entries : list string) :
  ∀ data, foldl (λ file entry, server.appendToAccessLog_bytes true entry file)
                (Some data) entries
          = Some (data +:+ logText entries).
Proof.
  induction entries as [|e entries IH]; intros data; simpl.
  - by rewrite append_empty.
  - unfold server.appendToAccessLog_bytes at 2. simpl. rewrite IH.
    by rewrite !append_assoc.
Qed.

Lemma logFile_text (e : string) (entries : list string) :
  logFile (e :: entries) = Some (logText (e :: entries)).
Proof.
  unfold logFile. simpl. unfold server.appendToAccessLog_bytes at 2. simpl.
  rewrite logFile_from. by rewrite !append_assoc.
Qed.

Lemma SplitByte_logText (entries : list string) :
  Forall (λ e, e ≠ "" ∧ linefree e) entries →
  strings.SplitByte (ascii_of_nat 10) (logText entries) = entries ++ [""].
Proof.
  induction 1 as [|e entries [_ He] _ IH]; [done|].
  simpl. rewrite SplitByte_line by done. by rewrite IH.
Qed.

Lemma filter_nonempty (entries : list string) :
  Forall (λ e, e ≠ "" ∧ linefree e) entries →
  filter (λ line, line ≠ "") (entries ++ [""]) = entries.
Proof.
  induction 1 as [|e entries [He _] _ IH]; [done|].
  simpl. rewrite filter_cons_True by done. by rewrite IH.
Qed.

(** X3. [cmdLogs] on the file that [appendToAccessLog] has written. With
    no entry yet there is no file and the notice is printed. Otherwise the
    lines printed after the header are the entries in their order, and at
    most the last nineteen of them: every entry ends in a line feed, so
    that splitting on line feeds leaves an empty last piece, which takes
    one of the twenty places and is then skipped. The entries are those of
    the server: not empty and without a raw line feed (as JSON objects
    are). *)
Theorem cmdLogs_last_nineteen (entries : list string) :
  Forall (λ e, e ≠ "" ∧ linefree e) entries →
  cmdLogs (readLog (logFile entries))
  = match entries with
    | [] => LogsNone
    | _ => LogsLines (drop (length entries - 19) entries)
    end.
Proof.
  intros Hall. destruct entries as [|e entries]; [done|].
  rewrite logFile_text. unfold readLog, cmdLogs.
  rewrite SplitByte_logText by done.
  remember (e :: entries) as l eqn:Hl. rewrite length_app. cbn [length].
  assert (Hstart : (if bool_decide (20 < length l + 1)%nat
                    then (length l + 1 - 20)%nat else 0%nat)
                   = (length l - 19)%nat) by (case_bool_decide; lia).
  rewrite Hstart. f_equal.
  rewrite drop_app_le by lia.
  apply filter_nonempty. by apply Forall_drop.
Qed.

(** X3 on twenty entries: nineteen lines *)
Lemma cmdLogs_twenty_entries :
  main.cmdLogs (readLog (logFile (replicate 20 "{}")))
  = main.LogsLines (replicate 19 "{}").
Proof.
  apply (cmdLogs_last_nineteen (replicate 20 "{}")).
  apply Forall_replicate. split; [done|]. simpl. repeat split; done.
Defined.

End logs.

(** ** Passwords and the authentication layer *)

Section passwords.

Lemma charset_get (k : nat) :
  (k < 62)%nat → ∃ c, String.get k auth.charset = Some c ∧ alnum c.
Proof.
  intros Hk.
  do 62 (destruct k as [|k];
         [eexists; split; [reflexivity|]; unfold alnum; vm_compute; lia|]).
  lia.
Qed.

Lemma get_string_of_list (l : list ascii) (i : nat) :
  String.get i (string_of_list_ascii l) = l !! i.
Proof.
  revert i. induction l as [|c l IH]; intros i; [by destruct i|].
  destruct i as [|i]; [done|]. simpl. apply IH.
Qed.

Lemma length_string_of_list (l : list ascii) :
  String.length (string_of_list_ascii l) = length l.
Proof. induction l as [|c l IH]; simpl; [done|]. by rewrite IH. Qed.

Lemma mapM_charset (random : nat → ascii) (n start : nat) :
  ∃ l, mapM (λ i, String.get (nat_of_ascii (random i) mod String.length auth.charset)%nat
                             auth.charset) (seq start n) = Some l
       ∧ length l = n
       ∧ ∀ i, (i < n)%nat →
           ∃ c, l !! i = Some c
                ∧ String.get (nat_of_ascii (random (start + i)%nat) mod 62)%nat
                             auth.charset = Some c
                ∧ alnum c.
Proof.
  change (String.length auth.charset) with 62%nat.
  set (f := λ i, String.get (nat_of_ascii (random i) mod 62)%nat auth.charset).
  revert start. induction n as [|n IH]; intros start.
  - exists []. split; [done|]. split; [done|]. intros i Hi. lia.
  - destruct (charset_get (nat_of_ascii (random start) mod 62)) as (c & Hc & Hal).
    { by apply Nat.mod_upper_bound. }
    destruct (IH (S start)) as (l & Hl & Hlen & Hget).
    assert (Hc' : f start = Some c) by exact Hc.
    exists (c :: l).
    split; [simpl; rewrite Hc'; simpl; rewrite Hl; done|].
    split; [simpl; by rewrite Hlen|].
    intros [|i] Hi.
    + exists c. by rewrite Nat.add_0_r.
    + destruct (Hget i) as (c' & H1 & H2 & H3); [lia|].
      exists c'. split; [done|]. split; [|done].
      by replace (start + S i)%nat with (S start + i)%nat by lia.
Qed.

Lemma GeneratePassword_length (random : nat → ascii) (n : nat) :
  ∃ pw, auth.GeneratePassword random n = Some pw ∧ String.length pw = n.
Proof.
  destruct (mapM_charset random n 0) as (l & Hl & Hlen & _).
  exists (string_of_list_ascii l). unfold auth.GeneratePassword. rewrite Hl.
  split; [done|]. by rewrite length_string_of_list.
Qed.

(** X4. [GeneratePassword(length)] never indexes outside the character
    set, whatever the random bytes are; the password has exactly [length]
    characters, the character at position [i] is the one the byte [b[i]]
    selects modulo 62, and every character is a digit or a Latin letter. *)
Theorem GeneratePassword_alnum (random : nat → ascii) (n : nat) :
  ∃ pw, auth.GeneratePassword random n = Some pw
        ∧ String.length pw = n
        ∧ ∀ i, (i < n)%nat →
            ∃ c, String.get i pw = Some c
                 ∧ String.get (nat_of_ascii (random i) mod 62)%nat auth.charset = Some c
                 ∧ alnum c.
Proof.
  destruct (mapM_charset random n 0) as (l & Hl & Hlen & Hget).
  exists (string_of_list_ascii l). unfold auth.GeneratePassword. rewrite Hl.
  split; [done|]. split; [by rewrite length_string_of_list|].
  intros i Hi. destruct (Hget i Hi) as (c & Hc & Hsel & Hal).
  exists c. by rewrite get_string_of_list.
Qed.

End passwords.

Section authentication.
Import server_types.

Lemma SplitColon2_colonfree (u p : string) :
  colonfree u → strings.SplitColon2 (u +:+ ":" +:+ p) = (u, Some p).
Proof.
  induction u as [|c u IH]; intros Hu.
  - change ("" +:+ ":" +:+ p) with (String ":" p). cbn [strings.SplitColon2].
    by rewrite bool_decide_eq_true_2.
  - destruct Hu as [Hc Hu].
    change (String c u +:+ ":" +:+ p) with (String c (u +:+ ":" +:+ p)).
    cbn [strings.SplitColon2]. rewrite bool_decide_eq_false_2 by done.
    by rewrite IH.
Qed.

Lemma SplitColon2_Some (d u p : string) :
  strings.SplitColon2 d = (u, Some p) → d = u +:+ ":" +:+ p ∧ colonfree u.
Proof.
  revert u. induction d as [|c d IH]; intros u; [done|].
  cbn [strings.SplitColon2]. case_bool_decide as Hc.
  - intros [= <- <-]. by subst c.
  - destruct (strings.SplitColon2 d) as [hd tl]. intros [= <- ->].
    destruct (IH hd eq_refl) as [-> Hfree]. by split.
Qed.

Lemma HasPrefix_drop (s pre : string) :
  strings.HasPrefix s pre = true → s = pre +:+ strings.drop (String.length pre) s.
Proof.
  revert s. induction pre as [|a pre IH]; intros s; [done|].
  destruct s as [|b s]; [done|]. cbn [strings.HasPrefix].
  intros [Hab Hpre]%andb_true_iff. apply bool_decide_eq_true_1 in Hab. subst b.
  simpl. change (String a s = String a (pre +:+ strings.drop (String.length pre) s)).
  f_equal. by apply IH.
Qed.

Lemma BasicAuthMiddleware_cases (b64decode : string → option string)
    (W : Type) (username password : string)
    (next : http.Request.t → W → Response * W) (r : http.Request.t) (w : W) :
  auth.BasicAuthMiddleware b64decode username password next r w
  = (auth.unauthorized, w)
  ∨ (carries b64decode username password r ∧ colonfree username).
Proof.
  unfold auth.BasicAuthMiddleware.
  destruct (decide (http.Request.Authorization r = "")); [by left|].
  destruct (strings.HasPrefix _ "Basic ") eqn:Hpre; cbn [negb]; [|by left].
  destruct (b64decode _) as [decoded|] eqn:Hdec; [|by left].
  destruct (strings.SplitColon2 decoded) as [user [pass|]] eqn:Hsplit; [|by left].
  case_bool_decide as Hu; cbn [negb orb]; [|by left].
  case_bool_decide as Hp; cbn [negb]; [|by left].
  right. subst user pass.
  apply SplitColon2_Some in Hsplit as [-> Hfree]. split; [|done].
  exists (strings.drop 6 (http.Request.Authorization r)). split; [|done].
  by apply (HasPrefix_drop _ "Basic ").
Qed.

(** X5. [BasicAuthMiddleware] hands a request to the next handler exactly
    when its Authorization header is [Basic] followed by an encoding of
    [username:password]; the password may contain colons, since the decoded
    text is split at the first colon only. Every other request (no header,
    another scheme, bytes that do not decode, no colon, another user or
    password) is answered by [unauthorized] and the next handler is not
    called. A configured username that contains a colon can never be
    matched: every request is turned away. *)
Theorem BasicAuthMiddleware_accepts (b64decode : string → option string)
    (W : Type) (username password : string)
    (next : http.Request.t → W → Response * W) (r : http.Request.t) (w : W) :
  (colonfree username → carries b64decode username password r →
   auth.BasicAuthMiddleware b64decode username password next r w = next r w)
  ∧ (¬ carries b64decode username password r →
     auth.BasicAuthMiddleware b64decode username password next r w
     = (auth.unauthorized, w))
  ∧ (¬ colonfree username →
     auth.BasicAuthMiddleware b64decode username password next r w
     = (auth.unauthorized, w)).
Proof.
  split; [|split].
  - intros Hu (payload & Hauth & Hdec). unfold auth.BasicAuthMiddleware.
    rewrite Hauth. rewrite decide_False by done.
    rewrite HasPrefix_append. cbn [negb].
    change (strings.drop 6 ("Basic " +:+ payload)) with payload. rewrite Hdec.
    rewrite SplitColon2_colonfree by done.
    by rewrite !bool_decide_eq_true_2.
  - intros Hno.
    destruct (BasicAuthMiddleware_cases b64decode W username password next r w)
      as [H|[H _]]; done.
  - intros Hno.
    destruct (BasicAuthMiddleware_cases b64decode W username password next r w)
      as [H|[_ H]]; done.
Qed.

(** X5 on the request that carries [dl:secret] *)
Lemma BasicAuthMiddleware_accepts_example :
  auth.BasicAuthMiddleware example_b64 "dl" "secret"
    (λ r (w : unit), (auth.unauthorized, w)) (authorized_request "/") tt
  = (auth.unauthorized, tt)
  ∧ auth.BasicAuthMiddleware example_b64 "dl" "other"
      (λ r (w : unit), (server.NotFound ∅, w)) (authorized_request "/") tt
    = (auth.unauthorized, tt).
Proof.
  split.
  - apply (proj1 (BasicAuthMiddleware_accepts example_b64 unit "dl" "secret"
                    (λ r w, (auth.unauthorized, w)) (authorized_request "/") tt)).
    + simpl. repeat split; done.
    + exists "ZGw6c2VjcmV0". split; reflexivity.
  - apply (proj1 (proj2 (BasicAuthMiddleware_accepts example_b64 unit "dl" "other"
                           (λ r w, (server.NotFound ∅, w))
                           (authorized_request "/") tt))).
    intros (payload & Hauth & Hdec). cbv in Hauth. injection Hauth as <-.
    vm_compute in Hdec. discriminate Hdec.
Defined.

End authentication.

(** ** The tunnel process *)

Section tunnel_lifecycle.
Import sys.





(** X7. [Start] does not start a second tunnel: when [Start] has returned
    a (positive) pid without an error, whether it found the tunnel running
    or started it, a further [Start] made while that process answers the
    liveness probe returns the same pid and changes nothing: no process is
    started, no file is written, no time passes. *)
Theorem tunnel_Start_idempotent (o : Oracle) (name name' : string)
    (s s1 : System) (pid : Z) :
  tunnel.Start o name s = (pid, None, s1) →
  pid > 0 →
  probe o pid (clock s1) = true →
  tunnel.Start o name' s1 = (pid, None, s1).
Proof.
  intros Hstart Hpos Hlive.
  assert (Hfile : tunnel_pid s1 = Pid pid ∧ lookPath_ok o = true).
  { revert Hstart. unfold tunnel.Start, tunnel.GetRunningPID, tunnel.isProcessRunning.
    destruct (lookPath_ok o); cbn [negb]; [|done].
    destruct (tunnel_pid s) as [| |p] eqn:Hp.
    - rewrite bool_decide_eq_false_2 by lia.
      destruct (log_ok o); cbn [negb]; [|done].
      destruct (start o _) as [p|]; [|done].
      destruct (savePID_ok o); cbn [negb]; [|done].
      destruct (probe o p _); cbn [negb]; [|done].
      by intros [= <- <-].
    - rewrite bool_decide_eq_false_2 by lia.
      destruct (log_ok o); cbn [negb]; [|done].
      destruct (start o _) as [p|]; [|done].
      destruct (savePID_ok o); cbn [negb]; [|done].
      destruct (probe o p _); cbn [negb]; [|done].
      by intros [= <- <-].
    - destruct (probe o p (clock s)); cbn [negb].
      + case_bool_decide.
        * by intros [= <- <-].
        * destruct (log_ok o); cbn [negb]; [|done].
          destruct (start o _) as [p'|]; [|done].
          destruct (savePID_ok o); cbn [negb]; [|done].
          destruct (probe o p' _); cbn [negb]; [|done].
          by intros [= <- <-].
      + rewrite bool_decide_eq_false_2 by lia.
        destruct (log_ok o); cbn [negb]; [|done].
        destruct (start o _) as [p'|]; [|done].
        destruct (savePID_ok o); cbn [negb]; [|done].
        destruct (probe o p' _); cbn [negb]; [|done].
        by intros [= <- <-]. }
  destruct Hfile as [Hfile Hlook].
  unfold tunnel.Start, tunnel.GetRunningPID, tunnel.isProcessRunning.
  rewrite Hlook, Hfile, Hlive. cbn [negb].
  by rewrite bool_decide_eq_true_2.
Qed.

(** X7 on a machine without a tunnel, where children stay alive *)
Lemma tunnel_Start_twice :
  ∃ s1, tunnel.Start live_oracle "cfshare" idle_system = (4243, None, s1)
        ∧ tunnel.Start live_oracle "cfshare" s1 = (4243, None, s1).
Proof.
  eexists. split; [vm_compute; reflexivity|].
  eapply (tunnel_Start_idempotent live_oracle "cfshare" "cfshare" idle_system).
  - vm_compute. reflexivity.
  - lia.
  - reflexivity.
Defined.

End tunnel_lifecycle.

(** ** The statistics over a sequence of requests *)

Section statistics.
Import state.






End statistics.

(** ** What every response carries, and what is served *)

Section responses.
Import state server_types server.

Lemma NewServer_inv (env : Env) (paths : list string) (st st' : State.t) (s : Server) :
  NewServer env paths st = Ok (s, st') →
  ∃ its m,
    statItems env paths = Ok its ∧ buildItemMap its = Ok m
    ∧ items s = its ∧ itemMap s = m
    ∧ match its with
      | [it] => isMulti s = false ∧ sharePath s = ShareItem.Path it
                ∧ shareType s = ShareItem.ShareType it
      | _ => isMulti s = true
      end.
Proof.
  unfold NewServer. destruct paths as [|p paths]; [done|].
  destruct (statItems env (p :: paths)) as [its|]; [|done].
  destruct (buildItemMap its) as [m|] eqn:Hm; [|done].
  intros H. exists its, m.
  destruct its as [|it [|it2 rest]]; inversion H; subst; simpl; by repeat split.
Qed.

Lemma header_attach (env : Env) (r : http.Request.t) (h : gmap string string)
    (fileName path : string) :
  header (attach env r h fileName path) !! "Cache-Control" = h !! "Cache-Control".
Proof. unfold attach. cbn [header]. by rewrite lookup_insert_ne. Qed.

Lemma header_render (env : Env) (h : gmap string string) (data : Listing) :
  header (render env h data) !! "Cache-Control" = h !! "Cache-Control".
Proof. unfold render. cbn [header]. by rewrite lookup_insert_ne. Qed.

Lemma header_handlers (s : Server) (env : Env) (r : http.Request.t)
    (h : gmap string string) :
  header (serveFile_ s env r h) !! "Cache-Control" = h !! "Cache-Control"
  ∧ header (serveDir s env r h) !! "Cache-Control" = h !! "Cache-Control"
  ∧ header (handleMultiShare s env r h) !! "Cache-Control" = h !! "Cache-Control".
Proof.
  assert (Hwb : ∀ base pre sub,
            header (serveDirWithBase env r h base pre sub) !! "Cache-Control"
            = h !! "Cache-Control").
  { intros. unfold serveDirWithBase.
    repeat (match goal with
            | |- context [if ?c then _ else _] => destruct c
            | |- context [match ?c with _ => _ end] => destruct c eqn:?
            end; try done); try apply header_attach.
    all: unfold listDirectoryWithBase; destruct (readDir _ _); [apply header_render|done]. }
  split; [|split].
  - unfold serveFile_. destruct (_ && _); [done|apply header_attach].
  - unfold serveDir.
    repeat (match goal with
            | |- context [if ?c then _ else _] => destruct c
            | |- context [match ?c with _ => _ end] => destruct c eqn:?
            end; try done); try apply header_attach.
    all: unfold listDirectory; destruct (readDir _ _); [apply header_render|done].
  - unfold handleMultiShare. destruct (_ || _); [apply header_render|].
    destruct (strings.SplitN2 _) as [itemName rest].
    destruct (itemMap s !! itemName) as [item|]; [|done].
    destruct (decide _); [|apply Hwb].
    destruct (negb _); [done|apply header_attach].
Qed.

(** X9. Every response of [handleRequest] carries [Cache-Control:
    no-store]: the listings, the downloads, and the error answers (404,
    403, 500) of every mode alike. No handler overwrites the header that
    [handleRequest] sets first. *)
Theorem handleRequest_no_store (s : Server) (env : Env) (r : http.Request.t) :
  header (handleRequest s env r) !! "Cache-Control" = Some "no-store".
Proof.
  destruct (header_handlers s env r baseHeader) as (H1 & H2 & H3).
  unfold handleRequest. fold baseHeader.
  destruct (isMulti s); cbn [negb]; [by rewrite H3|].
  destruct (decide _); [by rewrite H1|by rewrite H2].
Qed.


Lemma body_listDirectoryWithBase (env : Env) (h : gmap string string)
    (fullPath urlPrefix subPath p : string) :
  body (listDirectoryWithBase env h fullPath urlPrefix subPath) ≠ BodyFile p.
Proof. unfold listDirectoryWithBase. by destruct (readDir _ _). Qed.

Lemma body_listDirectory (env : Env) (h : gmap string string)
    (fullPath reqPath p : string) :
  body (listDirectory env h fullPath reqPath) ≠ BodyFile p.
Proof. unfold listDirectory. by destruct (readDir _ _). Qed.

Lemma serveDirWithBase_confined (env : Env) (r : http.Request.t)
    (h : gmap string string) (basePath urlPrefix subPath p : string) :
  body (serveDirWithBase env r h basePath urlPrefix subPath) = BodyFile p →
  confined env (default basePath (evalSymlinks env basePath)) p.
Proof.
  unfold serveDirWithBase.
  set (cleanSub := if decide (filepath.Clean subPath = ".") then ""
                   else filepath.Clean subPath).
  set (root := default basePath (evalSymlinks env basePath)).
  set (fullPath := if decide (cleanSub = "") then root
                   else filepath.Join [root; cleanSub]).
  destruct (strings.HasPrefix cleanSub ".."); [done|].
  destruct (strings.HasPrefix fullPath root) eqn:Hpre; cbn [negb]; [|done].
  destruct (evalSymlinks env fullPath) as [real|] eqn:Hreal.
  - destruct (strings.HasPrefix real root) eqn:Hrealpre; cbn [negb]; [|done].
    destruct (stat env fullPath) as [[|] ? ?| |]; try done.
    + intros H. by apply body_listDirectoryWithBase in H.
    + unfold attach. cbn [body]. intros [= <-]. split; [done|].
      intros q. rewrite Hreal. by intros [= <-].
  - destruct (stat env fullPath) as [[|] ? ?| |]; try done.
    + intros H. by apply body_listDirectoryWithBase in H.
    + unfold attach. cbn [body]. intros [= <-]. split; [done|].
      intros q. by rewrite Hreal.
Qed.

Lemma serveDir_confined (s : Server) (env : Env) (r : http.Request.t)
    (h : gmap string string) (p : string) :
  body (serveDir s env r h) = BodyFile p → confined env (sharePath s) p.
Proof.
  unfold serveDir.
  set (reqPath := strings.TrimPrefix (filepath.Clean (http.Request.URL_Path r)) "/").
  set (fullPath := filepath.Join [sharePath s; reqPath]).
  destruct (strings.HasPrefix reqPath ".."); [done|].
  destruct (strings.HasPrefix fullPath (sharePath s)) eqn:Hpre; cbn [negb]; [|done].
  destruct (evalSymlinks env fullPath) as [real|] eqn:Hreal.
  - destruct (strings.HasPrefix real (sharePath s)) eqn:Hrealpre; cbn [negb]; [|done].
    destruct (stat env fullPath) as [[|] ? ?| |]; try done.
    + intros H. by apply body_listDirectory in H.
    + unfold attach. cbn [body]. intros [= <-]. split; [done|].
      intros q. rewrite Hreal. by intros [= <-].
  - destruct (stat env fullPath) as [[|] ? ?| |]; try done.
    + intros H. by apply body_listDirectory in H.
    + unfold attach. cbn [body]. intros [= <-]. split; [done|].
      intros q. by rewrite Hreal.
Qed.

(** X10. What a server built by [NewServer] hands to [http.ServeFile].
    Whatever the request and the file system, the file is the path of a
    shared item itself, or a path [p] below a shared directory that passed
    both tests: the root of the item is a prefix of [p] and, when [p]
    resolves, a prefix of the resolved path as well. The root is the
    resolved path of the item in multi mode and the path of the item in
    single mode. (Both tests compare strings, without regard to path
    separators.) *)
Theorem served_file_confined (env : Env) (paths : list string) (st st' : State.t)
    (s : Server) (r : http.Request.t) (p : string) :
  NewServer env paths st = Ok (s, st') →
  body (handleRequest s env r) = BodyFile p →
  ∃ it, it ∈ items s
        ∧ (p = ShareItem.Path it ∨ confined env (rootOf env s it) p).
Proof.
  intros Hnew Hbody.
  destruct (NewServer_inv _ _ _ _ _ Hnew) as (its & m & _ & Hm & Hits & Hmap & Hmode).
  unfold handleRequest in Hbody. unfold rootOf.
  destruct (isMulti s) eqn:Hmulti; cbn [negb] in Hbody.
  - unfold handleMultiShare in Hbody.
    destruct (_ || _); [done|].
    destruct (strings.SplitN2 _) as [itemName rest].
    destruct (itemMap s !! itemName) as [item|] eqn:Hitem; [|done].
    rewrite Hmap in Hitem.
    destruct (buildItemMap_lookup _ _ _ _ Hm Hitem) as [Hin _].
    exists item. rewrite Hits. split; [done|].
    destruct (decide _).
    + destruct (negb _); [done|]. cbn in Hbody. left. congruence.
    + right. by apply serveDirWithBase_confined in Hbody.
  - destruct its as [|it [|it2 rest]]; [done| |done].
    destruct Hmode as (_ & Hpath & Htype).
    exists it. rewrite Hits. split; [by left|].
    destruct (decide _).
    + unfold serveFile_ in Hbody. destruct (_ && _); [done|].
      cbn in Hbody. left. congruence.
    + right. rewrite <- Hpath. by apply serveDir_confined in Hbody.
Qed.

(** X10 on the two-item share and [GET /a.txt] *)
Lemma served_file_confined_example :
  ∃ it, it ∈ items example_server
        ∧ ("/tmp/a.txt" = ShareItem.Path it
           ∨ confined example_env (rootOf example_env example_server it) "/tmp/a.txt").
Proof.
  refine (served_file_confined example_env example_paths State.zero _
            example_server (example_request "/a.txt") "/tmp/a.txt" _ _).
  - vm_compute. reflexivity.
  - vm_compute. reflexivity.
Defined.

End responses.

(** ** Joining a root and a cleaned path *)

Section clean_join.
Import filepath.

Lemma fold_clean_plain (l : list string) :
  ∀ out, Forall plain l →
    fold_left (clean_elem true) l out = rev (kept l) ++ out.
Proof.
  induction l as [|e l IH]; intros out Hall; [done|].
  inversion Hall as [|? ? He Hl]; subst. cbn [fold_left].
  rewrite IH by done. unfold kept.
  destruct He as [->|[->|(Hne & Hdot & Hdd & Hfree)]].
  - unfold clean_elem. rewrite decide_True by done.
    by rewrite filter_cons_False by (intros [H _]; by apply H).
  - unfold clean_elem. rewrite decide_False by done. rewrite decide_True by done.
    by rewrite filter_cons_False by (intros [_ H]; by apply H).
  - unfold clean_elem. rewrite !decide_False by done.
    rewrite filter_cons_True by done. simpl. by rewrite <- app_assoc.
Qed.

Lemma plain_slashfree (l : list string) : Forall plain l → Forall slashfree l.
Proof.
  intros Hall. eapply Forall_impl; [exact Hall|].
  intros e [->|[->|(_ & _ & _ & He)]]; done.
Qed.

Lemma normal_plain (l : list string) : Forall normal l → Forall plain l.
Proof. intros Hall. eapply Forall_impl; [exact Hall|]. intros e He. by right; right. Qed.

Lemma kept_normal (l : list string) : Forall normal l → kept l = l.
Proof.
  induction 1 as [|e l (Hne & Hdot & _) Hl IH]; [done|].
  unfold kept in *. rewrite filter_cons_True by done. by rewrite IH.
Qed.

Lemma kept_plain (l : list string) : Forall plain l → Forall normal (kept l).
Proof.
  induction 1 as [|e l He Hl IH]; [constructor|]. unfold kept in *.
  destruct He as [->|[->|He]].
  - by rewrite filter_cons_False by (intros [H _]; by apply H).
  - by rewrite filter_cons_False by (intros [_ H]; by apply H).
  - destruct He as (Hne & Hdot & Hdd & Hfree).
    rewrite filter_cons_True by done. constructor; [done|exact IH].
Qed.

(** cleaning an absolute path whose elements are empty, [.] or ordinary
    keeps the ordinary ones *)
Lemma Clean_absolute_plain (l : list string) :
  Forall plain l → Clean (absolute l) = absolute (kept l).
Proof.
  intros Hall. unfold Clean, absolute.
  rewrite decide_False by done.
  change (rooted ("/" +:+ strings.Join l)) with true. cbn iota.
  f_equal. f_equal. unfold clean_elems.
  assert (Hsplit : strings.Split ("/" +:+ strings.Join l)
                   = "" :: (match l with [] => [""] | _ => l end)).
  { change ("/" +:+ strings.Join l) with (String "/" (strings.Join l)).
    cbn [strings.Split]. rewrite bool_decide_eq_true_2 by done. f_equal.
    destruct l as [|e l]; [done|].
    apply Split_Join; [done|]. by apply plain_slashfree. }
  rewrite Hsplit. cbn [fold_left]. unfold clean_elem at 2. rewrite decide_True by done.
  destruct l as [|e l].
  - reflexivity.
  - rewrite fold_clean_plain by done. by rewrite app_nil_r, rev_involutive.
Qed.

Lemma Join_app (a b : list string) :
  a ≠ [] → b ≠ [] →
  strings.Join (a ++ b) = strings.Join a +:+ "/" +:+ strings.Join b.
Proof.
  intros Ha Hb. unfold strings.Join. induction a as [|x a IH]; [done|].
  destruct a as [|y a].
  - destruct b as [|z b]; [done|]. reflexivity.
  - cbn [app String.concat] in *. rewrite IH by done.
    destruct b as [|z b]; [done|]. cbn [String.concat].
    by rewrite !append_assoc.
Qed.

(** joining a cleaned absolute root and a path of plain elements: the
    elements of the root, then the ordinary elements of the path *)
Lemma Join_below (es cs : list string) :
  Forall normal es → cs ≠ [] → Forall plain cs →
  Join [absolute es; strings.Join cs] = absolute (es ++ kept cs).
Proof.
  intros Hes Hne Hcs. cbn [Join]. rewrite decide_False by done.
  set (es' := match es with [] => [""] | _ => es end).
  assert (Hes' : es' ≠ [] ∧ Forall plain es' ∧ kept es' = es
                 ∧ strings.Join es' = strings.Join es).
  { subst es'. destruct es as [|e es].
    - split; [done|]. split; [|done]. constructor; [by left|constructor].
    - split; [done|]. split; [by apply normal_plain|].
      split; [by apply kept_normal|done]. }
  destruct Hes' as (Hne' & Hplain' & Hkept' & Hjoin').
  replace (strings.Join [absolute es; strings.Join cs])
    with (absolute (es' ++ cs)).
  - rewrite Clean_absolute_plain by (by apply Forall_app).
    unfold kept in *. by rewrite filter_app, Hkept'.
  - unfold absolute. rewrite Join_app by done. rewrite Hjoin'.
    change (strings.Join [?a; ?b]) with (a +:+ "/" +:+ b).
    by rewrite append_assoc.
Qed.

(** what passes the test on the leading [..]: the cleaned sub-path is [.],
    or it is made of plain elements *)
Lemma CleanShape_plain (c : string) :
  CleanShape c → strings.HasPrefix c ".." = false →
  ∃ cs, cs ≠ [] ∧ Forall plain cs ∧ c = strings.Join cs.
Proof.
  intros Hc Hpre. destruct Hc as [|ns Hns|k ns Hns Hne].
  - exists ["."]. split; [done|]. split; [|done].
    constructor; [by right; left|constructor].
  - destruct ns as [|n ns].
    + exists [""; ""]. split; [done|]. split; [|done].
      constructor; [by left|]. constructor; [by left|constructor].
    + exists ("" :: n :: ns). split; [done|]. split; [|done].
      constructor; [by left|by apply normal_plain].
  - destruct k as [|k].
    + exists ns. split; [done|]. split; [by apply normal_plain|done].
    + exfalso.
      change (replicate (S k) ".." ++ ns) with (".." :: replicate k ".." ++ ns) in Hpre.
      destruct (Join_dotdot (replicate k ".." ++ ns)) as (t & Ht & _).
      rewrite Ht in Hpre. by rewrite HasPrefix_append in Hpre.
Qed.

End clean_join.

Section below_root.
Import filepath state server_types server.

Lemma TrimPrefix_slash_free (e : string) (t : string) :
  e ≠ "" → slashfree e → strings.TrimPrefix (e +:+ t) "/" = e +:+ t.
Proof.
  intros Hne Hfree. destruct e as [|c e]; [done|]. destruct Hfree as [Hc _].
  unfold strings.TrimPrefix.
  change (String c e +:+ t) with (String c (e +:+ t)). cbn [strings.HasPrefix].
  rewrite bool_decide_eq_false_2; [done|]. intros Heq. by subst c.
Qed.

Lemma Join_cons_form (e : string) (l : list string) :
  ∃ t, strings.Join (e :: l) = e +:+ t.
Proof.
  destruct l as [|x l].
  - exists "". unfold strings.Join. simpl. by rewrite append_empty.
  - eexists. reflexivity.
Qed.

Lemma reqPath_plain (c : string) :
  CleanShape c → strings.HasPrefix (strings.TrimPrefix c "/") ".." = false →
  ∃ cs, cs ≠ [] ∧ Forall plain cs ∧ strings.TrimPrefix c "/" = strings.Join cs.
Proof.
  intros Hc Hpre. destruct Hc as [|ns Hns|k ns Hns Hne].
  - exists ["."]. split; [done|]. split; [|done].
    constructor; [by right; left|constructor].
  - change (strings.TrimPrefix ("/" +:+ strings.Join ns) "/") with (strings.Join ns) in *.
    destruct ns as [|n ns].
    + exists [""]. split; [done|]. split; [|done]. constructor; [by left|constructor].
    + exists (n :: ns). split; [done|]. split; [by apply normal_plain|done].
  - destruct (replicate k ".." ++ ns) as [|e l] eqn:Hl; [done|].
    assert (He : e ≠ "" ∧ slashfree e).
    { destruct k as [|k]; simpl in Hl.
      - subst ns. inversion Hns as [|? ? (H1 & _ & _ & H4) _]; subst. done.
      - inversion Hl; subst. split; [done|]. simpl. repeat split; done. }
    destruct (Join_cons_form e l) as [t Ht].
    assert (Htrim : strings.TrimPrefix (strings.Join (e :: l)) "/" = strings.Join (e :: l)).
    { rewrite Ht. apply TrimPrefix_slash_free; apply He. }
    rewrite Htrim in *.
    destruct k as [|k]; simpl in Hl.
    + subst ns. exists (e :: l). split; [done|]. split; [by apply normal_plain|done].
    + exfalso. inversion Hl; subst. rewrite Ht in Hpre.
      by rewrite HasPrefix_append in Hpre.
Qed.

Lemma serveDirWithBase_below (env : Env) (r : http.Request.t)
    (h : gmap string string) (basePath urlPrefix subPath p : string)
    (es : list string) :
  Forall normal es →
  default basePath (evalSymlinks env basePath) = absolute es →
  body (serveDirWithBase env r h basePath urlPrefix subPath) = BodyFile p →
  ∃ rest, Forall normal rest ∧ p = absolute (es ++ rest).
Proof.
  intros Hes Hroot. unfold serveDirWithBase. rewrite Hroot.
  set (cleanSub := if decide (Clean subPath = ".") then "" else Clean subPath).
  destruct (strings.HasPrefix cleanSub "..") eqn:Hpre; [done|].
  assert (Hfull : ∃ rest, Forall normal rest
            ∧ (if decide (cleanSub = "") then absolute es
               else Join [absolute es; cleanSub]) = absolute (es ++ rest)).
  { destruct (decide (cleanSub = "")) as [Hempty|Hne].
    - exists []. split; [constructor|]. by rewrite app_nil_r.
    - assert (Hc : cleanSub = Clean subPath).
      { subst cleanSub. by destruct (decide (Clean subPath = ".")). }
      rewrite Hc in *.
      destruct (CleanShape_plain _ (Clean_shape subPath) Hpre) as (cs & Hcs & Hplain & Heq).
      exists (kept cs). split; [by apply kept_plain|].
      rewrite Heq. by apply Join_below. }
  destruct Hfull as (rest & Hrest & ->).
  destruct (negb _); [done|].
  destruct (match evalSymlinks env _ with Some _ => _ | None => _ end); [done|].
  destruct (stat env _) as [[|] ? ?| |]; try done.
  - intros H. by apply body_listDirectoryWithBase in H.
  - unfold attach. cbn [body]. intros [= <-]. by exists rest.
Qed.

Lemma serveDir_below (s : Server) (env : Env) (r : http.Request.t)
    (h : gmap string string) (p : string) (es : list string) :
  Forall normal es →
  sharePath s = absolute es →
  body (serveDir s env r h) = BodyFile p →
  ∃ rest, Forall normal rest ∧ p = absolute (es ++ rest).
Proof.
  intros Hes Hroot. unfold serveDir. rewrite Hroot.
  set (reqPath := strings.TrimPrefix (Clean (http.Request.URL_Path r)) "/").
  destruct (strings.HasPrefix reqPath "..") eqn:Hpre; [done|].
  destruct (reqPath_plain _ (Clean_shape (http.Request.URL_Path r)) Hpre)
    as (cs & Hcs & Hplain & Heq).
  fold reqPath in Heq. rewrite Heq. rewrite Join_below by done.
  destruct (negb _); [done|].
  destruct (match evalSymlinks env _ with Some _ => _ | None => _ end); [done|].
  destruct (stat env _) as [[|] ? ?| |]; try done.
  - intros H. by apply body_listDirectory in H.
  - unfold attach. cbn [body]. intros [= <-]. exists (kept cs).
    split; [by apply kept_plain|done].
Qed.

Lemma statItems_absolute (env : Env) (paths : list string) :
  (∀ d, getwd env = Some d → rooted d = true) →
  ∀ items, statItems env paths = Ok items →
    Forall (λ it, ∃ es, Forall normal es ∧ ShareItem.Path it = absolute es
                        ∧ ShareItem.Name it = Base (ShareItem.Path it)
                        ∧ (ShareItem.ShareType it = TypeFile
                           ∨ ShareItem.ShareType it = TypeDir)) items.
Proof.
  intros Hwd. induction paths as [|p paths IH]; intros items Hs; simpl in Hs.
  - inversion Hs. constructor.
  - destruct (Abs (getwd env) p) as [absPath|] eqn:Habs; [|done].
    destruct (stat env absPath) as [isDir size mt| |]; try done.
    destruct (statItems env paths) as [rest|]; [|done].
    inversion Hs; subst. constructor; [|by apply IH].
    destruct (Abs_rooted_Clean _ _ _ Hwd Habs) as (q & Hq & ->).
    destruct (Clean_rooted q Hq) as (es & Hes & Heq).
    exists es. destruct isDir; simpl; (split; [done|]); (split; [done|]);
      (split; [done|]); [by right|by left].
Qed.

(** X11. No request climbs out of a share. For a server built by
    [NewServer] under an absolute working directory, and a file system
    whose resolved item paths are cleaned absolute paths, every file handed
    to [http.ServeFile] is the path of a shared item, or lies below the
    root of a shared directory element by element: the root is
    [/e1/.../ek] and the file is [/e1/.../ek/r1/.../rm], where no element
    is empty, [.] or [..]. This is stronger than the prefix test of the
    code, which it makes redundant for such roots. *)
Theorem served_file_below_root (env : Env) (paths : list string)
    (st st' : State.t) (s : Server) (r : http.Request.t) (p : string) :
  (∀ d, getwd env = Some d → rooted d = true) →
  (∀ it q, it ∈ items s → evalSymlinks env (ShareItem.Path it) = Some q →
           ∃ es, Forall normal es ∧ q = absolute es) →
  NewServer env paths st = Ok (s, st') →
  body (handleRequest s env r) = BodyFile p →
  ∃ it, it ∈ items s
        ∧ (p = ShareItem.Path it
           ∨ ∃ es rest, Forall normal es ∧ Forall normal rest
                        ∧ rootOf env s it = absolute es
                        ∧ p = absolute (es ++ rest)).
Proof.
  intros Hwd Hreal Hnew Hbody.
  destruct (NewServer_inv _ _ _ _ _ Hnew) as (its & m & Hstat & Hm & Hits & Hmap & Hmode).
  pose proof (statItems_absolute env paths Hwd its Hstat) as Habs.
  rewrite Forall_forall in Habs.
  unfold handleRequest in Hbody. unfold rootOf.
  destruct (isMulti s) eqn:Hmulti; cbn [negb] in Hbody.
  - unfold handleMultiShare in Hbody.
    destruct (_ || _); [done|].
    destruct (strings.SplitN2 _) as [itemName rest].
    destruct (itemMap s !! itemName) as [item|] eqn:Hitem; [|done].
    rewrite Hmap in Hitem.
    destruct (buildItemMap_lookup _ _ _ _ Hm Hitem) as [Hin _].
    exists item. rewrite Hits. split; [done|].
    destruct (decide _).
    + destruct (negb _); [done|]. cbn in Hbody. left. congruence.
    + right.
      assert (Hroot : ∃ es, Forall normal es
                ∧ default (ShareItem.Path item) (evalSymlinks env (ShareItem.Path item))
                  = absolute es).
      { destruct (evalSymlinks env (ShareItem.Path item)) as [q|] eqn:Hq.
        - apply (Hreal item q); [by rewrite Hits|done].
        - destruct (Habs item Hin) as (es & Hes & Hp & _). by exists es. }
      destruct Hroot as (es & Hes & Hroot).
      destruct (serveDirWithBase_below _ _ _ _ _ _ _ es Hes Hroot Hbody)
        as (rest' & Hrest & ->).
      by exists es, rest'.
  - destruct its as [|it [|it2 rest]]; [done| |done].
    destruct Hmode as (_ & Hpath & Htype).
    exists it. rewrite Hits. split; [by left|].
    destruct (decide _).
    + unfold serveFile_ in Hbody. destruct (_ && _); [done|].
      cbn in Hbody. left. congruence.
    + right. destruct (Habs it) as (es & Hes & Hp & _); [by left|].
      assert (Hshare : sharePath s = absolute es) by (by rewrite Hpath).
      destruct (serveDir_below s env r _ p es Hes Hshare Hbody)
        as (rest' & Hrest & ->).
      by exists es, rest'.
Qed.

(** X11 on the two-item share and [GET /a.txt] *)
Lemma served_file_below_root_example :
  ∃ it, it ∈ items example_server
        ∧ ("/tmp/a.txt" = ShareItem.Path it
           ∨ ∃ es rest, Forall normal es ∧ Forall normal rest
                        ∧ rootOf example_env example_server it = absolute es
                        ∧ "/tmp/a.txt" = absolute (es ++ rest)).
Proof.
  refine (served_file_below_root example_env example_paths State.zero _
            example_server (example_request "/a.txt") "/tmp/a.txt" _ _ _ _).
  - intros d [= <-]. reflexivity.
  - intros it q Hit. vm_compute in Hit.
    apply elem_of_cons in Hit as [->|Hit].
    { intros [= <-]. exists ["tmp"; "a.txt"]. split; [|reflexivity].
      repeat constructor; simpl; done. }
    apply elem_of_cons in Hit as [->|Hit]; [|by apply elem_of_nil in Hit].
    intros [= <-]. exists ["tmp"; "dir"]. split; [|reflexivity].
    repeat constructor; simpl; done.
  - vm_compute. reflexivity.
  - vm_compute. reflexivity.
Defined.

End below_root.

(** ** The links of the root listing *)

Section root_links.
Import filepath state server_types server.

Lemma Base_absolute (es : list string) :
  Forall normal es →
  Base (absolute es) = match last es with Some e => e | None => "/" end.
Proof.
  intros Hes. unfold Base, last_elem. rewrite decide_False by done.
  unfold absolute. rewrite Split_rooted_Join by done.
  rewrite filter_cons_False by (intros H; by apply H).
  destruct es as [|e es]; [done|].
  assert (Hf : filter (λ e0, e0 ≠ "") (e :: es) = e :: es).
  { clear -Hes. induction Hes as [|x l (Hx & _) _ IH]; [done|].
    rewrite filter_cons_True by done. by rewrite IH. }
  rewrite Hf. by destruct (last (e :: es)) eqn:E; [|apply last_None in E].
Qed.

Lemma Base_absolute_normal (es : list string) :
  Forall normal es → Base (absolute es) ≠ "/" → normal (Base (absolute es)).
Proof.
  intros Hes. rewrite Base_absolute by done.
  destruct (last es) as [e|] eqn:Hlast; [|done]. intros _.
  apply last_Some in Hlast as [l' ->].
  apply Forall_app in Hes as [_ He]. by inversion He.
Qed.

Lemma SplitN2_slashfree (s : string) : slashfree s → strings.SplitN2 s = (s, None).
Proof.
  induction s as [|c s IH]; [done|]. intros [Hc Hs]. cbn [strings.SplitN2].
  rewrite bool_decide_eq_false_2 by done. by rewrite IH.
Qed.

Lemma multi_request_item (s : Server) (env : Env) (r : http.Request.t)
    (n : string) (it : ShareItem.t) (slash : bool) :
  normal n → itemMap s !! n = Some it →
  http.Request.URL_Path r = (if slash then "/" +:+ n +:+ "/" else "/" +:+ n) →
  handleMultiShare s env r baseHeader
  = if decide (ShareItem.ShareType it = TypeFile)
    then attach env r baseHeader (ShareItem.Name it) (ShareItem.Path it)
    else serveDirWithBase env r baseHeader (ShareItem.Path it) ("/" +:+ n) "".
Proof.
  intros Hn Hit Hurl. pose proof Hn as (Hne & Hdot & Hdd & Hfree).
  assert (Hclean : Clean (http.Request.URL_Path r) = absolute [n]).
  { rewrite Hurl. destruct slash.
    - replace ("/" +:+ n +:+ "/") with (absolute [n; ""]).
      + rewrite Clean_absolute_plain.
        * unfold kept. rewrite filter_cons_True by done.
          by rewrite filter_cons_False by (intros [H _]; by apply H).
        * constructor; [by right; right|]. constructor; [by left|constructor].
      + unfold absolute, strings.Join. simpl. by rewrite append_empty.
    - change ("/" +:+ n) with (absolute [n]).
      rewrite Clean_absolute_plain.
      + unfold kept. by rewrite filter_cons_True by done.
      + constructor; [by right; right|constructor]. }
  unfold handleMultiShare. rewrite Hclean.
  change (strings.TrimPrefix (absolute [n]) "/") with n.
  rewrite (bool_decide_eq_false_2 (n = "/")).
  2: { intros ->. by destruct Hfree. }
  rewrite !bool_decide_eq_false_2 by done. cbn [orb].
  assert (Htrim : strings.TrimPrefix n "/" = n).
  { rewrite <- (append_empty n). by apply TrimPrefix_slash_free. }
  rewrite Htrim, SplitN2_slashfree by done. cbn [default].
  rewrite Hit. destruct (decide _); [|done].
  by rewrite bool_decide_eq_true_2.
Qed.

(** X12. The links of the root listing lead to their items. In multi mode,
    for a server built by [NewServer] under an absolute working directory,
    every entry of the listing at [/] (other than a share of the root
    directory itself, whose name is [/]) belongs to an item of that name,
    and a request for the path of the entry is answered from that item: a
    file entry by the download of the item's path under the item's name, a
    directory entry by the browser of the item's path, with the empty
    sub-path and [/name] as the prefix of the links. *)
Theorem root_links_resolve (env : Env) (paths : list string) (st st' : State.t)
    (s : Server) (r : http.Request.t) (f : FileInfo.t) :
  (∀ d, getwd env = Some d → rooted d = true) →
  NewServer env paths st = Ok (s, st') →
  isMulti s = true →
  f ∈ listing_files (handleRequest s env (withPath "/" r)) →
  FileInfo.Name f ≠ "/" →
  ∃ it, it ∈ items s
        ∧ ShareItem.Name it = FileInfo.Name f
        ∧ handleRequest s env (withPath (FileInfo.Path f) r)
          = if FileInfo.IsDir f
            then serveDirWithBase env (withPath (FileInfo.Path f) r) baseHeader
                   (ShareItem.Path it) ("/" +:+ ShareItem.Name it) ""
            else attach env (withPath (FileInfo.Path f) r) baseHeader
                   (ShareItem.Name it) (ShareItem.Path it).
Proof.
  intros Hwd Hnew Hmulti Hf Hname.
  destruct (NewServer_inv _ _ _ _ _ Hnew) as (its & m & Hstat & Hm & Hits & Hmap & _).
  pose proof (statItems_absolute env paths Hwd its Hstat) as Habs.
  rewrite Forall_forall in Habs.
  assert (Hroot : handleRequest s env (withPath "/" r)
                  = listVirtualRoot s env baseHeader).
  { unfold handleRequest. rewrite Hmulti. reflexivity. }
  rewrite Hroot, listVirtualRoot_files in Hf.
  rewrite Slice_less_Permutation in Hf.
  unfold rootFiles in Hf. apply list_elem_of_fmap in Hf as (it & -> & Hit).
  cbn [FileInfo.Name FileInfo.IsDir FileInfo.Path] in *.
  rewrite Hits in Hit.
  destruct (Habs it Hit) as (es & Hes & Hpath & Hbase & Htype).
  assert (Hn : normal (ShareItem.Name it)).
  { rewrite Hbase, Hpath in *. by apply Base_absolute_normal. }
  apply buildItemMap_from_Ok in Hm as (_ & Hin & _).
  destruct (Hin it Hit) as [_ Hlookup]. rewrite <- Hmap in Hlookup.
  exists it. rewrite Hits. split; [done|]. split; [done|].
  unfold handleRequest. rewrite Hmulti. cbn [negb].
  rewrite (multi_request_item s env _ (ShareItem.Name it) it
             (bool_decide (ShareItem.ShareType it = TypeDir)) Hn Hlookup).
  2: { cbn. by case_bool_decide. }
  destruct Htype as [Ht|Ht]; rewrite Ht.
  - rewrite decide_True by done. by rewrite bool_decide_eq_false_2.
  - rewrite decide_False by done. by rewrite bool_decide_eq_true_2.
Qed.

(** X12 on the entry of [a.txt] in the root listing of the two-item share *)
Lemma root_links_resolve_example :
  ∃ it, it ∈ items example_server
        ∧ ShareItem.Name it = "a.txt"
        ∧ handleRequest example_server example_env (example_request "/a.txt")
          = attach example_env (example_request "/a.txt") baseHeader
              (ShareItem.Name it) (ShareItem.Path it).
Proof.
  refine (root_links_resolve example_env example_paths State.zero _ example_server
            (example_request "/")
            (FileInfo.mk "a.txt" 12 "2024-01-01T00:00:00Z" false "/a.txt") _ _ _ _ _).
  - intros d [= <-]. reflexivity.
  - vm_compute. reflexivity.
  - reflexivity.
  - vm_compute. right. left.
  - done.
Defined.

End root_links.

(** ** Browsing below a shared directory *)

Section directory_links.
Import filepath state server_types server.

Lemma fold_clean_normal (b : bool) (l : list string) :
  ∀ out, Forall normal l → fold_left (clean_elem b) l out = rev l ++ out.
Proof.
  induction l as [|e l IH]; intros out Hall; [done|].
  inversion Hall as [|? ? (Hne & Hdot & Hdd & Hfree) Hl]; subst. cbn [fold_left].
  rewrite IH by done. unfold clean_elem. rewrite !decide_False by done.
  simpl. by rewrite <- app_assoc.
Qed.

Lemma Join_nonempty (e : string) (l : list string) :
  e ≠ "" → strings.Join (e :: l) ≠ "".
Proof.
  intros He. destruct (Join_cons_form e l) as [t ->]. by destruct e.
Qed.

Lemma Join_not_rooted (e : string) (l : list string) :
  e ≠ "" → slashfree e → rooted (strings.Join (e :: l)) = false.
Proof.
  intros He Hfree. destruct (Join_cons_form e l) as [t ->].
  destruct e as [|c e]; [done|]. destruct Hfree as [Hc _].
  unfold rooted. change (String c e +:+ t) with (String c (e +:+ t)).
  cbn [strings.HasPrefix]. rewrite bool_decide_eq_false_2; [done|].
  intros Heq. by subst c.
Qed.

(** a relative path of ordinary elements is clean *)
Lemma Clean_relative_normal (l : list string) :
  l ≠ [] → Forall normal l → Clean (strings.Join l) = strings.Join l.
Proof.
  intros Hne Hall. destruct l as [|e l]; [done|].
  inversion Hall as [|? ? (He & _ & _ & Hfree) _]; subst.
  unfold Clean. rewrite decide_False by (by apply Join_nonempty).
  rewrite Join_not_rooted by done.
  unfold clean_elems. rewrite Split_Join by (done || by apply plain_slashfree, normal_plain).
  rewrite fold_clean_normal by done. by rewrite app_nil_r, rev_involutive.
Qed.

Lemma HasPrefix_dotdot_Join (e : string) (l : list string) :
  normal e →
  strings.HasPrefix (strings.Join (e :: l)) ".." = strings.HasPrefix e "..".
Proof.
  intros (Hne & Hdot & Hdd & Hfree). destruct (Join_cons_form e l) as [t ->].
  destruct e as [|c [|d e]]; [done| |].
  - change (String c "" +:+ t) with (String c t). cbn [strings.HasPrefix].
    rewrite bool_decide_eq_false_2; [done|]. intros Heq. by subst c.
  - change (String c (String d e) +:+ t) with (String c (String d (e +:+ t))).
    reflexivity.
Qed.

Lemma SplitN2_Join (n : string) (l : list string) :
  slashfree n →
  strings.SplitN2 (strings.Join (n :: l))
  = (n, match l with [] => None | _ => Some (strings.Join l) end).
Proof.
  intros Hn. destruct l as [|x l].
  - unfold strings.Join. simpl. by apply SplitN2_slashfree.
  - change (strings.Join (n :: x :: l)) with (n +:+ "/" +:+ strings.Join (x :: l)).
    induction n as [|c n IH]; [done|]. destruct Hn as [Hc Hn].
    change (String c n +:+ ?t) with (String c (n +:+ t)). cbn [strings.SplitN2].
    rewrite bool_decide_eq_false_2 by done. by rewrite IH.
Qed.


Lemma HasPrefix_refl (p : string) : strings.HasPrefix p p = true.
Proof. rewrite <- (append_empty p) at 1. apply HasPrefix_append. Qed.

Lemma HasPrefix_absolute_app (es rest : list string) :
  strings.HasPrefix (absolute (es ++ rest)) (absolute es) = true.
Proof.
  destruct rest as [|x rest]; [rewrite app_nil_r; apply HasPrefix_refl|].
  destruct es as [|e es]; [reflexivity|].
  unfold absolute. rewrite Join_app by done.
  rewrite <- append_assoc. apply HasPrefix_append.
Qed.

Lemma absolute_snoc (l : list string) (x : string) :
  l ≠ [] → absolute (l ++ [x]) = absolute l +:+ "/" +:+ x.
Proof.
  intros Hl. unfold absolute. rewrite Join_app by done.
  by rewrite append_assoc.
Qed.

Lemma Join_normal_shape (e : string) (l : list string) :
  normal e →
  strings.Join (e :: l) ≠ "/" ∧ strings.Join (e :: l) ≠ "." ∧ strings.Join (e :: l) ≠ "".
Proof.
  intros (Hne & Hdot & Hdd & Hfree).
  split; [|split; [|by apply Join_nonempty]].
  - destruct (Join_cons_form e l) as [t ->]. destruct e as [|c e]; [done|].
    destruct Hfree as [Hc _]. intros [= Heq _]. by subst c.
  - destruct l as [|x l].
    + unfold strings.Join. simpl. done.
    + change (strings.Join (e :: x :: l)) with (e +:+ "/" +:+ strings.Join (x :: l)).
      destruct e as [|c [|d e]]; [done| |]; intros [= _ Heq]; done.
Qed.

(** the route of a clean request below an item of a multi share *)
Lemma multi_request_sub (s : Server) (env : Env) (r : http.Request.t)
    (n : string) (it : ShareItem.t) (subs : list string) (slash : bool) :
  normal n → Forall normal subs → itemMap s !! n = Some it →
  http.Request.URL_Path r = absolute (n :: subs ++ if slash then [""] else []) →
  handleMultiShare s env r baseHeader
  = if decide (ShareItem.ShareType it = TypeFile)
    then if negb (bool_decide (strings.Join subs = "")) then NotFound baseHeader
         else attach env r baseHeader (ShareItem.Name it) (ShareItem.Path it)
    else serveDirWithBase env r baseHeader (ShareItem.Path it) ("/" +:+ n)
           (strings.Join subs).
Proof.
  intros Hn Hsubs Hit Hurl. pose proof Hn as (Hne & Hdot & Hdd & Hfree).
  assert (Hclean : Clean (http.Request.URL_Path r) = absolute (n :: subs)).
  { rewrite Hurl. rewrite Clean_absolute_plain.
    - f_equal. unfold kept. rewrite filter_cons_True by done. f_equal.
      rewrite filter_app. fold (kept subs). rewrite kept_normal by done.
      destruct slash; [|by rewrite app_nil_r].
      rewrite filter_cons_False by (intros [H _]; by apply H). by rewrite app_nil_r.
    - constructor; [by right; right|]. apply Forall_app. split; [by apply normal_plain|].
      destruct slash; [|constructor]. constructor; [by left|constructor]. }
  unfold handleMultiShare. rewrite Hclean.
  change (strings.TrimPrefix (absolute (n :: subs)) "/") with (strings.Join (n :: subs)).
  destruct (Join_normal_shape n subs Hn) as (H1 & H2 & H3).
  rewrite !bool_decide_eq_false_2 by done. cbn [orb].
  assert (Htrim : strings.TrimPrefix (strings.Join (n :: subs)) "/"
                  = strings.Join (n :: subs)).
  { destruct (Join_cons_form n subs) as [t ->]. by apply TrimPrefix_slash_free. }
  rewrite Htrim, SplitN2_Join by done. rewrite Hit.
  assert (Hsub : default "" (match subs with [] => None | _ => Some (strings.Join subs) end)
                 = strings.Join subs) by (by destruct subs).
  by rewrite Hsub.
Qed.

(** [serveDirWithBase] on a clean sub-path: the path it answers from *)
Lemma serveDirWithBase_at (env : Env) (r : http.Request.t) (h : gmap string string)
    (basePath urlPrefix : string) (es subs : list string) :
  Forall normal es → Forall normal subs →
  default basePath (evalSymlinks env basePath) = absolute es →
  serveDirWithBase env r h basePath urlPrefix (strings.Join subs)
  = if strings.HasPrefix (strings.Join subs) ".."
    then Error_ h "Forbidden" http.StatusForbidden
    else
      let fullPath := absolute (es ++ subs) in
      if match evalSymlinks env fullPath with
         | Some realFullPath => negb (strings.HasPrefix realFullPath (absolute es))
         | None => false
         end
      then Error_ h "Forbidden" http.StatusForbidden
      else match stat env fullPath with
           | os.StatNotExist => NotFound h
           | os.StatError =>
               Error_ h "Internal Server Error" http.StatusInternalServerError
           | os.StatOk true _ _ =>
               listDirectoryWithBase env h fullPath urlPrefix (strings.Join subs)
           | os.StatOk false _ _ => attach env r h (Base fullPath) fullPath
           end.
Proof.
  intros Hes Hsubs Hroot. unfold serveDirWithBase. rewrite Hroot.
  assert (Hc : (if decide (Clean (strings.Join subs) = ".") then ""
                else Clean (strings.Join subs)) = strings.Join subs).
  { destruct subs as [|x subs]; [done|].
    rewrite Clean_relative_normal by done.
    inversion Hsubs as [|? ? Hx _]; subst.
    destruct (Join_normal_shape x subs Hx) as (_ & H2 & _).
    by rewrite decide_False. }
  rewrite Hc. destruct (strings.HasPrefix (strings.Join subs) ".."); [done|].
  assert (Hfull : (if decide (strings.Join subs = "") then absolute es
                   else Join [absolute es; strings.Join subs]) = absolute (es ++ subs)).
  { destruct subs as [|x subs]; [by rewrite app_nil_r|].
    inversion Hsubs as [|? ? Hx _]; subst.
    destruct (Join_normal_shape x subs Hx) as (_ & _ & H3).
    rewrite decide_False by done. rewrite Join_below by (done || by apply normal_plain).
    by rewrite kept_normal. }
  rewrite Hfull, HasPrefix_absolute_app. reflexivity.
Qed.

(** X24. The links of a directory listing lead to the entries listed. In
    multi mode, let the item [n] be a directory whose resolved root is
    [/e1/.../ek], and let a request for [/n/s1/.../sm], with or without a
    trailing separator, be answered by a listing. Then the listing was read
    from the directory [/e1/.../ek/s1/.../sm] and each of its files is an
    entry of that directory; and a request for the path of a file [f] of
    the listing is answered from [/e1/.../ek/s1/.../sm/name]: refused when
    that path resolves outside the root, not found when it does not exist,
    the download of that path under the name of the entry when it is a
    file, and the listing of that directory, with the same prefix [/n] and
    the sub-path [s1/.../sm/name], when it is a directory. The names of
    directory entries are ordinary path elements; at the top of the item
    the name must not begin with two dots, which [serveDirWithBase]
    refuses. *)
Theorem directory_links_resolve (env : Env) (s : Server) (r : http.Request.t)
    (n : string) (it : ShareItem.t) (es subs : list string) (slash : bool)
    (f : FileInfo.t) :
  (∀ p entries e, readDir env p = Some entries → e ∈ entries →
                  normal (os.DirEntry.Name e)) →
  isMulti s = true →
  normal n → itemMap s !! n = Some it →
  Forall normal es →
  default (ShareItem.Path it) (evalSymlinks env (ShareItem.Path it)) = absolute es →
  Forall normal subs →
  http.Request.URL_Path r = absolute (n :: subs ++ if slash then [""] else []) →
  f ∈ listing_files (handleRequest s env r) →
  (subs = [] → strings.HasPrefix (FileInfo.Name f) ".." = false) →
  (∃ entries e, readDir env (absolute (es ++ subs)) = Some entries
                ∧ e ∈ entries
                ∧ os.DirEntry.Name e = FileInfo.Name f
                ∧ os.DirEntry.IsDir e = FileInfo.IsDir f)
  ∧ handleRequest s env (withPath (FileInfo.Path f) r)
    = let fullPath := absolute (es ++ subs ++ [FileInfo.Name f]) in
      let r' := withPath (FileInfo.Path f) r in
      if match evalSymlinks env fullPath with
         | Some realFullPath => negb (strings.HasPrefix realFullPath (absolute es))
         | None => false
         end
      then Error_ baseHeader "Forbidden" http.StatusForbidden
      else match stat env fullPath with
           | os.StatNotExist => NotFound baseHeader
           | os.StatError =>
               Error_ baseHeader "Internal Server Error" http.StatusInternalServerError
           | os.StatOk true _ _ =>
               listDirectoryWithBase env baseHeader fullPath ("/" +:+ n)
                 (strings.Join (subs ++ [FileInfo.Name f]))
           | os.StatOk false _ _ => attach env r' baseHeader (FileInfo.Name f) fullPath
           end.
Proof.
  intros Hfs Hmulti Hn Hit Hes Hroot Hsubs Hurl Hf Hdots.
  assert (Hhandle : ∀ r0, handleRequest s env r0 = handleMultiShare s env r0 baseHeader).
  { intros r0. unfold handleRequest. by rewrite Hmulti. }
  rewrite Hhandle in Hf.
  rewrite (multi_request_sub s env r n it subs slash Hn Hsubs Hit Hurl) in Hf.
  destruct (decide (ShareItem.ShareType it = TypeFile)) as [Hfile|Hdir].
  { destruct (negb _); by apply elem_of_nil in Hf. }
  rewrite (serveDirWithBase_at env r baseHeader _ _ es subs Hes Hsubs Hroot) in Hf.
  destruct (strings.HasPrefix (strings.Join subs) "..") eqn:Hpre;
    [by apply elem_of_nil in Hf|].
  cbn zeta in Hf.
  destruct (match evalSymlinks env _ with Some _ => _ | None => _ end);
    [by apply elem_of_nil in Hf|].
  destruct (stat env (absolute (es ++ subs))) as [[|] ? ?| |];
    try (by apply elem_of_nil in Hf).
  destruct (readDir env (absolute (es ++ subs))) as [entries|] eqn:Hrd.
  2: { unfold listDirectoryWithBase in Hf. rewrite Hrd in Hf. by apply elem_of_nil in Hf. }
  rewrite (listDirectoryWithBase_files _ _ _ _ _ entries Hrd) in Hf.
  rewrite Slice_less_Permutation in Hf.
  unfold filesOf in Hf. apply list_elem_of_omap in Hf as (e & He & Hfe).
  destruct (os.DirEntry.Info e) as [[sz mt]|]; [|done].
  injection Hfe as <-. cbn [FileInfo.Name FileInfo.IsDir FileInfo.Path] in *.
  pose proof (Hfs _ _ _ Hrd He) as Hname.
  split; [by exists entries, e|].
  set (name := os.DirEntry.Name e) in *.
  assert (Hcur : (if decide (strings.Join subs = "") then "/" +:+ n
                  else ("/" +:+ n) +:+ "/" +:+ strings.Join subs)
                 = absolute (n :: subs)).
  { destruct subs as [|x subs]; [done|].
    inversion Hsubs as [|? ? Hx _]; subst.
    destruct (Join_normal_shape x subs Hx) as (_ & _ & H3).
    by rewrite decide_False. }
  rewrite Hcur.
  assert (Hsubs' : Forall normal (subs ++ [name])).
  { apply Forall_app. split; [done|]. constructor; [done|constructor]. }
  assert (Hpath : (if os.DirEntry.IsDir e
                   then (absolute (n :: subs) +:+ "/" +:+ name) +:+ "/"
                   else absolute (n :: subs) +:+ "/" +:+ name)
                  = absolute (n :: (subs ++ [name])
                                ++ if os.DirEntry.IsDir e then [""] else [])).
  { rewrite <- (absolute_snoc (n :: subs) name) by done.
    destruct (os.DirEntry.IsDir e).
    - change (n :: (subs ++ [name]) ++ [""]) with ((n :: subs ++ [name]) ++ [""]).
      by rewrite (absolute_snoc (n :: subs ++ [name]) "") by done.
    - by rewrite app_nil_r. }
  rewrite Hpath. rewrite Hhandle.
  set (r' := withPath _ r).
  rewrite (multi_request_sub s env r' n it (subs ++ [name]) (os.DirEntry.IsDir e)
             Hn Hsubs' Hit eq_refl).
  rewrite decide_False by done.
  rewrite (serveDirWithBase_at env _ baseHeader _ _ es (subs ++ [name]) Hes Hsubs' Hroot).
  assert (Hpre' : strings.HasPrefix (strings.Join (subs ++ [name])) ".." = false).
  { destruct subs as [|x subs]; [by apply Hdots|].
    inversion Hsubs as [|? ? Hx _]; subst.
    rewrite HasPrefix_dotdot_Join in Hpre by done.
    change ((x :: subs) ++ [name]) with (x :: (subs ++ [name])).
    by rewrite HasPrefix_dotdot_Join. }
  rewrite Hpre'. cbn zeta.
  assert (Hbase : Base (absolute (es ++ subs ++ [name])) = name).
  { rewrite Base_absolute by (by apply Forall_app).
    by rewrite (app_assoc es subs [name]), last_snoc. }
  by rewrite Hbase.
Qed.

(** the entries of the example tree have ordinary names *)
Lemma example_tree_names (p : string) (entries : list os.DirEntry.t) (e : os.DirEntry.t) :
  readDir example_tree_env p = Some entries → e ∈ entries → normal (os.DirEntry.Name e).
Proof.
  cbn. intros Hrd He.
  repeat case_decide; try done; injection Hrd as <-;
    repeat (apply elem_of_cons in He as [->|He]; [cbn; repeat split; done|]);
    by apply elem_of_nil in He.
Qed.

(** X24 on the entry logo.png in the listing of docs/img *)
Lemma directory_links_resolve_example :
  (∃ entries e, readDir example_tree_env "/srv/docs/img" = Some entries
                ∧ e ∈ entries
                ∧ os.DirEntry.Name e = "logo.png"
                ∧ os.DirEntry.IsDir e = false)
  ∧ handleRequest example_tree_server example_tree_env
      (example_request "/docs/img/logo.png")
    = attach example_tree_env (example_request "/docs/img/logo.png") baseHeader
        "logo.png" "/srv/docs/img/logo.png".
Proof.
  refine (directory_links_resolve example_tree_env example_tree_server
            (example_request "/docs/img") "docs"
            (ShareItem.mk "/srv/docs" "docs" TypeDir 0) ["srv"; "docs"] ["img"] false
            (FileInfo.mk "logo.png" 300 "2024-01-01T00:00:00Z" false "/docs/img/logo.png")
            example_tree_names _ _ _ _ _ _ _ _ _).
  - reflexivity.
  - cbn. repeat split; done.
  - vm_compute. reflexivity.
  - repeat constructor; cbn; done.
  - reflexivity.
  - repeat constructor; cbn; done.
  - reflexivity.
  - vm_compute. left.
  - done.
Defined.


Lemma fold_clean_plain_any (b : bool) (l : list string) :
  ∀ out, Forall plain l → fold_left (clean_elem b) l out = rev (kept l) ++ out.
Proof.
  induction l as [|e l IH]; intros out Hall; [done|].
  inversion Hall as [|? ? He Hl]; subst. cbn [fold_left].
  rewrite IH by done. unfold kept.
  destruct He as [->|[->|(Hne & Hdot & Hdd & Hfree)]].
  - unfold clean_elem. rewrite decide_True by done.
    by rewrite filter_cons_False by (intros [H _]; by apply H).
  - unfold clean_elem. rewrite decide_False by done. rewrite decide_True by done.
    by rewrite filter_cons_False by (intros [_ H]; by apply H).
  - unfold clean_elem. rewrite !decide_False by done.
    rewrite filter_cons_True by done. simpl. by rewrite <- app_assoc.
Qed.

(** cleaning a relative path that starts with an ordinary element *)
Lemma Clean_relative_plain (e : string) (l : list string) :
  normal e → Forall plain l →
  Clean (strings.Join (e :: l)) = strings.Join (e :: kept l).
Proof.
  intros He Hl. pose proof He as (Hne & Hdot & Hdd & Hfree).
  unfold Clean. rewrite decide_False by (by apply Join_nonempty).
  rewrite Join_not_rooted by done.
  unfold clean_elems.
  rewrite Split_Join; [|done|constructor; [done|by apply plain_slashfree]].
  rewrite fold_clean_plain_any by (constructor; [by right; right|done]).
  rewrite app_nil_r, rev_involutive. unfold kept.
  by rewrite filter_cons_True by done.
Qed.

(** [filepath.Dir] of a clean relative path *)
Lemma Dir_relative (init : list string) (x : string) :
  Forall normal init → normal x →
  Dir (strings.Join (init ++ [x]))
  = match init with [] => "." | _ => strings.Join init end.
Proof.
  intros Hinit Hx. unfold Dir.
  rewrite Split_Join.
  2: { by destruct init. }
  2: { apply plain_slashfree, normal_plain, Forall_app. split; [done|].
       constructor; [done|constructor]. }
  rewrite rev_app_distr. cbn [rev app].
  destruct init as [|e l]; [reflexivity|].
  destruct (rev (e :: l)) as [|y before] eqn:Hrev.
  { apply (f_equal (@rev string)) in Hrev. by rewrite rev_involutive in Hrev. }
  change (rev ("" :: y :: before)) with (rev (y :: before) ++ [""]).
  rewrite <- Hrev, rev_involutive.
  change ((e :: l) ++ [""]) with (e :: (l ++ [""])).
  inversion Hinit as [|? ? He Hl]; subst.
  rewrite Clean_relative_plain.
  - unfold kept. rewrite filter_app. fold (kept l). rewrite kept_normal by done.
    rewrite filter_cons_False by (intros [H _]; by apply H).
    by rewrite app_nil_r.
  - done.
  - apply Forall_app. split; [by apply normal_plain|].
    constructor; [by left|constructor].
Qed.

Lemma append_cancel_l (p a b : string) : p +:+ a = p +:+ b → a = b.
Proof.
  induction p as [|c p IH]; [done|].
  change (String c (p +:+ a) = String c (p +:+ b) → a = b).
  intros [= H]. by apply IH.
Qed.

(** X25. The parent link of a directory listing leads one level up. In
    multi mode, when a request for [/n/s1/.../sm] below the directory item
    [n] is answered by a listing, the parent of the listing is [/] for
    [m = 0] and [/n/s1/.../s(m-1)] otherwise ([/n] for [m = 1], never
    [/n/.]). A request for the parent is answered by the root listing in
    the first case and from the directory [/e1/.../ek/s1/.../s(m-1)] below
    the resolved root of the item in the second. *)
Theorem parent_link_resolves (env : Env) (s : Server) (r : http.Request.t)
    (n : string) (it : ShareItem.t) (es subs : list string) (slash : bool)
    (data : Listing) :
  isMulti s = true →
  normal n → itemMap s !! n = Some it →
  Forall normal es →
  default (ShareItem.Path it) (evalSymlinks env (ShareItem.Path it)) = absolute es →
  Forall normal subs →
  http.Request.URL_Path r = absolute (n :: subs ++ if slash then [""] else []) →
  body (handleRequest s env r) = BodyListing data →
  listing_Parent data
  = match subs with [] => "/" | _ => absolute (n :: removelast subs) end
  ∧ handleRequest s env (withPath (listing_Parent data) r)
    = match subs with
      | [] => listVirtualRoot s env baseHeader
      | _ =>
          let fullPath := absolute (es ++ removelast subs) in
          if match evalSymlinks env fullPath with
             | Some realFullPath => negb (strings.HasPrefix realFullPath (absolute es))
             | None => false
             end
          then Error_ baseHeader "Forbidden" http.StatusForbidden
          else match stat env fullPath with
               | os.StatNotExist => NotFound baseHeader
               | os.StatError =>
                   Error_ baseHeader "Internal Server Error"
                     http.StatusInternalServerError
               | os.StatOk true _ _ =>
                   listDirectoryWithBase env baseHeader fullPath ("/" +:+ n)
                     (strings.Join (removelast subs))
               | os.StatOk false _ _ =>
                   attach env (withPath (listing_Parent data) r) baseHeader
                     (Base fullPath) fullPath
               end
      end.
Proof.
  intros Hmulti Hn Hit Hes Hroot Hsubs Hurl Hbody.
  assert (Hhandle : ∀ r0, handleRequest s env r0 = handleMultiShare s env r0 baseHeader).
  { intros r0. unfold handleRequest. by rewrite Hmulti. }
  rewrite Hhandle in Hbody.
  rewrite (multi_request_sub s env r n it subs slash Hn Hsubs Hit Hurl) in Hbody.
  destruct (decide (ShareItem.ShareType it = TypeFile)) as [Hfile|Hdir].
  { by destruct (negb _). }
  rewrite (serveDirWithBase_at env r baseHeader _ _ es subs Hes Hsubs Hroot) in Hbody.
  destruct (strings.HasPrefix (strings.Join subs) "..") eqn:Hpre; [done|].
  cbn zeta in Hbody.
  destruct (match evalSymlinks env _ with Some _ => _ | None => _ end); [done|].
  destruct (stat env (absolute (es ++ subs))) as [[|] ? ?| |]; try done.
  unfold listDirectoryWithBase in Hbody.
  destruct (readDir env (absolute (es ++ subs))) as [entries|]; [|done].
  cbn in Hbody. injection Hbody as <-. cbn [listing_Parent].
  destruct subs as [|x1 subs1]; [split; [done|]; rewrite Hhandle; reflexivity|].
  cbv iota. remember (x1 :: subs1) as subs eqn:Hs.
  destruct (exists_last (l:=subs)) as (subs0 & x0 & ->); [by subst|]. clear Hs.
  apply Forall_app in Hsubs as [Hinit Hx]. inversion Hx as [|? ? Hx0 _]; subst.
  rewrite removelast_last.
  assert (Hne : strings.Join (subs0 ++ [x0]) ≠ "").
  { destruct subs0 as [|y l].
    - by apply (Join_normal_shape x0 []).
    - inversion Hinit; subst. by apply (Join_normal_shape y (l ++ [x0])). }
  rewrite decide_False by done.
  rewrite Dir_relative by done.
  assert (Hparent : (let parent := ("/" +:+ n) +:+ "/"
                                   +:+ match subs0 with [] => "." | _ => strings.Join subs0 end in
                     if decide (parent = ("/" +:+ n) +:+ "/.") then "/" +:+ n else parent)
                    = absolute (n :: subs0)).
  { cbn zeta. destruct subs0 as [|y l]; [by rewrite decide_True|].
    inversion Hinit as [|? ? Hy _]; subst.
    destruct (Join_normal_shape y l Hy) as (_ & Hdot & _).
    rewrite decide_False; [done|].
    intros Heq. apply Hdot.
    apply append_cancel_l in Heq. by apply (append_cancel_l "/" _ ".") in Heq. }
  cbn zeta in Hparent. rewrite Hparent.
  split; [done|]. rewrite Hhandle.
  set (r' := withPath _ r).
  rewrite (multi_request_sub s env r' n it subs0 false Hn Hinit Hit).
  2: { subst r'. cbn. by rewrite app_nil_r. }
  rewrite decide_False by done.
  rewrite (serveDirWithBase_at env r' baseHeader _ _ es subs0 Hes Hinit Hroot).
  assert (Hpre' : strings.HasPrefix (strings.Join subs0) ".." = false).
  { destruct subs0 as [|y l]; [done|].
    inversion Hinit as [|? ? Hy _]; subst.
    change ((y :: l) ++ [x0]) with (y :: (l ++ [x0])) in Hpre.
    rewrite HasPrefix_dotdot_Join in Hpre by done.
    by rewrite HasPrefix_dotdot_Join. }
  rewrite Hpre'. by destruct subs0.
Qed.

(** X25 on the listing of docs/img: its parent is the listing of docs *)
Lemma parent_link_resolves_example :
  "/docs" = absolute ["docs"]
  ∧ handleRequest example_tree_server example_tree_env (example_request "/docs")
    = listDirectoryWithBase example_tree_env baseHeader "/srv/docs" "/docs" "".
Proof.
  refine (parent_link_resolves example_tree_env example_tree_server
            (example_request "/docs/img/") "docs"
            (ShareItem.mk "/srv/docs" "docs" TypeDir 0) ["srv"; "docs"] ["img"] true
            (mkListing "/docs/img/"
               [FileInfo.mk "logo.png" 300 "2024-01-01T00:00:00Z" false "/docs/img/logo.png"]
               "/docs")
            _ _ _ _ _ _ _ _).
  - reflexivity.
  - cbn. repeat split; done.
  - vm_compute. reflexivity.
  - repeat constructor; cbn; done.
  - reflexivity.
  - repeat constructor; cbn; done.
  - reflexivity.
  - vm_compute. reflexivity.
Defined.

End directory_links.

Section single_directory_links.
Import filepath state server_types server.

(** the route of a clean request in single-directory mode *)
Lemma serveDir_at (s : Server) (env : Env) (r : http.Request.t)
    (h : gmap string string) (es subs : list string) (slash : bool) :
  Forall normal es → Forall normal subs →
  sharePath s = absolute es →
  http.Request.URL_Path r = absolute (subs ++ if slash then [""] else []) →
  serveDir s env r h
  = if strings.HasPrefix (strings.Join subs) ".."
    then Error_ h "Forbidden" http.StatusForbidden
    else
      let fullPath := absolute (es ++ subs) in
      if match evalSymlinks env fullPath with
         | Some realPath => negb (strings.HasPrefix realPath (absolute es))
         | None => false
         end
      then Error_ h "Forbidden" http.StatusForbidden
      else match stat env fullPath with
           | os.StatNotExist => NotFound h
           | os.StatError =>
               Error_ h "Internal Server Error" http.StatusInternalServerError
           | os.StatOk true _ _ => listDirectory env h fullPath (strings.Join subs)
           | os.StatOk false _ _ => attach env r h (Base fullPath) fullPath
           end.
Proof.
  intros Hes Hsubs Hshare Hurl. unfold serveDir. rewrite Hshare, Hurl.
  assert (Hclean : Clean (absolute (subs ++ if slash then [""] else []))
                   = absolute subs).
  { rewrite Clean_absolute_plain.
    - f_equal. unfold kept. rewrite filter_app. fold (kept subs).
      rewrite kept_normal by done. destruct slash; [|by rewrite app_nil_r].
      rewrite filter_cons_False by (intros [H _]; by apply H). by rewrite app_nil_r.
    - apply Forall_app. split; [by apply normal_plain|].
      destruct slash; [|constructor]. constructor; [by left|constructor]. }
  rewrite Hclean.
  change (strings.TrimPrefix (absolute subs) "/") with (strings.Join subs).
  destruct (strings.HasPrefix (strings.Join subs) ".."); [done|].
  assert (Hfull : Join [absolute es; strings.Join subs] = absolute (es ++ subs)).
  { destruct subs as [|x subs].
    - change (strings.Join []) with (strings.Join [""]).
      rewrite Join_below; [|done|done|constructor; [by left|constructor]].
      unfold kept. by rewrite filter_cons_False by (intros [H _]; by apply H).
    - rewrite Join_below by (done || by apply normal_plain).
      by rewrite kept_normal. }
  rewrite Hfull, HasPrefix_absolute_app. reflexivity.
Qed.

(** the path [listDirectory] gives an entry *)
Lemma Join_entry (subs : list string) (name : string) :
  Forall normal subs → normal name →
  Join [strings.Join subs; name] = strings.Join (subs ++ [name]).
Proof.
  intros Hsubs Hname. destruct subs as [|x subs].
  - cbn [Join]. rewrite decide_True by done.
    rewrite decide_False by apply Hname.
    apply (Clean_relative_normal [name]); [done|]. constructor; [done|constructor].
  - inversion Hsubs as [|? ? Hx _]; subst.
    destruct (Join_normal_shape x subs Hx) as (_ & _ & H3).
    cbn [Join]. rewrite decide_False by done.
    replace (strings.Join [strings.Join (x :: subs); name])
      with (strings.Join ((x :: subs) ++ [name])).
    2: { by rewrite Join_app by done. }
    apply Clean_relative_normal; [done|].
    apply Forall_app. split; [done|]. constructor; [done|constructor].
Qed.

(** X26. Browsing a single shared directory. When the share is one
    directory with the path [/e1/.../ek] and a request for [/s1/.../sm] is
    answered by a listing, the listing was read from
    [/e1/.../ek/s1/.../sm]; the path of each of its files is relative,
    [s1/.../sm/name] without a leading separator (and with a trailing one
    for a directory); and a request for that path below the site root is
    answered from [/e1/.../ek/s1/.../sm/name]: refused when it resolves
    outside the shared path, not found when it does not exist, the
    download under the name of the entry, or the listing of that
    directory. The names of directory entries are ordinary path elements;
    at the top of the share the name must not begin with two dots. *)
Theorem single_directory_links_resolve (env : Env) (s : Server) (r : http.Request.t)
    (es subs : list string) (slash : bool) (f : FileInfo.t) :
  (∀ p entries e, readDir env p = Some entries → e ∈ entries →
                  normal (os.DirEntry.Name e)) →
  isMulti s = false → shareType s ≠ TypeFile →
  Forall normal es → sharePath s = absolute es →
  Forall normal subs →
  http.Request.URL_Path r = absolute (subs ++ if slash then [""] else []) →
  f ∈ listing_files (handleRequest s env r) →
  (subs = [] → strings.HasPrefix (FileInfo.Name f) ".." = false) →
  (∃ entries e, readDir env (absolute (es ++ subs)) = Some entries
                ∧ e ∈ entries
                ∧ os.DirEntry.Name e = FileInfo.Name f
                ∧ os.DirEntry.IsDir e = FileInfo.IsDir f)
  ∧ FileInfo.Path f
    = strings.Join (subs ++ [FileInfo.Name f] ++ if FileInfo.IsDir f then [""] else [])
  ∧ handleRequest s env (withPath ("/" +:+ FileInfo.Path f) r)
    = let fullPath := absolute (es ++ subs ++ [FileInfo.Name f]) in
      let r' := withPath ("/" +:+ FileInfo.Path f) r in
      if match evalSymlinks env fullPath with
         | Some realPath => negb (strings.HasPrefix realPath (absolute es))
         | None => false
         end
      then Error_ baseHeader "Forbidden" http.StatusForbidden
      else match stat env fullPath with
           | os.StatNotExist => NotFound baseHeader
           | os.StatError =>
               Error_ baseHeader "Internal Server Error" http.StatusInternalServerError
           | os.StatOk true _ _ =>
               listDirectory env baseHeader fullPath
                 (strings.Join (subs ++ [FileInfo.Name f]))
           | os.StatOk false _ _ => attach env r' baseHeader (FileInfo.Name f) fullPath
           end.
Proof.
  intros Hfs Hmulti Htype Hes Hshare Hsubs Hurl Hf Hdots.
  assert (Hhandle : ∀ r0, handleRequest s env r0 = serveDir s env r0 baseHeader).
  { intros r0. unfold handleRequest. rewrite Hmulti. cbn [negb].
    by rewrite decide_False. }
  rewrite Hhandle in Hf.
  rewrite (serveDir_at s env r baseHeader es subs slash Hes Hsubs Hshare Hurl) in Hf.
  destruct (strings.HasPrefix (strings.Join subs) "..") eqn:Hpre;
    [by apply elem_of_nil in Hf|].
  cbn zeta in Hf.
  destruct (match evalSymlinks env _ with Some _ => _ | None => _ end);
    [by apply elem_of_nil in Hf|].
  destruct (stat env (absolute (es ++ subs))) as [[|] ? ?| |];
    try (by apply elem_of_nil in Hf).
  destruct (readDir env (absolute (es ++ subs))) as [entries|] eqn:Hrd.
  2: { unfold listDirectory in Hf. rewrite Hrd in Hf. by apply elem_of_nil in Hf. }
  rewrite (listDirectory_files _ _ _ _ entries Hrd) in Hf.
  rewrite Slice_less_Permutation in Hf.
  unfold filesOf in Hf. apply list_elem_of_omap in Hf as (e & He & Hfe).
  destruct (os.DirEntry.Info e) as [[sz mt]|]; [|done].
  injection Hfe as <-. cbn [FileInfo.Name FileInfo.IsDir FileInfo.Path] in *.
  pose proof (Hfs _ _ _ Hrd He) as Hname.
  split; [by exists entries, e|].
  set (name := os.DirEntry.Name e) in *.
  assert (Hsubs' : Forall normal (subs ++ [name])).
  { apply Forall_app. split; [done|]. constructor; [done|constructor]. }
  pose proof (Join_entry subs name Hsubs Hname) as Hentry.
  cbn [Join] in Hentry. rewrite Hentry. clear Hentry.
  assert (Hpath : (if os.DirEntry.IsDir e then strings.Join (subs ++ [name]) +:+ "/"
                   else strings.Join (subs ++ [name]))
                  = strings.Join (subs ++ [name]
                                    ++ if os.DirEntry.IsDir e then [""] else [])).
  { destruct (os.DirEntry.IsDir e); [|by rewrite app_nil_r].
    rewrite (app_assoc subs [name] [""]).
    rewrite (Join_app (subs ++ [name]) [""]) by (done || by destruct subs).
    reflexivity. }
  rewrite Hpath. split; [done|].
  rewrite Hhandle.
  set (r' := withPath _ r).
  rewrite (serveDir_at s env r' baseHeader es (subs ++ [name]) (os.DirEntry.IsDir e)
             Hes Hsubs' Hshare).
  2: { subst r'. cbn [withPath http.Request.URL_Path]. unfold absolute.
       by rewrite <- app_assoc. }
  assert (Hpre' : strings.HasPrefix (strings.Join (subs ++ [name])) ".." = false).
  { destruct subs as [|x subs]; [by apply Hdots|].
    inversion Hsubs as [|? ? Hx _]; subst.
    rewrite HasPrefix_dotdot_Join in Hpre by done.
    change ((x :: subs) ++ [name]) with (x :: (subs ++ [name])).
    by rewrite HasPrefix_dotdot_Join. }
  rewrite Hpre'. cbn zeta.
  assert (Hbase : Base (absolute (es ++ subs ++ [name])) = name).
  { rewrite Base_absolute by (by apply Forall_app).
    by rewrite (app_assoc es subs [name]), last_snoc. }
  by rewrite Hbase.
Qed.

(** X26 on the entry logo.png in the listing of img *)
Lemma single_directory_links_resolve_example :
  (∃ entries e, readDir example_tree_env "/srv/docs/img" = Some entries
                ∧ e ∈ entries
                ∧ os.DirEntry.Name e = "logo.png"
                ∧ os.DirEntry.IsDir e = false)
  ∧ "img/logo.png" = strings.Join ["img"; "logo.png"]
  ∧ handleRequest example_docs_server example_tree_env
      (example_request "/img/logo.png")
    = attach example_tree_env (example_request "/img/logo.png") baseHeader
        "logo.png" "/srv/docs/img/logo.png".
Proof.
  refine (single_directory_links_resolve example_tree_env example_docs_server
            (example_request "/img/") ["srv"; "docs"] ["img"] true
            (FileInfo.mk "logo.png" 300 "2024-01-01T00:00:00Z" false "img/logo.png")
            example_tree_names _ _ _ _ _ _ _ _).
  - reflexivity.
  - done.
  - repeat constructor; cbn; done.
  - reflexivity.
  - repeat constructor; cbn; done.
  - reflexivity.
  - vm_compute. left.
  - done.
Defined.

End single_directory_links.

(** ** The configuration directory *)

Section configuration.
Import filepath.

Lemma Split_append_any (s t : string) :
  strings.Split (s +:+ "/" +:+ t) = strings.Split s ++ strings.Split t.
Proof.
  induction s as [|c s IH]; [done|].
  change (String c s +:+ "/" +:+ t) with (String c (s +:+ "/" +:+ t)).
  cbn [strings.Split]. rewrite IH.
  destruct (bool_decide (c = "/"%char)); [done|].
  by destruct (Split_nonempty s) as (seg & rest & ->).
Qed.

Lemma rev_replicate {A} (k : nat) (x : A) : rev (replicate k x) = replicate k x.
Proof. rewrite rev_alt. apply reverse_replicate. Qed.

Lemma fold_clean_dotdots (k : nat) :
  ∀ j, fold_left (clean_elem false) (replicate k "..") (replicate j "..")
       = replicate (k + j) "..".
Proof.
  induction k as [|k IH]; intros j; [done|]. cbn [replicate fold_left].
  assert (Hstep : clean_elem false (replicate j "..") ".." = replicate (S j) "..").
  { unfold clean_elem. rewrite !decide_False by done. rewrite decide_True by done.
    destruct j as [|j]; [done|]. cbn [replicate]. by rewrite decide_True. }
  rewrite Hstep, IH. f_equal. lia.
Qed.

Lemma Join_child (b : bool) (k : nat) (ns : list string) (name : string) :
  Forall normal ns → replicate k ".." ++ ns ≠ [] → (b = true → k = 0%nat) →
  normal name →
  Join [cleaned b k ns; name] = cleaned b k ns +:+ "/" +:+ name.
Proof.
  intros Hns Hne Hk Hname. unfold cleaned. destruct b.
  - rewrite (Hk eq_refl) in *. cbn [replicate app] in *.
    change ("/" +:+ strings.Join ns) with (absolute ns).
    change (Join [absolute ns; name]) with (Join [absolute ns; strings.Join [name]]).
    rewrite Join_below; [|done|done|constructor; [by right; right|constructor]].
    rewrite kept_normal by (constructor; [done|constructor]).
    by apply absolute_snoc.
  - change ("" +:+ ?x) with x.
    set (l := replicate k ".." ++ ns) in *.
    assert (Hfirst : ∃ e l', l = e :: l' ∧ e ≠ "" ∧ slashfree e).
    { subst l. destruct k as [|k].
      - destruct ns as [|e ns']; [done|]. inversion Hns as [|? ? (H1 & _ & _ & H4) _]; subst.
        by exists e, ns'.
      - exists "..", (replicate k ".." ++ ns). split; [done|]. split; [done|].
        cbn. repeat split; done. }
    destruct Hfirst as (e & l' & Hl & He & Hfree).
    assert (Hslash : Forall slashfree (l ++ [name])).
    { subst l. rewrite <- app_assoc. apply Forall_app. split.
      - apply Forall_replicate. cbn. repeat split; done.
      - apply normal_slashfree, Forall_app. split; [done|]. constructor; [done|constructor]. }
    cbn [Join]. rewrite decide_False by (rewrite Hl; by apply Join_nonempty).
    replace (strings.Join [strings.Join l; name]) with (strings.Join (l ++ [name])).
    2: { rewrite Join_app by done. reflexivity. }
    unfold Clean.
    assert (Hfirst' : l ++ [name] = e :: (l' ++ [name])) by (by rewrite Hl).
    rewrite decide_False by (rewrite Hfirst'; by apply Join_nonempty).
    assert (Hr : rooted (strings.Join (l ++ [name])) = false).
    { rewrite Hfirst'. by apply Join_not_rooted. }
    rewrite Hr. unfold clean_elems.
    rewrite Split_Join by (done || by destruct l).
    subst l. rewrite <- app_assoc, fold_left_app.
    pose proof (fold_clean_dotdots k 0) as Hdots.
    change (replicate 0 "..") with (@nil string) in Hdots.
    rewrite Hdots, Nat.add_0_r.
    rewrite fold_clean_normal by (apply Forall_app; split; [done|]; by constructor).
    rewrite rev_app_distr, rev_involutive, rev_replicate.
    rewrite (app_assoc (replicate k "..") ns [name]).
    destruct ((replicate k ".." ++ ns) ++ [name]) as [|x xs] eqn:Hx.
    { by destruct (replicate k ".." ++ ns). }
    rewrite <- Hx. by rewrite Join_app by done.
Qed.

Lemma GetConfigDir_cleaned (home : option string) :
  ∃ b k ns, Forall normal ns ∧ ns ≠ [] ∧ (b = true → k = 0%nat)
            ∧ config.GetConfigDir home = cleaned b k ns.
Proof.
  destruct home as [home|].
  2: { exists false, 0%nat, [".cfshare"]. repeat split; try done.
       constructor; [by cbn; repeat split|constructor]. }
  unfold config.GetConfigDir.
  destruct (decide (home = "")) as [->|Hne].
  { exists false, 0%nat, [".cfshare"]. repeat split; try done.
    constructor; [by cbn; repeat split|constructor]. }
  cbn [Join]. rewrite decide_False by done.
  change (strings.Join [home; ".cfshare"]) with (home +:+ "/" +:+ ".cfshare").
  unfold Clean. rewrite decide_False by (by destruct home).
  assert (Hr : rooted (home +:+ "/" +:+ ".cfshare") = rooted home) by (by destruct home).
  rewrite Hr. unfold clean_elems. rewrite Split_append_any, fold_left_app.
  destruct (fold_clean_ok (rooted home) (strings.Split home) [] (Split_slashfree home))
    as (k & normals & Heq & Hn & Hk).
  { by exists 0%nat, []. }
  rewrite Heq.
  rewrite (Split_slashfree_id ".cfshare") by (cbn; repeat split; done).
  assert (Hpush : clean_elem (rooted home) (normals ++ replicate k "..") ".cfshare"
                  = ".cfshare" :: normals ++ replicate k "..").
  { unfold clean_elem. by rewrite !decide_False by done. }
  cbn [fold_left]. rewrite Hpush. cbn [rev]. rewrite rev_app_distr, rev_replicate.
  exists (rooted home), k, (rev normals ++ [".cfshare"]).
  split.
  { apply Forall_app. split; [by apply Forall_rev|].
    constructor; [by cbn; repeat split|constructor]. }
  split; [by destruct (rev normals)|]. split; [done|].
  unfold cleaned. rewrite <- app_assoc.
  destruct (rooted home); [done|].
  destruct (replicate k ".." ++ rev normals ++ [".cfshare"]) as [|x xs] eqn:Hx; [|done].
  apply (f_equal length) in Hx. rewrite !length_app in Hx. cbn in Hx. lia.
Qed.


(** X27. Every file that cfshare keeps lies directly in the configuration
    directory, whatever [os.UserHomeDir] returns (also an empty, relative
    or unclean home, and a failure): each path function of [config]
    returns the directory, a separator and the file name. So the stats
    path that [UpdateAccessStats] and [LoadStats] build by concatenation is
    [GetStatsPath], and the state file, the access log, the two pid files,
    the stats file and the two process logs are seven different paths. *)
Theorem config_paths_in_config_dir (home : option string) :
  let dir := config.GetConfigDir home in
  config.GetStatePath home = dir +:+ "/state.json"
  ∧ config.GetAccessLogPath home = dir +:+ "/access.log"
  ∧ config.GetPidFilePath home = dir +:+ "/server.pid"
  ∧ config.GetTunnelPidFilePath home = dir +:+ "/tunnel.pid"
  ∧ config.GetStatsPath home = dir +:+ "/stats.json"
  ∧ NoDup [config.GetStatePath home; config.GetAccessLogPath home;
           config.GetPidFilePath home; config.GetTunnelPidFilePath home;
           config.GetStatsPath home; dir +:+ "/tunnel.log"; dir +:+ "/server.log"].
Proof.
  cbn zeta.
  destruct (GetConfigDir_cleaned home) as (b & k & ns & Hns & Hne & Hk & Hdir).
  assert (Hchild : ∀ name, normal name →
            Join [config.GetConfigDir home; name]
            = config.GetConfigDir home +:+ "/" +:+ name).
  { intros name Hname. rewrite Hdir. apply Join_child; try done.
    by destruct (replicate k ".."), ns. }
  unfold config.GetStatePath, config.GetAccessLogPath, config.GetPidFilePath,
    config.GetTunnelPidFilePath, config.GetStatsPath.
  rewrite !Hchild by (cbn; repeat split; done).
  do 5 (split; [reflexivity|]).
  assert (Hinj : ∀ a c, config.GetConfigDir home +:+ a = config.GetConfigDir home +:+ c
                        → a = c).
  { intros a c. apply append_cancel_l. }
  repeat (constructor;
          [rewrite !elem_of_cons, elem_of_nil;
           intros H; repeat (destruct H as [H|H]; [by apply Hinj in H|]); done|]).
  apply NoDup_singleton.
Qed.

End configuration.

(** ** [cmdStop] *)

Section stopping.
Import state sys main.

Lemma stopProcess_signals (o : Oracle) (pid : Z) (force : bool) (s : System) :
  ∃ s' evs,
    stopProcess o pid force s = Return tt s'
    ∧ disk s' = disk s ∧ server_pid s' = server_pid s ∧ tunnel_pid s' = tunnel_pid s
    ∧ events s' = events s ++ EvSignal pid (if force then SIGKILL else SIGTERM) :: evs
    ∧ Forall (signalTo pid) evs.
Proof.
  unfold stopProcess. destruct force.
  - eexists _, []. repeat split. constructor.
  - unfold bind, effect, signal, emit, advance. cbn.
    destruct (wait_ms o pid) as [ms|]; [case_bool_decide|].
    + eexists _, []. repeat split. constructor.
    + eexists _, [_]. cbn. rewrite <- app_assoc. repeat split.
      constructor; [by eexists|constructor].
    + eexists _, [_]. cbn. rewrite <- app_assoc. repeat split.
      constructor; [by eexists|constructor].
Qed.

Lemma tunnel_stop_signals (o : Oracle) (force : bool) (s : System) :
  ∃ evs,
    disk ((if force then tunnel.ForceStop o else tunnel.Stop o) s) = disk s
    ∧ server_pid ((if force then tunnel.ForceStop o else tunnel.Stop o) s) = server_pid s
    ∧ events ((if force then tunnel.ForceStop o else tunnel.Stop o) s) = events s ++ evs
    ∧ Forall (λ e, ∃ tp, tunnel_pid s = Pid tp ∧ tp > 0 ∧ signalTo tp e) evs.
Proof.
  destruct force; unfold tunnel.ForceStop, tunnel.Stop, tunnel.GetRunningPID,
    tunnel.isProcessRunning.
  - destruct (tunnel_pid s) as [| |pid].
    + rewrite bool_decide_eq_true_2 by lia. exists []. cbn. rewrite app_nil_r.
      repeat split. constructor.
    + rewrite bool_decide_eq_true_2 by lia. exists []. cbn. rewrite app_nil_r.
      repeat split. constructor.
    + destruct (probe o pid (clock s)); cbn [negb].
      * case_bool_decide.
        -- exists []. cbn. rewrite app_nil_r. repeat split. constructor.
        -- exists [EvSignal pid SIGKILL]. cbn. repeat split.
           constructor; [|constructor]. exists pid. repeat split; [lia|by eexists].
      * rewrite bool_decide_eq_true_2 by lia. exists []. cbn. rewrite app_nil_r.
        repeat split. constructor.
  - destruct (tunnel_pid s) as [| |pid].
    + rewrite bool_decide_eq_true_2 by lia. exists []. rewrite app_nil_r.
      repeat split. constructor.
    + rewrite bool_decide_eq_true_2 by lia. exists []. rewrite app_nil_r.
      repeat split. constructor.
    + destruct (probe o pid (clock s)); cbn [negb].
      * case_bool_decide.
        -- exists []. rewrite app_nil_r. repeat split. constructor.
        -- assert (Hto : ∀ sig, ∃ tp, Pid pid = Pid tp ∧ tp > 0
                                        ∧ signalTo tp (EvSignal pid sig)).
           { intros sig. exists pid. repeat split; [lia|by eexists]. }
           destruct (wait_ms o pid) as [ms|]; [case_bool_decide|].
           ++ exists [EvSignal pid SIGTERM]. cbn. repeat split.
              constructor; [apply Hto|constructor].
           ++ exists [EvSignal pid SIGTERM; EvSignal pid SIGKILL]. cbn.
              rewrite <- app_assoc. repeat split.
              constructor; [apply Hto|]. constructor; [apply Hto|constructor].
           ++ exists [EvSignal pid SIGTERM; EvSignal pid SIGKILL]. cbn.
              rewrite <- app_assoc. repeat split.
              constructor; [apply Hto|]. constructor; [apply Hto|constructor].
      * rewrite bool_decide_eq_true_2 by lia. exists []. cbn. rewrite app_nil_r.
        repeat split. constructor.
Qed.


(** the first step of [cmdStop]: the server of the state file *)
Lemma cmdStop_server (o : Oracle) (force : bool) (s : System) (st : State.t) :
  ∃ s1 evs1,
    (if bool_decide (State.ServerPID st > 0)
     then stopProcess o (State.ServerPID st) force else ret tt) s = Return tt s1
    ∧ disk s1 = disk s ∧ server_pid s1 = server_pid s ∧ tunnel_pid s1 = tunnel_pid s
    ∧ events s1 = events s ++ evs1
    ∧ Forall (λ e, State.ServerPID st > 0 ∧ signalTo (State.ServerPID st) e) evs1
    ∧ (State.ServerPID st > 0 →
       head evs1 = Some (EvSignal (State.ServerPID st)
                           (if force then SIGKILL else SIGTERM))).
Proof.
  case_bool_decide as Hpid.
  - destruct (stopProcess_signals o (State.ServerPID st) force s)
      as (s1 & evs & Hs1 & Hd & Hsp & Htp & Hev & Hall).
    exists s1, (EvSignal (State.ServerPID st) (if force then SIGKILL else SIGTERM) :: evs).
    repeat split; try done.
    constructor; [split; [done|by eexists]|].
    eapply Forall_impl; [exact Hall|]. by intros e He.
  - exists s, []. rewrite app_nil_r. repeat split; try done; try constructor.
Qed.

(** [cmdStop] returns, and what it leaves of the disk *)
Lemma cmdStop_disk (o : Oracle) (x : ShareOracle) (force : bool)
    (s : System) (st : State.t) :
  Load (disk s) = LoadOk st →
  ∃ s', cmdStop o x force s = Return tt s'
        ∧ disk s' = (if remove_state_ok x then Clear (disk s) else disk s).
Proof.
  intros Hload. unfold cmdStop. unfold bind at 1. unfold load. rewrite Hload.
  destruct (cmdStop_server o force s st) as (s1 & evs1 & Hs1 & Hd1 & _).
  unfold bind at 1. rewrite Hs1.
  destruct (tunnel_stop_signals o force s1) as (evs2 & Hd2 & _).
  eexists. split; [reflexivity|].
  destruct (remove_state_ok x), (remove_pid_ok x); cbn; congruence.
Qed.



(** X14. After [cmdStop] there is no share. When the state file could be
    read (or was absent) and its removal succeeds, [cmdStop] returns and
    [Load] finds no state; a second [cmdStop], forced or not, then returns
    at once and changes nothing, and [cmdAdd] and [cmdRemove] refuse with
    "no active share" and change nothing. *)
Theorem cmdStop_clears (o : Oracle) (x : ShareOracle) (force : bool) (s : System) :
  remove_state_ok x = true →
  (∀ e, Load (disk s) ≠ LoadErr e) →
  ∃ s', cmdStop o x force s = Return tt s'
        ∧ Load (disk s') = LoadNil
        ∧ (∀ force', cmdStop o x force' s' = Return tt s')
        ∧ (∀ paths, cmdAdd o paths s' = Exit ErrNoActiveShare s')
        ∧ (∀ names, cmdRemove o names s' = Exit ErrNoActiveShare s').
Proof.
  intros Hrm Hok.
  assert (Hnil : ∀ s', Load (disk s') = LoadNil →
            (∀ force', cmdStop o x force' s' = Return tt s')
            ∧ (∀ paths, cmdAdd o paths s' = Exit ErrNoActiveShare s')
            ∧ (∀ names, cmdRemove o names s' = Exit ErrNoActiveShare s')).
  { intros s' Hs'. repeat split; intros; unfold cmdStop, cmdAdd, cmdRemove, bind, load;
      by rewrite Hs'. }
  destruct (Load (disk s)) as [|e|st] eqn:Hload.
  - exists s. split; [unfold cmdStop, bind, load; by rewrite Hload|].
    split; [done|]. by apply Hnil.
  - by destruct (Hok e).
  - destruct (cmdStop_disk o x force s st Hload) as (s' & Hs' & Hfile).
    exists s'. split; [done|]. rewrite Hrm in Hfile.
    assert (Hl : Load (disk s') = LoadNil) by (by rewrite Hfile).
    split; [done|]. by apply Hnil.
Qed.

(** X14 on the running share of the examples *)
Lemma cmdStop_clears_example :
  ∃ s', cmdStop example_oracle example_share_oracle false example_system = Return tt s'
        ∧ Load (disk s') = LoadNil
        ∧ (∀ force', cmdStop example_oracle example_share_oracle force' s' = Return tt s')
        ∧ (∀ paths, cmdAdd example_oracle paths s' = Exit ErrNoActiveShare s')
        ∧ (∀ names, cmdRemove example_oracle names s' = Exit ErrNoActiveShare s').
Proof.
  refine (cmdStop_clears example_oracle example_share_oracle false example_system _ _).
  - reflexivity.
  - intros e He. vm_compute in He. discriminate He.
Defined.

End stopping.

(** ** [cmdShare] *)

Section sharing.
Import state sys main.

Lemma checkPaths_None (o : Oracle) (paths : list string) :
  checkPaths o paths = None ↔ Forall (found o) paths.
Proof.
  induction paths as [|p paths IH]; simpl; [split; [constructor|done]|].
  unfold found at 1. split.
  - destruct (stat o p) eqn:Hp; try done. intros H. constructor; [by rewrite Hp|]. by apply IH.
  - intros H. inversion H as [|? ? Hp Hrest]; subst. unfold found in Hp.
    destruct (stat o p); try done. by apply IH.
Qed.

Lemma checkPaths_Some (o : Oracle) (paths : list string) (path : string) :
  checkPaths o paths = Some path → path ∈ paths ∧ ¬ found o path.
Proof.
  induction paths as [|p paths IH]; simpl; [done|].
  destruct (stat o p) eqn:Hp.
  - intros H. destruct (IH H) as [Hin Hnot]. split; [by right|done].
  - intros [= <-]. split; [by left|]. unfold found. rewrite Hp. tauto.
  - intros [= <-]. split; [by left|]. unfold found. rewrite Hp. tauto.
Qed.

Lemma checkNames_None (o : Oracle) (paths : list string) :
  ∀ names, checkNames o paths names = None
           ↔ NoDup (map (displayName o) paths)
             ∧ ∀ p, p ∈ paths → names !! displayName o p = None.
Proof.
  induction paths as [|p paths IH]; intros names; simpl.
  - split; [|done]. intros _. split; [constructor|]. intros p Hp. by apply elem_of_nil in Hp.
  - fold (displayName o p).
    destruct (names !! displayName o p) as [existing|] eqn:Hp.
    + split; [done|]. intros [_ H]. specialize (H p). rewrite Hp in H.
      discriminate H. by left.
    + rewrite IH. split.
      * intros [Hnd Hnone]. split.
        -- constructor; [|done]. intros Hin.
           apply list_elem_of_fmap in Hin as (p' & Heq & Hp').
           specialize (Hnone p' Hp'). rewrite <- Heq in Hnone.
           by rewrite lookup_insert_eq in Hnone.
        -- intros p' [->|Hp']%elem_of_cons; [done|].
           specialize (Hnone p' Hp').
           destruct (decide (displayName o p = displayName o p')) as [Heq|Hne].
           ++ rewrite <- Heq in Hnone. by rewrite lookup_insert_eq in Hnone.
           ++ by rewrite lookup_insert_ne in Hnone.
      * intros [Hnd Hnone]. inversion Hnd as [|? ? Hnotin Hnd']; subst.
        split; [done|]. intros p' Hp'.
        rewrite lookup_insert_ne.
        -- apply Hnone. by right.
        -- intros Heq. apply Hnotin. rewrite Heq. by apply list_elem_of_fmap_2.
Qed.

Lemma checkNames_Some (o : Oracle) (paths : list string) :
  ∀ names name existing absPath,
    checkNames o paths names = Some (name, existing, absPath) →
    ∃ p, p ∈ paths ∧ name = displayName o p.
Proof.
  induction paths as [|p paths IH]; intros names name existing absPath; simpl; [done|].
  fold (displayName o p).
  destruct (names !! displayName o p) as [e|].
  - intros [= <- <- <-]. exists p. split; [by left|done].
  - intros H. destruct (IH _ _ _ _ H) as (p' & Hp' & ->). exists p'. split; [by right|done].
Qed.

(** X15. [cmdShare] refuses before it touches anything. When one of the
    paths is not found, or two of them would be shared under one name (the
    base name of the absolute path), the command exits and the system is
    exactly as before: the share that runs is not stopped, no process is
    started, no file is written. The reason is the first missing path; or,
    when all paths exist, a name conflict on the name of one of the
    paths. *)
Theorem cmdShare_refuses (o : Oracle) (x : ShareOracle) (paths : list string)
    (public : bool) (password : string) (port : Z) (tunnelName publicURL : string)
    (s : System) :
  ¬ Forall (found o) paths ∨ ¬ NoDup (map (displayName o) paths) →
  ∃ why,
    cmdShare o x paths public password port tunnelName publicURL s
    = ShareExited why s
    ∧ ((∃ path, why = ShareErrPathMissing path ∧ path ∈ paths ∧ ¬ found o path)
       ∨ (Forall (found o) paths
          ∧ ∃ name existing absPath,
              why = ShareErrNameConflict name existing absPath
              ∧ ∃ p, p ∈ paths ∧ name = displayName o p)).
Proof.
  intros Hbad. unfold cmdShare.
  destruct (checkPaths o paths) as [path|] eqn:Hpaths.
  - eexists. split; [reflexivity|]. left. exists path. split; [done|].
    by apply checkPaths_Some.
  - apply checkPaths_None in Hpaths.
    destruct Hbad as [Hbad|Hbad]; [done|].
    destruct (checkNames o paths ∅) as [[[name existing] absPath]|] eqn:Hnames.
    + eexists. split; [reflexivity|]. right. split; [done|].
      exists name, existing, absPath. split; [done|]. by eapply checkNames_Some.
    + apply checkNames_None in Hnames as [Hnd _]. done.
Qed.


(** the steps behind a [cmdShare] that returned *)
Lemma cmdShare_Shared (o : Oracle) (x : ShareOracle) (paths : list string)
    (public : bool) (password : string) (port : Z) (tunnelName publicURL : string)
    (s s' : System) (st : State.t) :
  cmdShare o x paths public password port tunnelName publicURL s = Shared st s' →
  Forall (found o) paths
  ∧ NoDup (map (displayName o) paths)
  ∧ ∃ s1 pw url serverPID s2 tunnelPID s3 items,
      stopExisting o x s = Return tt s1
      ∧ (if negb public && bool_decide (password = "")
         then auth.GeneratePassword (rand_Read x) config.PasswordLength
         else Some password) = Some pw
      ∧ (if bool_decide (publicURL = "") then getPublicURL x tunnelName
         else Some publicURL) = Some url
      ∧ startServerProcess o paths port
          (if public then "" else config.DefaultUsername) pw s1
        = Return (serverPID, None) s2
      ∧ tunnel.Start o tunnelName s2 = (tunnelPID, None, s3)
      ∧ shareItems o paths = Some items
      ∧ st = (Save (shareState (unixText x (clock s1)) (timeText x (clock s1))
                      public (if public then "" else config.DefaultUsername) pw
                      port url serverPID tunnelPID items) (disk s3)).1.2
      ∧ s' = set_disk
               (Save (shareState (unixText x (clock s1)) (timeText x (clock s1))
                        public (if public then "" else config.DefaultUsername) pw
                        port url serverPID tunnelPID items) (disk s3)).2 s3.
Proof.
  unfold cmdShare.
  destruct (checkPaths o paths) as [path|] eqn:Hpaths; [done|].
  destruct (checkNames o paths ∅) as [[[name existing] absPath]|] eqn:Hnames; [done|].
  destruct (stopExisting o x s) as [[] s1|why s1] eqn:Hstop; [|done].
  destruct (if negb public && bool_decide (password = "") then _ else _)
    as [pw|] eqn:Hpw; [|done].
  destruct (if bool_decide (publicURL = "") then _ else _) as [url|] eqn:Hurl; [|done].
  destruct (startServerProcess o paths port _ pw s1)
    as [[serverPID [e|]] s2|why s2] eqn:Hserver; [done| |done].
  destruct (tunnel.Start o tunnelName s2) as [[tunnelPID [e|]] s3] eqn:Htunnel; [done|].
  destruct (shareItems o paths) as [items|] eqn:Hitems; [|done].
  destruct (Save _ (disk s3)) as [[err st1] d] eqn:Hsave.
  intros [= <- <-].
  split; [by apply checkPaths_None|].
  split; [by apply checkNames_None in Hnames as [? _]|].
  exists s1, pw, url, serverPID, s2, tunnelPID, s3, items.
  rewrite Hsave. by repeat split.
Qed.


Lemma shareItems_names (o : Oracle) (paths : list string) :
  ∀ items, shareItems o paths = Some items →
           map ShareItem.Name items = map (displayName o) paths.
Proof.
  induction paths as [|p paths IH]; intros items; simpl.
  - by intros [= <-].
  - destruct (stat o _) as [isDir size mt| |]; try done.
    destruct (shareItems o paths) as [rest|]; [|done]. simpl.
    intros [= <-]. simpl. rewrite (IH rest eq_refl). unfold displayName.
    by destruct isDir.
Qed.

Lemma shareItems_statItems (o : Oracle) (env : server_types.Env)
    (paths : list string) (d : string) :
  envOf o env → getwd o = Some d →
  ∀ items, shareItems o paths = Some items →
           server.statItems env paths = server.Ok items.
Proof.
  intros [Hwd Hstat] Hd. induction paths as [|p paths IH]; intros items; simpl.
  - by intros [= <-].
  - rewrite Hwd, Hstat, Hd.
    assert (Habs : ∃ a, filepath.Abs (Some d) p = Some a).
    { unfold filepath.Abs. destruct (filepath.IsAbs p); eauto. }
    destruct Habs as [a Ha]. rewrite Ha. simpl.
    destruct (stat o a) as [isDir size mt| |]; try done.
    destruct (shareItems o paths) as [rest|]; [|done]. simpl.
    intros [= <-]. by rewrite (IH rest eq_refl).
Qed.


Lemma startServerProcess_started_inv (o : Oracle) (paths : list string) (port : Z)
    (username password : string) (s s' : System) (pid : Z) :
  startServerProcess o paths port username password s = Return (pid, None) s' →
  disk s' = disk s
  ∧ server_pid s' = Pid pid
  ∧ events s' = events s ++ [EvStart (CmdServer paths port username password) pid;
                              EvSleep 300].
Proof.
  unfold startServerProcess.
  destruct (executable_ok o); [|done]. destruct (log_ok o); [|done]. cbn [negb].
  destruct (start o _) as [p|]; [|done].
  unfold bind, effect, ret, Sleep, emit, advance. cbn. intros [= <- <-]. cbn.
  by rewrite <- app_assoc.
Qed.

Lemma tunnel_Start_keeps (o : Oracle) (tunnelName : string) (s s' : System)
    (pid : Z) (err : option tunnel.Error) :
  tunnel.Start o tunnelName s = (pid, err, s') →
  disk s' = disk s ∧ server_pid s' = server_pid s
  ∧ ∃ evs, events s' = events s ++ evs.
Proof.
  unfold tunnel.Start, tunnel.GetRunningPID, tunnel.isProcessRunning.
  destruct (lookPath_ok o); cbn [negb].
  2: { intros [= <- <- <-]. repeat split. exists []. by rewrite app_nil_r. }
  assert (Hfresh : ∀ s0, disk s0 = disk s → server_pid s0 = server_pid s →
            events s0 = events s →
            (if negb (log_ok o) then (0, Some tunnel.ErrCreateTunnelLog, s0)
             else match start o (CmdTunnel tunnelName) with
                  | Some pid0 =>
                      let s1 := emit (EvStart (CmdTunnel tunnelName) pid0) s0 in
                      if negb (savePID_ok o)
                      then (pid0, Some tunnel.ErrSaveTunnelPid, signal pid0 SIGKILL s1)
                      else
                        let s2 := set_tunnel_pid (Pid pid0) s1 in
                        let s3 := Sleep 500 s2 in
                        if negb (probe o pid0 (clock s3))
                        then (0, Some (tunnel.ErrDiedImmediately
                                         (configDir o +:+ "/tunnel.log")), s3)
                        else (pid0, None, s3)
                  | None => (0, Some tunnel.ErrStartCloudflared, s0)
                  end) = (pid, err, s') →
            disk s' = disk s ∧ server_pid s' = server_pid s
            ∧ ∃ evs, events s' = events s ++ evs).
  { intros s0 Hd0 Hp0 He0.
    destruct (log_ok o); cbn [negb].
    2: { intros [= <- <- <-]. repeat split; try done. exists []. by rewrite app_nil_r. }
    destruct (start o _) as [pid0|].
    2: { intros [= <- <- <-]. repeat split; try done. exists []. by rewrite app_nil_r. }
    cbn zeta. destruct (savePID_ok o); cbn [negb].
    - destruct (probe o pid0 _); cbn [negb]; intros [= <- <- <-]; cbn;
        rewrite ?Hd0, ?Hp0, ?He0; repeat split; eexists; by rewrite <- app_assoc.
    - intros [= <- <- <-]. cbn. rewrite ?Hd0, ?Hp0, ?He0. repeat split.
      eexists. by rewrite <- app_assoc. }
  destruct (tunnel_pid s) as [| |p].
  - rewrite bool_decide_eq_false_2 by lia. by apply Hfresh.
  - rewrite bool_decide_eq_false_2 by lia. by apply Hfresh.
  - destruct (probe o p (clock s)); cbn [negb].
    + case_bool_decide.
      * intros [= <- <- <-]. repeat split. exists []. by rewrite app_nil_r.
      * by apply Hfresh.
    + rewrite bool_decide_eq_false_2 by lia. by apply Hfresh.
Qed.

Lemma Save_fields (st : State.t) (d : Disk) :
  State.Mode (Save st d).1.2 = State.Mode st
  ∧ State.Username (Save st d).1.2 = State.Username st
  ∧ State.Password (Save st d).1.2 = State.Password st
  ∧ State.ServerPID (Save st d).1.2 = State.ServerPID st
  ∧ State.Items (Save st d).1.2 = State.Items st.
Proof.
  unfold Save. destruct (dir_ok d); cbn [negb]; [|done].
  assert (H : State.Mode (sync_legacy st) = State.Mode st
              ∧ State.Username (sync_legacy st) = State.Username st
              ∧ State.Password (sync_legacy st) = State.Password st
              ∧ State.ServerPID (sync_legacy st) = State.ServerPID st
              ∧ State.Items (sync_legacy st) = State.Items st).
  { do 4 (split; [unfold sync_legacy; by destruct (State.Items st) as [|it [|it2 rest]]|]).
    apply sync_legacy_Items. }
  by destruct (write_ok d).
Qed.

(** the password [cmdShare] settles on *)
Lemma cmdShare_password (x : ShareOracle) (public : bool) (password pw : string) :
  (if negb public && bool_decide (password = "")
   then auth.GeneratePassword (rand_Read x) config.PasswordLength
   else Some password) = Some pw →
  (password ≠ "" → pw = password)
  ∧ (public = false → password = "" → String.length pw = config.PasswordLength).
Proof.
  intros Hpw. split.
  - intros Hne. rewrite bool_decide_eq_false_2, andb_false_r in Hpw by done.
    by injection Hpw.
  - intros -> ->. rewrite bool_decide_eq_true_2 in Hpw by done. cbn [negb andb] in Hpw.
    destruct (GeneratePassword_length (rand_Read x) config.PasswordLength)
      as (pw' & Hgen & Hlen).
    rewrite Hgen in Hpw. by injection Hpw as <-.
Qed.

(** the server [cmdShare] started, and the credentials in the state *)
Lemma cmdShare_started_with (o : Oracle) (x : ShareOracle) (paths : list string)
    (public : bool) (password : string) (port : Z) (tunnelName publicURL : string)
    (s s' : System) (st : State.t) :
  cmdShare o x paths public password port tunnelName publicURL s = Shared st s' →
  ∃ pw,
    (if negb public && bool_decide (password = "")
     then auth.GeneratePassword (rand_Read x) config.PasswordLength
     else Some password) = Some pw
    ∧ EvStart (CmdServer paths port (if public then "" else config.DefaultUsername) pw)
              (State.ServerPID st) ∈ events s'
    ∧ State.Mode st = (if public then ModePublic else ModeProtected)
    ∧ State.Username st = (if public then "" else config.DefaultUsername)
    ∧ State.Password st = (if public then "" else pw).
Proof.
  intros Hshare.
  destruct (cmdShare_Shared _ _ _ _ _ _ _ _ _ _ _ Hshare)
    as (_ & _ & s1 & pw & url & serverPID & s2 & tunnelPID & s3 & items
        & _ & Hpw & _ & Hserver & Htunnel & _ & -> & ->).
  destruct (startServerProcess_started_inv _ _ _ _ _ _ _ _ Hserver) as (_ & _ & Hev2).
  destruct (tunnel_Start_keeps _ _ _ _ _ _ Htunnel) as (_ & _ & evs & Hev3).
  set (st0 := shareState _ _ _ _ _ _ _ _ _ _).
  destruct (Save_fields st0 (disk s3)) as (Hmode & Huser & Hpass & Hpid & _).
  exists pw. split; [exact Hpw|]. split.
  - rewrite Hpid. cbn [events set_disk]. rewrite Hev3, Hev2.
    apply elem_of_app. left. apply elem_of_app. right. by left.
  - rewrite Hmode, Huser, Hpass. subst st0. unfold shareState. cbn.
    by destruct public.
Qed.

Lemma shareState_Items shareID startTime public username password port url
    serverPID tunnelPID items :
  State.Items (shareState shareID startTime public username password port url
                 serverPID tunnelPID items) = items.
Proof. reflexivity. Qed.



(** X18. The server process accepts what [cmdShare] accepted. When
    [cmdShare] returns for a non-empty list of paths, under a working
    directory that can be determined, then [NewServer] in a process that
    sees the same file system succeeds on these paths: no path is invalid
    or inaccessible and no two names collide. The server holds exactly the
    items of the persisted state, puts them into the state it is given, and
    runs in multi mode exactly when the state says so. *)
Theorem cmdShare_server_agrees (o : Oracle) (x : ShareOracle) (paths : list string)
    (public : bool) (password : string) (port : Z) (tunnelName publicURL : string)
    (s s' : System) (st st0 : State.t) (env : server_types.Env) (d : string) :
  envOf o env → getwd o = Some d → paths ≠ [] →
  cmdShare o x paths public password port tunnelName publicURL s = Shared st s' →
  ∃ srv st1,
    server.NewServer env paths st0 = server.Ok (srv, st1)
    ∧ server.items srv = State.Items st
    ∧ State.Items st1 = State.Items st
    ∧ server.isMulti srv = State.IsMulti st.
Proof.
  intros Henv Hwd Hne Hshare.
  destruct (cmdShare_Shared _ _ _ _ _ _ _ _ _ _ _ Hshare)
    as (_ & Hnd & s1 & pw & url & serverPID & s2 & tunnelPID & s3 & items
        & _ & _ & _ & _ & _ & Hitems & -> & _).
  pose proof (shareItems_statItems o env paths d Henv Hwd items Hitems) as Hstat.
  pose proof (shareItems_names o paths items Hitems) as Hnames.
  assert (Hmap : ∃ m, server.buildItemMap items = server.Ok m).
  { apply buildItemMap_succeeds_iff. by rewrite Hnames. }
  destruct Hmap as [m Hm].
  set (stS := shareState _ _ _ _ _ _ _ _ _ _).
  destruct (Save_fields stS (disk s3)) as (_ & _ & _ & _ & HItems).
  assert (Hmulti : State.IsMulti (Save stS (disk s3)).1.2
                   = bool_decide (1 < length items)%nat).
  { unfold Save. destruct (dir_ok (disk s3)); cbn [negb]; [|done].
    assert (State.IsMulti (sync_legacy stS) = bool_decide (1 < length items)%nat).
    { unfold sync_legacy. subst stS. rewrite shareState_Items.
      by destruct items as [|it [|it2 rest]]. }
    by destruct (write_ok (disk s3)). }
  rewrite HItems, Hmulti. subst stS. rewrite shareState_Items.
  unfold server.NewServer. destruct paths as [|p paths]; [done|].
  rewrite Hstat, Hm.
  destruct items as [|it [|it2 rest]]; [done|..]; eexists _, _; by repeat split.
Qed.

(** X17. The credentials of a share. When [cmdShare] returns, the server
    process was started with the paths, the port and the credentials of the
    share, and its pid is the server pid of the state. A public share has
    the mode [public] and neither a username nor a password in its state
    (also when a password was given), and its server is started with the
    empty username. A protected share has the mode [protected], the
    username [dl] and a password that is not empty: the one given, or,
    when none was given, a generated one of sixteen characters. *)
Theorem cmdShare_credentials (o : Oracle) (x : ShareOracle) (paths : list string)
    (public : bool) (password : string) (port : Z) (tunnelName publicURL : string)
    (s s' : System) (st : State.t) :
  cmdShare o x paths public password port tunnelName publicURL s = Shared st s' →
  ∃ pw,
    EvStart (CmdServer paths port (if public then "" else config.DefaultUsername) pw)
            (State.ServerPID st) ∈ events s'
    ∧ (if public
       then State.Mode st = ModePublic
            ∧ State.Username st = "" ∧ State.Password st = ""
       else State.Mode st = ModeProtected
            ∧ State.Username st = config.DefaultUsername
            ∧ State.Password st = pw
            ∧ pw ≠ ""
            ∧ (password ≠ "" → pw = password)
            ∧ (password = "" → String.length pw = config.PasswordLength)).
Proof.
  intros Hshare.
  destruct (cmdShare_started_with _ _ _ _ _ _ _ _ _ _ _ Hshare)
    as (pw & Hpw & Hev & Hmode & Huser & Hpass).
  destruct (cmdShare_password x public password pw Hpw) as [Hgiven Hgen].
  exists pw. split; [exact Hev|].
  destruct public; [done|].
  split; [done|]. split; [done|]. split; [done|].
  split; [|split; [done|by apply Hgen]].
  destruct (decide (password = "")) as [Hempty|Hne].
  - specialize (Hgen eq_refl Hempty). by intros ->.
  - by rewrite (Hgiven Hne).
Qed.


(** X20. The mode of a share is enforced by its server. When [cmdShare]
    returns, the server process was started with the credentials [user] and
    [pw] named here, and whatever handler [runServerProcess] mounts with
    them: for a public share every request reaches [handleRequest] and is
    answered by it, without any credentials; for a protected share every
    request that does not carry [Basic] with an encoding of [user:pw] is
    answered by [unauthorized] and reaches nothing behind the
    authentication layer (it is neither served nor recorded). *)
Theorem share_mode_enforced (o : Oracle) (x : ShareOracle)
    (paths : list string) (public : bool) (password : string) (port : Z)
    (tunnelName publicURL : string) (s s' : System) (st : State.t) :
  cmdShare o x paths public password port tunnelName publicURL s = Shared st s' →
  ∃ user pw,
    EvStart (CmdServer paths port user pw) (State.ServerPID st) ∈ events s'
    ∧ ∀ b64decode env d handler r w,
        runServerProcess b64decode env d paths user pw = server.Ok handler →
        if public
        then ∃ srv w', handler r w = (server.handleRequest srv env r, w')
        else ¬ carries b64decode user pw r → handler r w = (auth.unauthorized, w).
Proof.
  intros Hshare.
  destruct (cmdShare_started_with _ _ _ _ _ _ _ _ _ _ _ Hshare)
    as (pw & Hchosen & Hev & _).
  exists (if public then "" else config.DefaultUsername), pw. split; [exact Hev|].
  intros b64decode env d handler r w Hrun.
  unfold runServerProcess in Hrun.
  destruct (server.NewServer env paths _) as [[srv st1]|err]; [|done].
  injection Hrun as <-. unfold server.Start. destruct public.
  - rewrite (bool_decide_eq_true_2 ("" = "")) by done. cbn [negb andb].
    destruct (loggingMiddleware_one_record srv env r w) as (w' & Hw' & _).
    by exists srv, w'.
  - assert (Hpw : pw ≠ "").
    { destruct (cmdShare_password x false password pw Hchosen) as [Hgiven Hgen].
      destruct (decide (password = "")) as [Hempty|Hne].
      - specialize (Hgen eq_refl Hempty). by intros ->.
      - by rewrite (Hgiven Hne). }
    rewrite (bool_decide_eq_false_2 (config.DefaultUsername = "")) by done.
    rewrite (bool_decide_eq_false_2 (pw = "")) by done. cbn [negb andb].
    intros Hno.
    destruct (BasicAuthMiddleware_cases b64decode _ config.DefaultUsername pw
                (server.loggingMiddleware env
                   (λ r w, (server.handleRequest srv env r, w))) r w)
      as [H|[H _]]; [exact H|done].
Qed.

(** X15 on a path that does not exist *)
Lemma cmdShare_refuses_example :
  ∃ why,
    cmdShare example_oracle example_share_oracle ["/srv/none.txt"] false "" 8787
      "cfshare" "" example_system
    = ShareExited why example_system
    ∧ ((∃ path, why = ShareErrPathMissing path ∧ path ∈ ["/srv/none.txt"]
                ∧ ¬ found example_oracle path)
       ∨ (Forall (found example_oracle) ["/srv/none.txt"]
          ∧ ∃ name existing absPath,
              why = ShareErrNameConflict name existing absPath
              ∧ ∃ p, p ∈ ["/srv/none.txt"] ∧ name = displayName example_oracle p)).
Proof.
  refine (cmdShare_refuses example_oracle example_share_oracle ["/srv/none.txt"]
            false "" 8787 "cfshare" "" example_system _).
  left. intros H. inversion H as [|? ? Hfound _]. exact Hfound.
Defined.


(** X17 on the share of [/srv/file1.txt]: protected, with a generated
    password *)
Lemma cmdShare_credentials_example :
  ∃ st s' pw,
    example_share live_oracle = Shared st s'
    ∧ EvStart (CmdServer ["/srv/file1.txt"] 8787 config.DefaultUsername pw)
              (State.ServerPID st) ∈ events s'
    ∧ State.Password st = pw ∧ pw ≠ "".
Proof.
  eexists _, _.
  match goal with
  | |- ∃ pw, _ = Shared ?st ?s' ∧ _ =>
      assert (Hrun : example_share live_oracle = Shared st s')
        by (vm_compute; reflexivity);
      destruct (cmdShare_credentials live_oracle example_share_oracle
                  ["/srv/file1.txt"] false "" 8787 "cfshare" "" idle_system s' st Hrun)
        as (pw & Hev & _ & _ & Hpass & Hne & _)
  end.
  exists pw. split; [exact Hrun|]. split; [exact Hev|]. split; [exact Hpass|exact Hne].
Defined.

(** X18 on the share of [/srv/file1.txt] *)
Lemma cmdShare_server_agrees_example :
  ∃ st s' srv st1,
    example_share live_oracle = Shared st s'
    ∧ server.NewServer example_share_env ["/srv/file1.txt"] State.zero
      = server.Ok (srv, st1)
    ∧ server.items srv = State.Items st.
Proof.
  eexists _, _.
  match goal with
  | |- ∃ srv st1, _ = Shared ?st ?s' ∧ _ =>
      assert (Hrun : example_share live_oracle = Shared st s')
        by (vm_compute; reflexivity);
      destruct (cmdShare_server_agrees live_oracle example_share_oracle
                  ["/srv/file1.txt"] false "" 8787 "cfshare" "" idle_system s' st
                  State.zero example_share_env "/home/u")
        as (srv & st1 & Hnew & Hitems & _)
  end.
  - split; reflexivity.
  - reflexivity.
  - done.
  - exact Hrun.
  - exists srv, st1. split; [exact Hrun|]. split; [exact Hnew|exact Hitems].
Defined.


(** X20 on the share of [/srv/file1.txt] *)
Lemma share_mode_enforced_example :
  ∃ st s' user pw,
    example_share live_oracle = Shared st s'
    ∧ EvStart (CmdServer ["/srv/file1.txt"] 8787 user pw) (State.ServerPID st)
        ∈ events s'
    ∧ ∀ handler,
        runServerProcess no_b64 example_share_env (disk s') ["/srv/file1.txt"] user pw
        = server.Ok handler →
        handler (example_request "/") example_world
        = (auth.unauthorized, example_world).
Proof.
  eexists _, _.
  match goal with
  | |- ∃ user pw, _ = Shared ?st ?s' ∧ _ =>
      assert (Hrun : example_share live_oracle = Shared st s')
        by (vm_compute; reflexivity);
      destruct (share_mode_enforced live_oracle example_share_oracle
                  ["/srv/file1.txt"] false "" 8787 "cfshare" "" idle_system s' st Hrun)
        as (user & pw & Hev & Hall)
  end.
  exists user, pw. split; [exact Hrun|]. split; [exact Hev|].
  intros handler Hhandler.
  apply (Hall no_b64 example_share_env _ handler (example_request "/") example_world
           Hhandler).
  intros (payload & Hauth & _). discriminate Hauth.
Defined.

End sharing.

(** ** The item names across [cmdAdd] and [cmdRemove] *)

Section distinct_names.
Import state sys main.









End distinct_names.

(** ** What [cmdAdd] and [cmdRemove] leave behind *)

Section add_remove_effects.
Import state sys main.











End add_remove_effects.

(** ** [cmdAdd] and [cmdRemove] that fail *)

Section failures.
Import state sys main.

(** [restartServer] exits only when the server does not start, and then it
    has done no more than stop the old one *)
Lemma restartServer_Exit (o : Oracle) (st : State.t) (s s' : System) (why : ExitReason) :
  restartServer o st s = Exit why s' →
  why = ErrRestartServer
  ∧ disk s' = disk s ∧ server_pid s' = server_pid s ∧ tunnel_pid s' = tunnel_pid s
  ∧ ∃ evs, events s' = events s ++ evs
           ∧ Forall (λ e, signalTo (State.ServerPID st) e ∨ e = EvSleep 300) evs
           ∧ (State.ServerPID st > 0 →
              head evs = Some (EvSignal (State.ServerPID st) SIGTERM)).
Proof.
  unfold restartServer.
  assert (Hstop : ∃ s1 evs,
    (if bool_decide (State.ServerPID st > 0)
     then run* stopProcess o (State.ServerPID st) false in effect (Sleep 300)
     else ret tt) s = Return tt s1
    ∧ disk s1 = disk s ∧ server_pid s1 = server_pid s ∧ tunnel_pid s1 = tunnel_pid s
    ∧ events s1 = events s ++ evs
    ∧ Forall (λ e, signalTo (State.ServerPID st) e ∨ e = EvSleep 300) evs
    ∧ (State.ServerPID st > 0 →
       head evs = Some (EvSignal (State.ServerPID st) SIGTERM))).
  { case_bool_decide as Hpid.
    - destruct (stopProcess_signals o (State.ServerPID st) false s)
        as (s1 & evs & Hs1 & Hd1 & Hp1 & Ht1 & Hev & Hall).
      unfold bind. rewrite Hs1.
      exists (Sleep 300 s1), (EvSignal (State.ServerPID st) SIGTERM :: evs ++ [EvSleep 300]).
      split; [reflexivity|]. cbn. rewrite Hev, <- app_assoc.
      do 4 (split; [done|]).
      split.
      + constructor; [left; by eexists|]. apply Forall_app. split.
        * eapply Forall_impl; [exact Hall|]. intros e He. by left.
        * constructor; [by right|constructor].
      + done.
    - exists s, []. rewrite app_nil_r. by repeat split. }
  destruct Hstop as (s1 & evs1 & Hs1 & Hd1 & Hp1 & Ht1 & Hev1 & Hall1 & Hhead1).
  unfold bind at 1. rewrite Hs1. unfold bind at 1.
  unfold startServerProcess.
  assert (Hdone : Exit (A:=State.t) ErrRestartServer s1 = Exit why s' →
            why = ErrRestartServer
            ∧ disk s' = disk s ∧ server_pid s' = server_pid s
            ∧ tunnel_pid s' = tunnel_pid s
            ∧ ∃ evs, events s' = events s ++ evs
                     ∧ Forall (λ e, signalTo (State.ServerPID st) e ∨ e = EvSleep 300) evs
                     ∧ (State.ServerPID st > 0 →
                        head evs = Some (EvSignal (State.ServerPID st) SIGTERM))).
  { intros [= <- <-]. do 4 (split; [done|]). by exists evs1. }
  destruct (executable_ok o); cbn [negb]; [|exact Hdone].
  destruct (log_ok o); cbn [negb]; [|exact Hdone].
  destruct (start o _) as [pid|]; [|exact Hdone].
  unfold bind, effect, ret, save. cbn.
  by destruct (Save _ _) as [[err st1] d1].
Qed.

Lemma addItems_Exit (o : Oracle) (paths : list string) (existing : gmap string bool)
    (acc : list ShareItem.t) (s s' : System) (why : ExitReason) :
  addItems o paths existing acc s = Exit why s' →
  s' = s ∧ why ≠ ErrRestartServer ∧ ∀ e, why ≠ ErrSaveState e.
Proof.
  revert existing acc. induction paths as [|path rest IH]; intros existing acc; simpl.
  - done.
  - destruct (stat o path) as [d0 z0 t0| |]; try (by intros [= <- <-]).
    destruct (default false _); [by intros [= <- <-]|].
    destruct (stat o _) as [isDir size mt| |]; try (by intros [= <- <-]).
    apply IH.
Qed.

(** X28. A refusal changes nothing. When [cmdAdd] or [cmdRemove] exits for
    any reason other than a failed save or a failed restart (no active
    share, a state file that cannot be read, a missing path, a name that
    exists, no item of the given names, the removal of all items), the
    system is exactly as before: nothing was written, no process was
    signalled or started, no time has passed. *)
Theorem add_remove_refusals (o : Oracle) (s s' : System) (why : ExitReason) :
  why ≠ ErrRestartServer → (∀ e, why ≠ ErrSaveState e) →
  (∀ paths, cmdAdd o paths s = Exit why s' → s' = s)
  ∧ (∀ names, cmdRemove o names s = Exit why s' → s' = s).
Proof.
  intros Hrestart Hsave. split.
  - intros paths. unfold cmdAdd. unfold bind at 1. unfold load.
    destruct (Load (disk s)) as [|e|st]; [by intros [= _ <-]..|].
    unfold bind at 1. destruct (IsRunning _ _); simpl; [|by intros [= _ <-]].
    unfold bind at 1.
    destruct (addItems o paths _ [] s) as [newItems s1|why1 s1] eqn:Hadd.
    2: { intros [= <- <-]. by apply addItems_Exit in Hadd as [-> _]. }
    pose proof (addItems_final o paths
                  (nameSet (map ShareItem.Name (State.Items st))) [] s) as Hfin.
    rewrite Hadd in Hfin. simpl in Hfin. subst s1.
    unfold bind at 1. unfold save.
    destruct (Save _ (disk s)) as [[err st3] d3].
    destruct err as [e|]; [intros [= <- _]; by destruct (Hsave e)|].
    unfold bind.
    destruct (restartServer o st3 (set_disk d3 s)) as [st4 s4|why4 s4] eqn:Hr; [done|].
    intros [= <- <-]. by apply restartServer_Exit in Hr as [-> _].
  - intros names. unfold cmdRemove. unfold bind at 1. unfold load.
    destruct (Load (disk s)) as [|e|st]; [by intros [= _ <-]..|].
    unfold bind at 1. destruct (IsRunning _ _); simpl; [|by intros [= _ <-]].
    case_bool_decide; [by intros [= _ <-]|].
    destruct (partitionItems _ _) as [remaining removed].
    case_bool_decide; [by intros [= _ <-]|]. case_bool_decide; [by intros [= _ <-]|].
    unfold bind at 1. unfold save.
    destruct (Save _ (disk s)) as [[err st3] d3].
    destruct err as [e|]; [intros [= <- _]; by destruct (Hsave e)|].
    unfold bind.
    destruct (restartServer o st3 (set_disk d3 s)) as [st4 s4|why4 s4] eqn:Hr; [done|].
    intros [= <- <-]. by apply restartServer_Exit in Hr as [-> _].
Qed.






(** X28 on a path that does not exist *)
Lemma add_remove_refusals_example :
  final (cmdAdd example_oracle ["/nope"] example_system) = example_system.
Proof.
  refine (proj1 (add_remove_refusals example_oracle example_system _
                   (ErrPathMissing "/nope") _ _) ["/nope"] _).
  - done.
  - done.
  - vm_compute. reflexivity.
Defined.


End failures.

(** ** The scenarios of the specification and of the repository's tests *)

Section scenarios.
Import state server_types server.

(** [GET /] on the two-item share lists the directory before the file *)
Example scenario_root_listing :
  statusCode (handleRequest example_server example_env (example_request "/"))
  = http.StatusOK
  ∧ map FileInfo.Name
      (listing_files (handleRequest example_server example_env (example_request "/")))
    = ["dir"; "a.txt"].
Proof. split; vm_compute; reflexivity. Qed.

(** [GET /a.txt] serves the file as an attachment *)
Example scenario_file :
  body (handleRequest example_server example_env (example_request "/a.txt"))
  = BodyFile "/tmp/a.txt".
Proof. vm_compute. reflexivity. Qed.

(** [GET /dir/../../../etc/passwd]: cleaning a rooted path drops the parent
    segments, and [etc] is no item *)
Example scenario_traversal :
  filepath.Clean "/dir/../../../etc/passwd" = "/etc/passwd"
  ∧ statusCode (handleRequest example_server example_env
                  (example_request "/dir/../../../etc/passwd"))
    = http.StatusNotFound.
Proof. split; vm_compute; reflexivity. Qed.

(** a sub-path that climbs out of a directory item is refused *)
Example scenario_subpath_forbidden :
  statusCode (serveDirWithBase example_env (example_request "/dir/x") ∅
                "/tmp/dir" "/dir" "../a.txt")
  = http.StatusForbidden.
Proof. vm_compute. reflexivity. Qed.

(** the order of a listing with two directories and two files *)
Example scenario_sort :
  map FileInfo.Name
    (sort.Slice less
       [FileInfo.mk "b.txt" 1 zeroTime false "/b.txt";
        FileInfo.mk "zeta" 0 zeroTime true "/zeta/";
        FileInfo.mk "a.txt" 2 zeroTime false "/a.txt";
        FileInfo.mk "alpha" 0 zeroTime true "/alpha/"])
  = ["alpha"; "zeta"; "a.txt"; "b.txt"].
Proof. vm_compute. reflexivity. Qed.

(** two paths with one base name: no server *)
Example scenario_name_conflict :
  buildItemMap [ShareItem.mk "/d1/test.txt" "test.txt" TypeFile 8;
                ShareItem.mk "/d2/test.txt" "test.txt" TypeFile 8]
  = Err (ErrNameConflict "test.txt").
Proof. vm_compute. reflexivity. Qed.

(** with the right credentials the request is served and counted once; with
    a wrong password it is turned away and not counted *)
Example scenario_authorized :
  statusCode (Start example_b64 example_server example_env "dl" "secret"
                (authorized_request "/") example_world).1 = http.StatusOK
  ∧ (LoadStats (disk (Start example_b64 example_server example_env "dl" "secret"
                        (authorized_request "/") example_world).2)).1.1 = 1
  ∧ statusCode (Start example_b64 example_server example_env "dl" "other"
                  (authorized_request "/") example_world).1 = http.StatusUnauthorized
  ∧ (LoadStats (disk (Start example_b64 example_server example_env "dl" "other"
                        (authorized_request "/") example_world).2)).1.1 = 0.
Proof. repeat split; vm_compute; reflexivity. Qed.

End scenarios.
